(** * Event-booking server: ownership, identity resolution and resource lifecycle

    A shallow embedding of [index.js]: the authentication middleware
    [authenticateToken], the authorization helper [isCreator], the
    availability guard [checkDbConnection] with [connectToMongoDB], the
    route handlers for groups, joins, articles and comments, and the merge
    of the two per-day series of [/dashboard-stats].

    JavaScript values are an inductive type with the language's truthiness
    and strict equality; request bodies and stored documents are finite
    maps from field names to values; the handlers pass the server state
    explicitly and return the HTTP response together with the new state
    and the trace of the external calls they made. *)

From Stdlib Require Import PrimFloat.
From stdpp Require Import gmap strings list fin_maps sorting.
From Stdlib Require Import ZArith String Ascii Sorted OrderedTypeEx.
Set Warnings "-register-all".

#[local] Open Scope Z_scope.
#[local] Open Scope string_scope.
#[local] Open Scope list_scope.

(** ** JavaScript values *)

(** Numbers are modelled by integers: the handlers do no arithmetic on
    document fields, they only test numbers for truthiness and equality. *)
Inductive value : Type :=
  | VUndefined
  | VNull
  | VBool (b : bool)
  | VNum (n : Z)
  | VStr (s : string)
  | VArr (xs : list value)
  | VObj (fields : list (string * value)).

(** [ToBoolean]: [undefined], [null], [false], [0] and the empty string are
    falsy, everything else (arrays and objects included) is truthy. *)
Definition truthy (v : value) : bool :=
  match v with
  | VUndefined | VNull => false
  | VBool b => b
  | VNum n => negb (n =? 0)%Z
  | VStr s => negb (s =? EmptyString)%string
  | VArr _ | VObj _ => true
  end.

(** [a === b] between a value read from a stored document and a value of
    the request: primitives compare by type and content; arrays and objects
    compare by reference, and two values decoded from different sources are
    never the same reference. *)
Definition strict_eq (a b : value) : bool :=
  match a, b with
  | VUndefined, VUndefined => true
  | VNull, VNull => true
  | VBool x, VBool y => Bool.eqb x y
  | VNum x, VNum y => (x =? y)%Z
  | VStr x, VStr y => (x =? y)%string
  | _, _ => false
  end.

(** [a || b] on values. *)
Definition js_or (a b : value) : value := if truthy a then a else b.

(** Structural equality of values, used by the document store to match a
    query value against a stored one. *)
Fixpoint value_eqb (a b : value) {struct a} : bool :=
  match a, b with
  | VUndefined, VUndefined => true
  | VNull, VNull => true
  | VBool x, VBool y => Bool.eqb x y
  | VNum x, VNum y => (x =? y)%Z
  | VStr x, VStr y => (x =? y)%string
  | VArr xs, VArr ys =>
      (fix go (l r : list value) {struct l} : bool :=
         match l, r with
         | [], [] => true
         | x :: l', y :: r' => value_eqb x y && go l' r'
         | _, _ => false
         end) xs ys
  | VObj xs, VObj ys =>
      (fix go (l r : list (string * value)) {struct l} : bool :=
         match l, r with
         | [], [] => true
         | (k, x) :: l', (k', y) :: r' =>
             (k =? k')%string && value_eqb x y && go l' r'
         | _, _ => false
         end) xs ys
  | _, _ => false
  end.

(** ** Objects: request bodies and documents *)

(** A JSON object is a finite map from property names to values; reading a
    missing property gives [undefined]. *)
Abbreviation doc := (gmap string value).

Definition get (o : doc) (k : string) : value := default VUndefined (o !! k).


(** ** Authorization helper *)

(** [isCreator(resource, userEmail, userUid)]: three probes by email, then
    three by uid, each guarded by the truthiness of the resource's field. *)
Definition isCreator (resource : doc) (userEmail userUid : value) : bool :=
  if truthy (get resource "userEmail")
     && strict_eq (get resource "userEmail") userEmail then true
  else if truthy (get resource "creatorEmail")
     && strict_eq (get resource "creatorEmail") userEmail then true
  else if truthy (get resource "authorEmail")
     && strict_eq (get resource "authorEmail") userEmail then true
  else if truthy (get resource "userId")
     && strict_eq (get resource "userId") userUid then true
  else if truthy (get resource "creatorId")
     && strict_eq (get resource "creatorId") userUid then true
  else if truthy (get resource "authorId")
     && strict_eq (get resource "authorId") userUid then true
  else false.

(** ** Responses, identities and external calls *)

Record response : Type := Response { status : Z; message : string }.

(** [req.user], as the authentication middleware attaches it. *)
Record identity : Type := Identity { uid : value; email : value; name : value }.

(** The claims of a verified Firebase ID token that the middleware reads:
    the subject id, and the optional [email] and [name] claims. *)
Record decodedToken : Type :=
  DecodedToken { d_uid : string; d_email : option string; d_name : option string }.

(** Calls that leave the process, in the order they are made. *)
Inductive event : Type :=
  | EvVerifyIdToken (token : string)
  | EvPing
  | EvConnect (attempt : nat)
  | EvSleep (delay : float).

Definition opt_str (o : option string) : value :=
  match o with Some s => VStr s | None => VUndefined end.

(** [s.split(sep)[0]]: the part of [s] before the first occurrence of [sep],
    all of [s] when there is none. *)
Definition before_first (sep s : string) : string :=
  match String.index 0 sep s with
  | Some i => String.substring 0 i s
  | None => s
  end.

(** [v?.split("@")[0]] on a string or an absent value. *)
Definition local_part (v : value) : value :=
  match v with
  | VStr s => VStr (before_first "@" s)
  | _ => VUndefined
  end.

(** [authHeader?.startsWith("Bearer ") ? authHeader.split("Bearer ")[1] : null]:
    the text between the leading ["Bearer "] and the next occurrence of
    that separator. *)
Definition bearer_token (authHeader : option string) : value :=
  match authHeader with
  | Some h =>
      if String.prefix "Bearer " h
      then VStr (before_first "Bearer " (String.substring 7 (String.length h - 7) h))
      else VNull
  | None => VNull
  end.

Definition header (headers : gmap string string) (k : string) : value :=
  opt_str (headers !! k).

(** The fallback pair: [req.headers["x-user-email"] || req.headers["user-email"]]
    and [req.headers["x-user-uid"] || req.headers["user-uid"]]. *)
Definition claimed_email (headers : gmap string string) : value :=
  js_or (header headers "x-user-email") (header headers "user-email").

Definition claimed_uid (headers : gmap string string) : value :=
  js_or (header headers "x-user-uid") (header headers "user-uid").

Inductive auth_result : Type :=
  | Next (user : identity)
  | Rejected (r : response).

(** ** Authentication middleware *)

Section Authentication.
(** Whether [admin.initializeApp] succeeded at start-up, and the outcome of
    [admin.auth().verifyIdToken] on a token ([None]: the promise rejects). *)
Variable firebaseAdminInitialized : bool.
Variable verifyIdToken : string -> option decodedToken.

Definition identity_of_token (d : decodedToken) : identity :=
  {| uid := VStr (d_uid d);
     email := opt_str (d_email d);
     name := js_or (opt_str (d_name d)) (local_part (opt_str (d_email d))) |}.

(** The tail of [authenticateToken], after both ways of resolving an
    identity have been tried. *)
Definition reject (token userEmail : value) : response :=
  if negb (truthy token) && negb (truthy userEmail) then
    Response 401 "Unauthorized: Please log in again. No authentication token or user info provided."
  else if truthy token && negb (truthy userEmail) then
    Response 401 "Unauthorized: Please log in again. Token verification failed."
  else
    Response 401 "Unauthorized: Authentication failed".

Definition authenticateToken (headers : gmap string string)
  : auth_result * list event :=
  let token := bearer_token (headers !! "authorization") in
  let userEmail := claimed_email headers in
  let userUid := claimed_uid headers in
  if truthy userEmail && truthy userUid then
    (Next {| uid := userUid; email := userEmail; name := local_part userEmail |}, [])
  else
    match token with
    | VStr t =>
        if truthy token && firebaseAdminInitialized then
          match verifyIdToken t with
          | Some decoded => (Next (identity_of_token decoded), [EvVerifyIdToken t])
          | None => (Rejected (reject token userEmail), [EvVerifyIdToken t])
          end
        else (Rejected (reject token userEmail), [])
    | _ => (Rejected (reject token userEmail), [])
    end.
End Authentication.

(** ** Availability guard *)

(** The module-level connection state: the flag [dbConnected] and whether
    the handle [db] has been set. *)
Record connection : Type := Connection { dbConnected : bool; db : bool }.

(** What the network does while one call runs: whether the driver reports
    its topology as connected, each time it is asked during the call,
    whether the [i]-th [client.connect()] and the ping that verifies it
    succeed, and whether the guard's ping succeeds. *)
Record network : Type := Network {
  topology_connected : bool;
  connect_ok : nat -> bool;
  verify_ok : nat -> bool;
  ping_ok : bool
}.

Definition connected : connection := Connection true true.

(** The loop of [connectToMongoDB(retries, delay)], at iteration [i] with
    [remaining = retries - i] iterations left. *)
Fixpoint connect_attempts (net : network) (retries remaining i : nat) (delay : float)
    (c : connection) : bool * connection * list event :=
  match remaining with
  | O => (false, c, [])
  | S remaining' =>
      let failed (evs : list event) :=
        if (i <? retries - 1)%nat then
          let '(ok, c', tr) :=
            connect_attempts net retries remaining' (S i) (delay * 1.5)%float c in
          (ok, c', evs ++ EvSleep delay :: tr)
        else (false, {| dbConnected := false; db := db c |}, evs) in
      if topology_connected net then (true, connected, [])
      else if connect_ok net i then
        if verify_ok net i then (true, connected, [EvConnect i; EvPing])
        else failed [EvConnect i; EvPing]
      else failed [EvConnect i]
  end.

Definition connectToMongoDB (net : network) (retries : nat) (delay : float)
    (c : connection) : bool * connection * list event :=
  connect_attempts net retries retries 0 delay c.

(** [checkDbConnection(res)]: [None] lets the request through, [Some r]
    answers it with [r]. *)
Definition checkDbConnection (net : network) (c : connection)
    : option response * connection * list event :=
  if negb (dbConnected c) || negb (db c) then
    if negb (topology_connected net) then
      let '(reconnected, c', tr) := connectToMongoDB net 1 1000 c in
      if reconnected then (None, c', tr)
      else (Some (Response 503 "Database connection not available"), c', tr)
    else (Some (Response 503 "Database connection not available"), c, [])
  else if ping_ok net then (None, c, [EvPing])
  else (Some (Response 503 "Database connection lost"),
        {| dbConnected := false; db := db c |}, [EvPing]).

(** The guard lets a request through. *)
Definition lets_through (net : network) (c : connection) : Prop :=
  fst (fst (checkDbConnection net c)) = None.

(** ** The document store *)

(** What the driver writes for a value: [undefined] is serialized as
    [null]. *)
Fixpoint bson (v : value) : value :=
  match v with
  | VUndefined => VNull
  | VArr xs => VArr (List.map bson xs)
  | VObj fields => VObj (List.map (fun kv => (fst kv, bson (snd kv))) fields)
  | _ => v
  end.

Definition bson_doc (d : doc) : doc := bson <$> d.

(** A field name that the server stores as it stands: not empty, without
    a dot, which makes a path, and without a leading dollar sign, which
    makes an operator. *)
Definition plain_name (k : string) : bool :=
  negb (k =? EmptyString)%string
  && negb (String.prefix "$" k)
  && match String.index 0 "." k with None => true | Some _ => false end.

Fixpoint plain_value (v : value) : bool :=
  match v with
  | VArr xs => forallb plain_value xs
  | VObj fields => forallb (fun kv => plain_name (fst kv) && plain_value (snd kv)) fields
  | _ => true
  end.

(** A request body that a write stores field by field: it brings no [_id]
    of its own and its names are plain at every depth. *)
Definition plain_body (body : doc) : bool :=
  match body !! "_id" with
  | Some _ => false
  | None =>
      forallb (fun kv => plain_name (fst kv) && plain_value (snd kv)) (map_to_list body)
  end.

(** Whether the query [{k: q}] selects a document whose field [k] is [f]:
    equality with the stored value or with an element of a stored array; a
    [null] query also selects the documents without the field.  The
    handlers build their queries from identifiers and emails; a query value
    is compared as it stands, query operators are not interpreted. *)
Definition field_matches (q : value) (f : option value) : bool :=
  match f with
  | None => value_eqb (bson q) VNull
  | Some v =>
      value_eqb v (bson q)
      || match v with
         | VArr xs => existsb (fun x => value_eqb x (bson q)) xs
         | _ => false
         end
  end.

Definition matches (query : list (string * value)) (d : doc) : bool :=
  forallb (fun kq => field_matches (snd kq) (d !! fst kq)) query.

(** ** Server state and route handlers *)

Section Server.
(** [ObjectId] belongs to the driver: [oid] is the type of identifiers,
    [ObjectId_isValid] is [ObjectId.isValid] on a route parameter and
    [ObjectId_new] is [new ObjectId(v)], [None] when the constructor
    throws. *)
Context {oid : Type} `{Countable oid} `{Infinite oid}.
Variable ObjectId_isValid : string -> bool.
Variable ObjectId_new : value -> option oid.
Variable firebaseAdminInitialized : bool.
Variable verifyIdToken : string -> option decodedToken.

(** A collection maps the [_id] of each document to its other fields. *)
Abbreviation collection := (gmap oid doc).

Record state : Type := State {
  conn : connection;
  groupCollection : collection;
  joinedCollection : collection;
  usersCollection : collection;
  articlesCollection : collection;
  commentsCollection : collection
}.

Definition set_conn (st : state) (c : connection) : state :=
  State c (groupCollection st) (joinedCollection st) (usersCollection st)
    (articlesCollection st) (commentsCollection st).
Definition set_groups (st : state) (g : collection) : state :=
  State (conn st) g (joinedCollection st) (usersCollection st)
    (articlesCollection st) (commentsCollection st).
Definition set_joined (st : state) (j : collection) : state :=
  State (conn st) (groupCollection st) j (usersCollection st)
    (articlesCollection st) (commentsCollection st).
Definition set_articles (st : state) (a : collection) : state :=
  State (conn st) (groupCollection st) (joinedCollection st) (usersCollection st)
    a (commentsCollection st).
Definition set_comments (st : state) (c : collection) : state :=
  State (conn st) (groupCollection st) (joinedCollection st) (usersCollection st)
    (articlesCollection st) c.

(** [insertOne(d)]: the driver gives the document a fresh [_id].  This is
    what it does for a document without an [_id] of its own.  A document
    that brings one is stored under that identifier, or refused when the
    identifier is taken: that case is not modelled, and [plain_body]
    excludes it. *)
Definition insertOne (c : collection) (d : doc) : collection :=
  <[fresh (dom c) := bson_doc d]> c.

(** [findOne(query)] for a query on fields: some selected document. *)
Definition findOne (c : collection) (query : list (string * value)) : option doc :=
  snd <$> head (map_to_list (filter (fun kv : oid * doc => matches query (snd kv) = true) c)).

(** [findOne({_id: o, ...query})]. *)
Definition findOne_id (c : collection) (o : oid) (query : list (string * value))
    : option doc :=
  match c !! o with
  | Some d => if matches query d then Some d else None
  | None => None
  end.

(** [updateOne({_id: o}, {$set: upd})]: the fields of [upd] replace the
    stored ones, the other fields stay.  The identifier of a stored
    document cannot change: an update that names [_id] is refused when it
    finds its document, the driver throws, and the result is [None].  The
    documents of a collection are stored under identifiers that the driver
    made, which no value of a request body equals.  Field names are taken
    as they stand: the paths and operators that the server reads in names
    with a dot or a leading dollar sign are not interpreted (see
    [plain_body]). *)
Definition updateOne_set (c : collection) (o : oid) (upd : doc) : option collection :=
  match c !! o, upd !! "_id" with
  | Some _, Some _ => None
  | _, _ => Some (alter (fun d => bson_doc upd ∪ d) o c)
  end.

(** [deleteOne({_id: o, ...query})], with its [deletedCount]. *)
Definition deleteOne_id (c : collection) (o : oid) (query : list (string * value))
    : Z * collection :=
  match findOne_id c o query with
  | Some _ => (1, delete o c)
  | None => (0, c)
  end.

(** [deleteMany(query)]. *)
Definition deleteMany (c : collection) (query : list (string * value)) : collection :=
  filter (fun kv : oid * doc => matches query (snd kv) = false) c.

(** [const dbCheck = await checkDbConnection(res); if (dbCheck) return dbCheck;]
    followed by the rest of the handler. *)
Definition with_db (net : network) (st : state) (k : state -> response * state)
    : response * state * list event :=
  let '(dbCheck, c, tr) := checkDbConnection net (conn st) in
  match dbCheck with
  | Some r => (r, set_conn st c, tr)
  | None => let '(r, st') := k (set_conn st c) in (r, st', tr)
  end.

(** A route behind [authenticateToken]. *)
Definition authenticated (headers : gmap string string) (st : state)
    (handler : identity -> response * state * list event)
    : response * state * list event :=
  match authenticateToken firebaseAdminInitialized verifyIdToken headers with
  | (Next user, tr) => let '(r, st', tr') := handler user in (r, st', tr ++ tr')
  | (Rejected r, tr) => (r, st, tr)
  end.

(** [POST /createGroup] *)
Definition createGroup (net : network) (now : string) (user : identity)
    (body : doc) (st : state) : response * state * list event :=
  with_db net st (fun st =>
    let groupData := body in
    let groupData := <["userEmail" := email user]> groupData in
    let groupData := <["userId" := uid user]> groupData in
    let groupData :=
      if negb (truthy (get groupData "creatorName"))
      then <["creatorName" := js_or (name user) (VStr "Unknown User")]> groupData
      else groupData in
    let groupData :=
      if negb (truthy (get groupData "creatorImage"))
      then <["creatorImage" := VStr "https://via.placeholder.com/40?text=No+Image"]> groupData
      else groupData in
    let groupData := <["createdAt" := VStr now]> groupData in
    (Response 201 "Group created successfully",
     set_groups st (insertOne (groupCollection st) groupData))).

(** [PUT /groups/:id] *)
Definition updateGroup (net : network) (now : string) (user : identity)
    (id : string) (body : doc) (st : state) : response * state * list event :=
  with_db net st (fun st =>
    if negb (ObjectId_isValid id) then (Response 400 "Invalid group ID format", st)
    else
      let updatedData := body in
      match ObjectId_new (VStr id) with
      | None => (Response 500 "Failed to update group", st)
      | Some o =>
          match findOne_id (groupCollection st) o [] with
          | None => (Response 404 "Group not found", st)
          | Some group =>
              if negb (isCreator group (email user) (uid user)) then
                (Response 403 "Forbidden: You can only update your own groups", st)
              else
                let updatedData := delete "userEmail" updatedData in
                let updatedData := delete "userId" updatedData in
                let updatedData := delete "creatorEmail" updatedData in
                let updatedData := delete "creatorId" updatedData in
                let updatedData := <["updatedAt" := VStr now]> updatedData in
                match updateOne_set (groupCollection st) o updatedData with
                | Some groups' =>
                    (Response 200 "Group updated successfully", set_groups st groups')
                | None => (Response 500 "Failed to update group", st)
                end
          end
      end).

(** [DELETE /groups/:id] *)
Definition deleteGroup (net : network) (user : identity) (id : string)
    (st : state) : response * state * list event :=
  with_db net st (fun st =>
    if negb (ObjectId_isValid id) then (Response 400 "Invalid group ID format", st)
    else
      match ObjectId_new (VStr id) with
      | None => (Response 500 "Failed to delete group", st)
      | Some o =>
          match findOne_id (groupCollection st) o [] with
          | None => (Response 404 "Group not found", st)
          | Some group =>
              if negb (isCreator group (email user) (uid user)) then
                (Response 403 "Forbidden: You can only delete your own groups", st)
              else
                let '(deletedCount, groups') := deleteOne_id (groupCollection st) o [] in
                let st := set_groups st groups' in
                if (deletedCount =? 1)%Z then
                  (Response 200 "Group deleted successfully",
                   set_joined st (deleteMany (joinedCollection st) [("groupId", VStr id)]))
                else (Response 404 "Group not found", st)
          end
      end).

(** [POST /joinGroup] *)
Definition joinGroup (net : network) (now : string) (user : identity)
    (body : doc) (st : state) : response * state * list event :=
  with_db net st (fun st =>
    let groupId := get body "groupId" in
    if negb (truthy groupId) then (Response 400 "Group ID is required", st)
    else
      let userEmail := email user in
      let userId := uid user in
      match findOne (joinedCollection st)
              [("groupId", groupId); ("userEmail", userEmail)] with
      | Some existing => (Response 409 "Already joined", st)
      | None =>
          match ObjectId_new groupId with
          | None => (Response 400 "Invalid group ID format", st)
          | Some o =>
              match findOne_id (groupCollection st) o [] with
              | None => (Response 404 "Group not found", st)
              | Some group =>
                  let joinedGroup : doc :=
                    <["groupId" := groupId]> (<["userEmail" := userEmail]>
                      (<["userId" := userId]> (<["joinedAt" := VStr now]> ∅))) in
                  (Response 201 EmptyString,
                   set_joined st (insertOne (joinedCollection st) joinedGroup))
              end
          end
      end).

(** [POST /articles] *)
Definition createArticle (net : network) (now : string) (user : identity)
    (body : doc) (st : state) : response * state * list event :=
  with_db net st (fun st =>
    let articleData := body in
    if negb (truthy (get articleData "title")) then
      (Response 400 "Title is required", st)
    else
      let articleData := <["authorEmail" := email user]> articleData in
      let articleData := <["authorId" := uid user]> articleData in
      let articleData := <["userEmail" := email user]> articleData in
      let articleData := <["userId" := uid user]> articleData in
      let articleData :=
        if negb (truthy (get articleData "authorName"))
        then <["authorName" := js_or (name user) (VStr "Anonymous")]> articleData
        else articleData in
      let articleData :=
        if negb (truthy (get articleData "coverImage"))
        then <["coverImage" := VStr "https://via.placeholder.com/800x400?text=No+Image"]> articleData
        else articleData in
      let articleData :=
        if negb (truthy (get articleData "publishDate"))
        then <["publishDate" := VStr now]> articleData
        else articleData in
      let articleData :=
        if negb (truthy (get articleData "createdAt"))
        then <["createdAt" := VStr now]> articleData
        else articleData in
      (Response 201 "Article created successfully",
       set_articles st (insertOne (articlesCollection st) articleData))).

(** [PUT /articles/:id] *)
Definition updateArticle (net : network) (now : string) (user : identity)
    (id : string) (body : doc) (st : state) : response * state * list event :=
  with_db net st (fun st =>
    if negb (ObjectId_isValid id) then (Response 400 "Invalid article ID", st)
    else
      match ObjectId_new (VStr id) with
      | None => (Response 500 "Failed to update article", st)
      | Some o =>
          match findOne_id (articlesCollection st) o [] with
          | None => (Response 404 "Article not found", st)
          | Some article =>
              if negb (isCreator article (email user) (uid user)) then
                (Response 403 "Forbidden: You can only update your own articles", st)
              else
                let updatedData := body in
                let updatedData := delete "authorEmail" updatedData in
                let updatedData := delete "authorId" updatedData in
                let updatedData := delete "userEmail" updatedData in
                let updatedData := delete "userId" updatedData in
                let updatedData := <["updatedAt" := VStr now]> updatedData in
                match updateOne_set (articlesCollection st) o updatedData with
                | Some articles' =>
                    (Response 200 "Article updated successfully",
                     set_articles st articles')
                | None => (Response 500 "Failed to update article", st)
                end
          end
      end).

(** [DELETE /articles/:id] *)
Definition deleteArticle (net : network) (user : identity) (id : string)
    (st : state) : response * state * list event :=
  with_db net st (fun st =>
    if negb (ObjectId_isValid id) then (Response 400 "Invalid article ID", st)
    else
      match ObjectId_new (VStr id) with
      | None => (Response 500 "Failed to delete article", st)
      | Some o =>
          match findOne_id (articlesCollection st) o [] with
          | None => (Response 404 "Article not found", st)
          | Some article =>
              if negb (isCreator article (email user) (uid user)) then
                (Response 403 "Forbidden: You can only delete your own articles", st)
              else
                let '(deletedCount, articles') :=
                  deleteOne_id (articlesCollection st) o [] in
                let st := set_articles st articles' in
                if (deletedCount =? 1)%Z then
                  (Response 200 "Article deleted successfully",
                   set_comments st
                     (deleteMany (commentsCollection st) [("articleId", VStr id)]))
                else (Response 404 "Article not found", st)
          end
      end).

(** [POST /articles/:id/comments] *)
Definition createComment (net : network) (now : string) (user : identity)
    (id : string) (body : doc) (st : state) : response * state * list event :=
  with_db net st (fun st =>
    if negb (ObjectId_isValid id) then (Response 400 "Invalid article ID", st)
    else
      match ObjectId_new (VStr id) with
      | None => (Response 500 "Failed to create comment", st)
      | Some o =>
          match findOne_id (articlesCollection st) o [] with
          | None => (Response 404 "Article not found", st)
          | Some article =>
              let commentData := body in
              if negb (truthy (get commentData "text"))
                 && negb (truthy (get commentData "comment")) then
                (Response 400 "Comment text is required", st)
              else
                let newComment : doc :=
                  <["articleId" := VStr id]>
                  (<["text" := js_or (get commentData "text") (get commentData "comment")]>
                  (<["authorName" :=
                       js_or (js_or (get commentData "authorName") (name user))
                         (VStr "Anonymous")]>
                  (<["authorEmail" := email user]>
                  (<["authorId" := uid user]>
                  (<["authorImage" :=
                       js_or (get commentData "authorImage")
                         (VStr "https://via.placeholder.com/40")]>
                  (<["timestamp" := js_or (get commentData "timestamp") (VStr now)]>
                  (<["createdAt" := VStr now]> ∅))))))) in
                (Response 201 "Comment created successfully",
                 set_comments st (insertOne (commentsCollection st) newComment))
          end
      end).

(** [DELETE /articles/:id/comments/:commentId] *)
Definition deleteComment (net : network) (user : identity) (id commentId : string)
    (st : state) : response * state * list event :=
  with_db net st (fun st =>
    if negb (ObjectId_isValid id) then (Response 400 "Invalid article ID", st)
    else if negb (ObjectId_isValid commentId) then
      (Response 400 "Invalid comment ID", st)
    else
      match ObjectId_new (VStr commentId) with
      | None => (Response 500 "Failed to delete comment", st)
      | Some c =>
          match findOne_id (commentsCollection st) c [("articleId", VStr id)] with
          | None => (Response 404 "Comment not found", st)
          | Some comment =>
              let isCommentAuthor := isCreator comment (email user) (uid user) in
              let isArticleAuthor : option bool :=
                if negb isCommentAuthor then
                  match ObjectId_new (VStr id) with
                  | None => None
                  | Some o =>
                      match findOne_id (articlesCollection st) o [] with
                      | Some article =>
                          Some (isCreator article (email user) (uid user))
                      | None => Some false
                      end
                  end
                else Some false in
              match isArticleAuthor with
              | None => (Response 500 "Failed to delete comment", st)
              | Some isArticleAuthor =>
                  if negb isCommentAuthor && negb isArticleAuthor then
                    (Response 403
                       "Forbidden: You can only delete your own comments or comments on your articles",
                     st)
                  else
                    let '(deletedCount, comments') :=
                      deleteOne_id (commentsCollection st) c [("articleId", VStr id)] in
                    let st := set_comments st comments' in
                    if (deletedCount =? 1)%Z then
                      (Response 200 "Comment deleted successfully", st)
                    else (Response 404 "Comment not found", st)
              end
          end
      end).

(** [col'] is [col] with the document [d] added under a new identifier. *)
Definition inserted (col col' : collection) (d : doc) : Prop :=
  exists o, col !! o = None /\ col' = <[o := d]> col.

(** The five collections hold the same documents in both states. *)
Definition same_data (st st' : state) : Prop :=
  groupCollection st' = groupCollection st
  /\ joinedCollection st' = joinedCollection st
  /\ usersCollection st' = usersCollection st
  /\ articlesCollection st' = articlesCollection st
  /\ commentsCollection st' = commentsCollection st.

(** The protected routes, as registered: [authenticateToken] first, then
    the handler on [req.user]. *)
Record request : Type := Request {
  headers : gmap string string;
  params_id : string;
  params_commentId : string;
  body : doc
}.

Definition route_createGroup net now (req : request) st :=
  authenticated (headers req) st (fun user => createGroup net now user (body req) st).
Definition route_updateGroup net now (req : request) st :=
  authenticated (headers req) st
    (fun user => updateGroup net now user (params_id req) (body req) st).
Definition route_deleteGroup net (req : request) st :=
  authenticated (headers req) st (fun user => deleteGroup net user (params_id req) st).
Definition route_joinGroup net now (req : request) st :=
  authenticated (headers req) st (fun user => joinGroup net now user (body req) st).
Definition route_createArticle net now (req : request) st :=
  authenticated (headers req) st (fun user => createArticle net now user (body req) st).
Definition route_updateArticle net now (req : request) st :=
  authenticated (headers req) st
    (fun user => updateArticle net now user (params_id req) (body req) st).
Definition route_deleteArticle net (req : request) st :=
  authenticated (headers req) st (fun user => deleteArticle net user (params_id req) st).
Definition route_createComment net now (req : request) st :=
  authenticated (headers req) st
    (fun user => createComment net now user (params_id req) (body req) st).
Definition route_deleteComment net (req : request) st :=
  authenticated (headers req) st
    (fun user => deleteComment net user (params_id req) (params_commentId req) st).

End Server.

(** ** Dashboard statistics *)

(** A row of the merged timeline. *)
Record stat : Type := Stat { date : string; users : Z; groups : Z }.

Section Dashboard.
(** [a.localeCompare(b)]: negative, zero or positive. *)
Variable localeCompare : string -> string -> Z.

(** The row that [usersPerDay.forEach] pushes for a row of the users
    series, an [_id] with its count [users]. *)
Definition user_row (groupsPerDay : list (string * Z)) (userDay : string * Z) : stat :=
  let groupDay := List.find (fun g => (fst g =? fst userDay)%string) groupsPerDay in
  {| date := fst userDay;
     users := snd userDay;
     groups := match groupDay with Some g => snd g | None => 0 end |}.

Definition push_user_day (groupsPerDay : list (string * Z)) (stats : list stat)
    (userDay : string * Z) : list stat :=
  stats ++ [user_row groupsPerDay userDay].

(** The body of [groupsPerDay.forEach]. *)
Definition push_group_day (stats : list stat) (groupDay : string * Z) : list stat :=
  match List.find (fun s => (date s =? fst groupDay)%string) stats with
  | Some _ => stats
  | None => stats ++ [ {| date := fst groupDay; users := 0; groups := snd groupDay |} ]
  end.

Definition merge_days (usersPerDay groupsPerDay : list (string * Z)) : list stat :=
  let stats := fold_left (push_user_day groupsPerDay) usersPerDay [] in
  fold_left push_group_day groupsPerDay stats.

(** [stats.sort((a, b) => a.date.localeCompare(b.date))]: the sort is
    stable, so it is the insertion sort that puts a row before the rows it
    does not compare greater than. *)
Fixpoint insert_stat (s : stat) (l : list stat) : list stat :=
  match l with
  | [] => [s]
  | t :: l' =>
      if (localeCompare (date s) (date t) <=? 0)%Z then s :: t :: l'
      else t :: insert_stat s l'
  end.

Definition sort_stats (l : list stat) : list stat := foldr insert_stat [] l.

Definition dashboard_stats (usersPerDay groupsPerDay : list (string * Z)) : list stat :=
  sort_stats (merge_days usersPerDay groupsPerDay).
End Dashboard.

(** The dates of a series, and the dates of the merged rows. *)
Definition days (series : list (string * Z)) : list string := fst <$> series.
Definition dates (stats : list stat) : list string := date <$> stats.

(** Ascending order of rows by date, comparing the strings character by
    character. *)
Definition date_le (a b : stat) : Prop := String.leb (date a) (date b) = true.
Definition date_lt (a b : stat) : Prop := String.ltb (date a) (date b) = true.

(** A date string [YYYY-MM-DD]. *)
Definition is_digit (c : ascii) : bool :=
  (48 <=? N_of_ascii c)%N && (N_of_ascii c <=? 57)%N.

Definition is_date (s : string) : bool :=
  match s with
  | String y1 (String y2 (String y3 (String y4 (String "-"
      (String m1 (String m2 (String "-" (String d1 (String d2 EmptyString))))))))) =>
      forallb is_digit [y1; y2; y3; y4; m1; m2; d1; d2]
  | _ => false
  end.

(** Comparison of strings by character codes, as a [localeCompare] result. *)
Definition code_unit_compare (a b : string) : Z :=
  match String.compare a b with Lt => -1 | Eq => 0 | Gt => 1 end.

(** ** Identities that the middleware can produce *)

(** An identity field is absent or a non-empty string. *)
Definition id_value (v : value) : Prop :=
  v = VUndefined \/ exists s, v = VStr s /\ s <> EmptyString.

Definition resolved (user : identity) : Prop :=
  id_value (email user) /\ id_value (uid user).

Definition absent (v : value) : Prop := v = VUndefined \/ v = VNull.

(** ** Identifiers in their 24-digit hexadecimal form *)

Definition hex_digit (c : ascii) : option N :=
  let n := N_of_ascii c in
  if (48 <=? n)%N && (n <=? 57)%N then Some (n - 48)%N
  else if (97 <=? n)%N && (n <=? 102)%N then Some (n - 87)%N
  else if (65 <=? n)%N && (n <=? 70)%N then Some (n - 55)%N
  else None.

Fixpoint parse_hex (s : string) (acc : N) : option N :=
  match s with
  | EmptyString => Some acc
  | String c s' =>
      match hex_digit c with
      | Some d => parse_hex s' (16 * acc + d)%N
      | None => None
      end
  end.

Definition hex24_new (v : value) : option N :=
  match v with
  | VStr s => if (String.length s =? 24)%nat then parse_hex s 0 else None
  | _ => None
  end.

Definition hex24_isValid (s : string) : bool :=
  match hex24_new (VStr s) with Some _ => true | None => false end.

(** ** Sample data *)

Definition sample_net : network :=
  {| topology_connected := true; connect_ok := fun _ => true;
     verify_ok := fun _ => true; ping_ok := true |}.

(** The network on which the guard's ping fails although a connection
    attempt would succeed. *)
Definition flaky_net : network :=
  {| topology_connected := false; connect_ok := fun _ => true;
     verify_ok := fun _ => true; ping_ok := false |}.

Definition alice : identity :=
  {| uid := VStr "uid-alice"; email := VStr "alice@example.com"; name := VStr "alice" |}.

Definition mallory : identity :=
  {| uid := VStr "uid-mallory"; email := VStr "mallory@example.com";
     name := VStr "mallory" |}.

Definition alice_headers : gmap string string :=
  {[ "authorization" := "Bearer token-1";
     "x-user-email" := "alice@example.com";
     "x-user-uid" := "uid-alice" ]}.

Definition group_id : string := "0000000000000000000000a1".
Definition article_id : string := "0000000000000000000000b2".
Definition comment_id : string := "0000000000000000000000c3".

Definition run_club : doc :=
  {[ "groupName" := VStr "Run Club"; "maxMembers" := VNum 10;
     "userEmail" := VStr "alice@example.com"; "userId" := VStr "uid-alice" ]}.

Definition alice_joined : doc :=
  {[ "groupId" := VStr group_id; "userEmail" := VStr "alice@example.com";
     "userId" := VStr "uid-alice"; "joinedAt" := VStr "2025-01-01T00:00:00.000Z" ]}.

Definition alice_article : doc :=
  {[ "title" := VStr "Trail notes"; "authorEmail" := VStr "alice@example.com";
     "authorId" := VStr "uid-alice"; "userEmail" := VStr "alice@example.com";
     "userId" := VStr "uid-alice" ]}.

Definition mallory_comment : doc :=
  {[ "articleId" := VStr article_id; "text" := VStr "first";
     "authorEmail" := VStr "mallory@example.com"; "authorId" := VStr "uid-mallory" ]}.

Definition sample_state : state (oid := N) :=
  {| conn := connected;
     groupCollection := {[ 161%N := run_club ]};
     joinedCollection := {[ 1%N := alice_joined ]};
     usersCollection := ∅;
     articlesCollection := {[ 178%N := alice_article ]};
     commentsCollection := {[ 195%N := mallory_comment ]} |}.

(** A token verifier that knows one token. *)
Definition sample_verify (token : string) : option decodedToken :=
  if (token =? "token-1")%string
  then Some {| d_uid := "uid-token"; d_email := Some "token@example.com"; d_name := None |}
  else None.

(** A comment posted with Alice's headers and somebody else's author
    fields in the body. *)
Definition sample_comment_request : request :=
  {| headers := alice_headers;
     params_id := article_id;
     params_commentId := EmptyString;
     body := {[ "text" := VStr "hi"; "authorName" := VStr "Mallory";
                "authorEmail" := VStr "mallory@example.com";
                "authorImage" := VStr "https://img.example/m.png" ]} |}.

Definition sample_now : string := "2025-02-01T10:00:00.000Z".

(** ** Further routes of the server *)

Section MoreRoutes.
Context {oid : Type} `{Countable oid} `{Infinite oid}.
Variable ObjectId_new : value -> option oid.
Variable firebaseAdminInitialized : bool.
Variable verifyIdToken : string -> option decodedToken.

Implicit Types st : state (oid := oid).

(** The documents a query on fields selects, with their identifiers. *)
Definition selected (c : gmap oid doc) (query : list (string * value))
    : gmap oid doc :=
  filter (fun kv : oid * doc => matches query (snd kv) = true) c.

(** [find(query).toArray()]. *)
Definition find_toArray (c : gmap oid doc) (query : list (string * value)) : list doc :=
  snd <$> map_to_list (selected c query).

(** [deleteOne(query)] for a query on fields: one selected document goes,
    and [deletedCount] says whether there was one. *)
Definition deleteOne (c : gmap oid doc) (query : list (string * value))
    : Z * gmap oid doc :=
  match head (map_to_list (selected c query)) with
  | Some (o, _) => (1, delete o c)
  | None => (0, c)
  end.

(** [updateOne(query, {$set: upd}, {upsert: true})]: one selected document
    takes the fields of [upd]; when the query selects none, a document made
    of the query's fields and of [upd] is inserted.  [None] when the
    update is refused. *)
Definition updateOne_upsert (c : gmap oid doc) (query : list (string * value))
    (upd : doc) : option (gmap oid doc) :=
  match head (map_to_list (selected c query)) with
  | Some (o, _) => updateOne_set c o upd
  | None => Some (insertOne c (upd ∪ list_to_map query))
  end.

(** The collection after an upsert that the server accepts. *)
Definition upserted (c : gmap oid doc) (query : list (string * value)) (upd : doc)
    : gmap oid doc :=
  match head (map_to_list (selected c query)) with
  | Some (o, _) => alter (fun d => bson_doc upd ∪ d) o c
  | None => insertOne c (upd ∪ list_to_map query)
  end.

(** The guard in front of a handler that answers with documents. *)
Definition with_db_query (net : network) st
    (k : state (oid := oid) -> response * list doc)
    : response * list doc * state * list event :=
  let '(dbCheck, c, tr) := checkDbConnection net (conn st) in
  match dbCheck with
  | Some r => (r, [], set_conn st c, tr)
  | None => let '(r, docs) := k (set_conn st c) in (r, docs, set_conn st c, tr)
  end.

Definition set_users st (u : gmap oid doc) : state :=
  State (conn st) (groupCollection st) (joinedCollection st) u
    (articlesCollection st) (commentsCollection st).

(** [GET /groups], with the [userEmail] of the query string ([undefined]
    when there is none). *)
Definition getGroups (net : network) (userEmail : value) st
    : response * list doc * state * list event :=
  with_db_query net st (fun st =>
    let filter := if truthy userEmail then [("userEmail", userEmail)] else [] in
    (Response 200 EmptyString, find_toArray (groupCollection st) filter)).

(** [POST /leaveGroup] *)
Definition leaveGroup (net : network) (user : identity) (body : doc) st
    : response * state * list event :=
  with_db net st (fun st =>
    let groupId := get body "groupId" in
    if negb (truthy groupId) then (Response 400 "Group ID is required", st)
    else
      let userEmail := email user in
      match findOne (joinedCollection st)
              [("groupId", groupId); ("userEmail", userEmail)] with
      | None => (Response 404 "Join record not found", st)
      | Some joinRecord =>
          if negb (strict_eq (get joinRecord "userEmail") userEmail) then
            (Response 403 "Forbidden: You can only leave groups you've joined", st)
          else
            let '(deletedCount, joined') :=
              deleteOne (joinedCollection st)
                [("groupId", groupId); ("userEmail", userEmail)] in
            if (deletedCount =? 1)%Z then
              (Response 200 "Left group successfully", set_joined st joined')
            else (Response 404 "Join record not found", set_joined st joined')
      end).

(** [GET /user-joined-groups] *)
Definition userJoinedGroups (net : network) (user : identity) st
    : response * list doc * state * list event :=
  with_db_query net st (fun st =>
    let userEmail := email user in
    if negb (truthy userEmail) then (Response 400 "User email is required", [])
    else
      (Response 200 EmptyString,
       find_toArray (joinedCollection st) [("userEmail", userEmail)])).

(** [POST /save-user]; [updatedAt] and [createdAt] are the values of the two
    [new Date()] of the handler. *)
Definition saveUser (net : network) (updatedAt createdAt : value) (body : doc)
    st : response * state * list event :=
  with_db net st (fun st =>
    let email := get body "email" in
    let name := get body "name" in
    let photo := get body "photo" in
    if negb (truthy email) then (Response 400 "Email is required", st)
    else
      let set : doc :=
        <["email" := email]>
        (<["name" := js_or name (VStr "No Name")]>
        (<["photo" := js_or photo (VStr "https://via.placeholder.com/40")]>
        (<["updatedAt" := updatedAt]> ∅))) in
      let existingUser := findOne (usersCollection st) [("email", email)] in
      let set :=
        match existingUser with
        | None => <["createdAt" := createdAt]> set
        | Some _ => set
        end in
      match updateOne_upsert (usersCollection st) [("email", email)] set with
      | Some users => (Response 200 EmptyString, set_users st users)
      | None => (Response 500 "Failed to save user", st)
      end).

(** [GET /totalUsers]: the count that [estimatedDocumentCount] reports is
    taken to be the number of stored documents. *)
Definition totalUsers st : Z := Z.of_nat (size (usersCollection st)).

Definition route_leaveGroup net (req : request) st :=
  authenticated firebaseAdminInitialized verifyIdToken (headers req) st
    (fun user => leaveGroup net user (body req) st).

(** No two documents of the collection agree on all the fields [ks]. *)
Definition unique_on (ks : list string) (c : gmap oid doc) : Prop :=
  forall j1 j2 r1 r2,
    c !! j1 = Some r1 -> c !! j2 = Some r2 ->
    Forall (fun k => r1 !! k = r2 !! k) ks -> j1 = j2.

(** Requests served one after the other: the guard threads the connection
    state from a request to the next. *)
Fixpoint guard_requests (nets : list network) (c : connection)
    : list (option response * list event) * connection :=
  match nets with
  | [] => ([], c)
  | net :: nets' =>
      let '(r, c', tr) := checkDbConnection net c in
      let '(rs, c'') := guard_requests nets' c' in
      ((r, tr) :: rs, c'')
  end.
End MoreRoutes.


(** The delays of the pauses in a trace. *)
Fixpoint sleeps (tr : list event) : list float :=
  match tr with
  | [] => []
  | EvSleep d :: tr' => d :: sleeps tr'
  | _ :: tr' => sleeps tr'
  end.

(** The connection attempts of a trace. *)
Fixpoint attempts (tr : list event) : list nat :=
  match tr with
  | [] => []
  | EvConnect i :: tr' => i :: attempts tr'
  | _ :: tr' => attempts tr'
  end.

(** ** The earlier server kept in the repository *)

Module Legacy.
Section Routes.
Context {oid : Type} `{Countable oid} `{Infinite oid}.
Variable ObjectId_isValid : string -> bool.
Variable ObjectId_new : value -> option oid.
Variable verifyIdToken : string -> option decodedToken.

Implicit Types st : state (oid := oid).

(** The earlier [authenticateToken]: the bearer token first, the two
    [x-user-*] headers only when its verification fails. *)
Definition authenticateToken (headers : gmap string string)
    : auth_result * list event :=
  match headers !! "authorization" with
  | None => (Rejected (Response 401 "Unauthorized: No token provided"), [])
  | Some authHeader =>
      if negb (truthy (VStr authHeader)) || negb (String.prefix "Bearer " authHeader)
      then (Rejected (Response 401 "Unauthorized: No token provided"), [])
      else
        let token :=
          before_first "Bearer "
            (String.substring 7 (String.length authHeader - 7) authHeader) in
        match verifyIdToken token with
        | Some decodedToken =>
            (Next (identity_of_token decodedToken), [EvVerifyIdToken token])
        | None =>
            let userEmail := header headers "x-user-email" in
            let userUid := header headers "x-user-uid" in
            if truthy userEmail && truthy userUid then
              (Next {| uid := userUid; email := userEmail; name := local_part userEmail |},
               [EvVerifyIdToken token])
            else
              (Rejected (Response 401 "Unauthorized: Invalid token"),
               [EvVerifyIdToken token])
        end
  end.

(** The earlier [POST /articles/:id/comments], registered without
    [authenticateToken] and without the guard. *)
Definition createComment (now : string) (id : string) (body : doc) st
    : response * state :=
  if negb (ObjectId_isValid id) then (Response 400 "Invalid article ID", st)
  else
    match ObjectId_new (VStr id) with
    | None => (Response 500 "Failed to create comment", st)
    | Some o =>
        match findOne_id (articlesCollection st) o [] with
        | None => (Response 404 "Article not found", st)
        | Some article =>
            let commentData := body in
            if negb (truthy (get commentData "text"))
               && negb (truthy (get commentData "comment")) then
              (Response 400 "Comment text is required", st)
            else
              let newComment : doc :=
                <["articleId" := VStr id]>
                (<["text" := js_or (get commentData "text") (get commentData "comment")]>
                (<["authorName" := js_or (get commentData "authorName") (VStr "Anonymous")]>
                (<["authorEmail" := js_or (get commentData "authorEmail") (VStr EmptyString)]>
                (<["authorImage" :=
                     js_or (get commentData "authorImage")
                       (VStr "https://via.placeholder.com/40")]>
                (<["timestamp" := js_or (get commentData "timestamp") (VStr now)]>
                (<["createdAt" := VStr now]> ∅)))))) in
              (Response 201 "Comment created successfully",
               set_comments st (insertOne (commentsCollection st) newComment))
        end
    end.

(** Whether [{formattedDate: {$lt: now}}] selects a document whose field is
    [f]: a string that sorts before [now] byte by byte, or an array holding
    one. *)
Definition before_now (now : string) (f : option value) : bool :=
  match f with
  | Some (VStr s) => String.ltb s now
  | Some (VArr xs) =>
      existsb (fun x => match x with VStr s => String.ltb s now | _ => false end) xs
  | _ => false
  end.

(** The purge that [run()] performs once, when the process starts. *)
Definition deletePastEvents (now : string) st : state :=
  set_groups st
    (filter (fun kv : oid * doc => before_now now (snd kv !! "formattedDate") = false)
       (groupCollection st)).
End Routes.
End Legacy.

(** The delay that the timer before the attempt [n + 1] is set to, when
    the first is [delay]: every failed attempt multiplies it by one and a
    half, in the double-precision arithmetic of the language. *)
Fixpoint nth_delay (delay : float) (n : nat) : float :=
  match n with
  | O => delay
  | S n' => nth_delay (delay * 1.5)%float n'
  end.

(** Whether attempt [i] connects and passes its verifying ping. *)
Definition attempt_ok (net : network) (i : nat) : bool :=
  connect_ok net i && verify_ok net i.


(** A network on which the third connection attempt succeeds. *)
Definition slow_net : network :=
  {| topology_connected := false; connect_ok := fun i => (2 <=? i)%nat;
     verify_ok := fun _ => true; ping_ok := true |}.

(** The fields that [POST /save-user] writes for every request. *)
Definition user_fields (updatedAt : value) (body : doc) : doc :=
  <["email" := get body "email"]>
  (<["name" := js_or (get body "name") (VStr "No Name")]>
  (<["photo" := js_or (get body "photo") (VStr "https://via.placeholder.com/40")]>
  (<["updatedAt" := updatedAt]> ∅))).

(** A response with status 200 or 201. *)
Definition succeeded (r : response) : bool :=
  (status r =? 200)%Z || (status r =? 201)%Z.

(** An identity verified from a token that carries no email. *)
Definition anonymous : identity :=
  {| uid := VStr "uid-anon"; email := VUndefined; name := VUndefined |}.

(** The sum of a column of counts. *)
Definition sum_counts (counts : list Z) : Z := foldr Z.add 0%Z counts.

(** An event whose date has passed at [sample_now], and a state that holds
    it beside the group without a date. *)
Definition past_meetup : doc :=
  {[ "groupName" := VStr "Winter meetup";
     "formattedDate" := VStr "2024-12-24T09:00:00.000Z";
     "userEmail" := VStr "alice@example.com" ]}.

Definition meetup_state : state (oid := N) :=
  set_groups sample_state (<[162%N := past_meetup]> (groupCollection sample_state)).

(** A comment whose body names Alice as its author. *)
Definition claimed_comment : doc :=
  {[ "text" := VStr "Nice"; "authorEmail" := VStr "alice@example.com" ]}.

(** The body of a request to join or leave the sample group. *)
Definition join_body : doc := {[ "groupId" := VStr group_id ]}.

(** A group whose body names Mallory as a second creator. *)
Definition cohosted_club : doc :=
  <["creatorEmail" := VStr "mallory@example.com"]> run_club.

(** Two profiles for the same address. *)
Definition bob_body : doc :=
  {[ "email" := VStr "bob@example.com"; "name" := VStr "Bob" ]}.

Definition robert_body : doc :=
  {[ "email" := VStr "bob@example.com"; "name" := VStr "Robert" ]}.

(** A request that carries neither a token nor the fallback headers. *)
Definition bare_request : request :=
  {| headers := ∅; params_id := group_id; params_commentId := comment_id; body := ∅ |}.

(** The identifiers of the sample group and of the sample article, spelled
    with capital digits: [new ObjectId] reads both spellings as the same
    identifier. *)
Definition group_id_capitals : string := "0000000000000000000000A1".
Definition article_id_capitals : string := "0000000000000000000000B2".


(** * Properties *)

(** ** Values *)


Lemma truthy_str (s : string) : truthy (VStr s) = true <-> s <> EmptyString.
Proof.
  simpl. rewrite negb_true_iff, String.eqb_neq. done.
Qed.

Lemma truthy_not_absent (x : value) : truthy x = true -> ~ absent x.
Proof. intros Ht [-> | ->]; discriminate. Qed.

Lemma strict_eq_absent (x v : value) :
  absent v -> truthy x && strict_eq x v = false.
Proof.
  intros [-> | ->]; destruct x; simpl; try reflexivity;
    rewrite andb_false_r; reflexivity.
Qed.


(** [isCreator] is the disjunction of its six probes. *)
Lemma isCreator_probes (resource : doc) (e u : value) :
  isCreator resource e u =
    (truthy (get resource "userEmail") && strict_eq (get resource "userEmail") e)
    || (truthy (get resource "creatorEmail") && strict_eq (get resource "creatorEmail") e)
    || (truthy (get resource "authorEmail") && strict_eq (get resource "authorEmail") e)
    || (truthy (get resource "userId") && strict_eq (get resource "userId") u)
    || (truthy (get resource "creatorId") && strict_eq (get resource "creatorId") u)
    || (truthy (get resource "authorId") && strict_eq (get resource "authorId") u).
Proof.
  unfold isCreator.
  repeat match goal with |- context [if ?b then true else _] => destruct b; simpl end;
    reflexivity.
Qed.


Lemma value_eqb_refl : forall v : value, value_eqb v v = true.
Proof.
  fix IH 1. intros [ | | b | n | s | xs | fields]; simpl; try reflexivity.
  - apply Bool.eqb_reflx.
  - apply Z.eqb_refl.
  - apply String.eqb_refl.
  - induction xs as [ | x xs IHxs]; [reflexivity |].
    rewrite (IH x). exact IHxs.
  - induction fields as [ | [k x] fields IHf]; [reflexivity |].
    rewrite String.eqb_refl, (IH x). exact IHf.
Qed.

(** A query value selects the documents that store it. *)
Lemma field_matches_stored (q : value) :
  field_matches q (Some (bson q)) = true.
Proof. unfold field_matches. rewrite value_eqb_refl. reflexivity. Qed.

Lemma field_matches_str (s : string) :
  field_matches (VStr s) (Some (VStr s)) = true.
Proof. apply (field_matches_stored (VStr s)). Qed.

Lemma get_bson_doc (d : doc) (k : string) :
  bson_doc d !! k = bson <$> d !! k.
Proof. unfold bson_doc. apply lookup_fmap. Qed.

(** ** The guard *)

(** The guard refuses a request with status 503 only. *)
Lemma checkDbConnection_refusal net c r c' tr :
  checkDbConnection net c = (Some r, c', tr) -> status r = 503.
Proof.
  unfold checkDbConnection.
  destruct (negb (dbConnected c) || negb (db c)).
  - destruct (negb (topology_connected net)).
    + destruct (connectToMongoDB net 1 1000 c) as [[[ | ] c1] tr1]; intros [= <- _ _];
        reflexivity.
    + intros [= <- _ _]. reflexivity.
  - destruct (ping_ok net); intros [= <- _ _]. reflexivity.
Qed.

(** ** Plain bodies *)

Lemma plain_body_no_id (body : doc) : plain_body body = true -> body !! "_id" = None.
Proof. unfold plain_body. by destruct (body !! "_id"). Qed.

(** The document that an update merges into a stored one: [updatedAt] is
    the time of the request, a name that is not stripped takes the value of
    the body when the body has one, and keeps the stored value otherwise. *)
Lemma set_merge_fields (body d : doc) (now s1 s2 s3 s4 : string) :
  let upd :=
    <["updatedAt" := VStr now]> (delete s1 (delete s2 (delete s3 (delete s4 body)))) in
  (bson_doc upd ∪ d) !! "updatedAt" = Some (VStr now)
  /\ (forall k, k ∉ [s4; s3; s2; s1; "updatedAt"] ->
                (bson_doc upd ∪ d) !! k = match body !! k with
                                          | Some v => Some (bson v)
                                          | None => d !! k
                                          end).
Proof.
  cbv zeta. split.
  - apply lookup_union_Some_l. rewrite get_bson_doc. by rewrite lookup_insert_eq.
  - intros k Hk. rewrite !not_elem_of_cons in Hk. destruct Hk as (? & ? & ? & ? & ? & _).
    rewrite lookup_union, get_bson_doc.
    rewrite lookup_insert_ne by done. rewrite !lookup_delete_ne by done.
    destruct (body !! k), (d !! k); reflexivity.
Qed.

(** ** Identity resolution *)

Lemma authenticateToken_headers fbInit verify (headers : gmap string string) (e u : string) :
  claimed_email headers = VStr e -> e <> EmptyString ->
  claimed_uid headers = VStr u -> u <> EmptyString ->
  authenticateToken fbInit verify headers
  = (Next {| uid := VStr u; email := VStr e; name := VStr (before_first "@" e) |}, []).
Proof.
  intros He Hne Hu Hnu. unfold authenticateToken. rewrite He, Hu.
  apply truthy_str in Hne, Hnu. rewrite Hne, Hnu. reflexivity.
Qed.

(** A rejected request is answered with status 401. *)
Lemma authenticateToken_rejected fbInit verify (headers : gmap string string) r tr :
  authenticateToken fbInit verify headers = (Rejected r, tr) -> status r = 401.
Proof.
  unfold authenticateToken, reject.
  repeat match goal with
         | |- context [match ?x with _ => _ end] => destruct x; simpl
         end; intros [= <- _]; reflexivity.
Qed.

(** The identities the middleware resolves are [resolved], as long as the
    verified tokens carry a non-empty subject id and no empty email. *)
Lemma authenticateToken_resolved fbInit verify (headers : gmap string string) user tr :
  (forall t d, verify t = Some d -> d_uid d <> EmptyString /\ d_email d <> Some EmptyString) ->
  authenticateToken fbInit verify headers = (Next user, tr) -> resolved user.
Proof.
  intros Hverify. unfold authenticateToken.
  destruct (truthy (claimed_email headers) && truthy (claimed_uid headers)) eqn:Hboth.
  - intros [= <- _]. apply andb_true_iff in Hboth as [He Hu].
    assert (Hstr : forall v, (exists a b, v = js_or (opt_str a) (opt_str b)) ->
                     truthy v = true -> id_value v).
    { intros v (a & b & ->) Ht. right. unfold js_or in *.
      destruct (truthy (opt_str a)) eqn:Ha.
      - destruct a as [s | ]; [ | done]. exists s. split; [done | by apply truthy_str].
      - destruct b as [s | ]; [ | done]. exists s. split; [done | by apply truthy_str]. }
    split; simpl; apply Hstr; try done; unfold claimed_email, claimed_uid, header; eauto.
  - destruct (bearer_token (headers !! "authorization")); try (by intros [=]).
    destruct (truthy (VStr s) && fbInit); [ | by intros [=]].
    destruct (verify s) as [d | ] eqn:Hd; intros [= <- _].
    destruct (Hverify _ _ Hd) as [Hu He]. split; simpl.
    + destruct (d_email d) as [e | ]; [right | by left].
      exists e. split; [done | congruence].
    + right. by exists (d_uid d).
Qed.

(** ** The guard, case by case *)

Lemma checkDbConnection_connected net c :
  dbConnected c = true -> db c = true ->
  checkDbConnection net c =
    if ping_ok net then (None, c, [EvPing])
    else (Some (Response 503 "Database connection lost"),
          {| dbConnected := false; db := db c |}, [EvPing]).
Proof. intros Hc Hd. unfold checkDbConnection. rewrite Hc, Hd. reflexivity. Qed.

Lemma checkDbConnection_disconnected net c :
  dbConnected c = false \/ db c = false ->
  topology_connected net = false ->
  checkDbConnection net c =
    if connect_ok net 0 && verify_ok net 0
    then (None, connected, [EvConnect 0; EvPing])
    else (Some (Response 503 "Database connection not available"),
          {| dbConnected := false; db := db c |},
          EvConnect 0 :: (if connect_ok net 0 then [EvPing] else [])).
Proof.
  intros Hc Ht. unfold checkDbConnection, connectToMongoDB. simpl. rewrite Ht.
  replace (negb (dbConnected c) || negb (db c)) with true
    by (destruct Hc as [-> | ->]; simpl; rewrite ?orb_true_r; reflexivity).
  simpl. destruct (connect_ok net 0), (verify_ok net 0); reflexivity.
Qed.

(** ** Handlers behind the guard *)

Section ServerProperties.
Context {oid : Type} `{Countable oid} `{Infinite oid}.
Variable ObjectId_isValid : string -> bool.
Variable ObjectId_new : value -> option oid.
Variable firebaseAdminInitialized : bool.
Variable verifyIdToken : string -> option decodedToken.

Implicit Types (st : state (oid := oid)) (col : gmap oid doc).

Lemma with_db_through net st (k : state -> response * state) :
  lets_through net (conn st) ->
  with_db net st k =
    (let st' := set_conn st (snd (fst (checkDbConnection net (conn st)))) in
     (fst (k st'), snd (k st'), snd (checkDbConnection net (conn st)))).
Proof.
  unfold lets_through, with_db.
  destruct (checkDbConnection net (conn st)) as [[dbCheck cn] tr]. simpl.
  intros ->. destruct (k (set_conn st cn)); reflexivity.
Qed.

(** Case analysis on the guard in front of a handler whose answer is
    assumed not to be 503: the refusal is discharged, the handler body
    remains. *)
Ltac guard_cases net st :=
  unfold with_db;
  let Hck := fresh "Hck" in
  destruct (checkDbConnection net (conn st)) as [[[? | ] ?] ?] eqn:Hck;
  [ cbn [fst snd]; rewrite (checkDbConnection_refusal _ _ _ _ _ Hck); done | ].

Lemma findOne_id_nil col (o : oid) : findOne_id col o [] = col !! o.
Proof. unfold findOne_id. destruct (col !! o); reflexivity. Qed.

Lemma deleteOne_id_nil col (o : oid) (d : doc) :
  col !! o = Some d -> deleteOne_id col o [] = (1, delete o col).
Proof. intros Hd. unfold deleteOne_id. rewrite findOne_id_nil, Hd. reflexivity. Qed.

Lemma updateOne_set_found col (o : oid) (upd d : doc) :
  col !! o = Some d ->
  updateOne_set col o upd
  = match upd !! "_id" with
    | Some _ => None
    | None => Some (<[o := bson_doc upd ∪ d]> col)
    end.
Proof.
  intros Hd. unfold updateOne_set. rewrite Hd.
  destruct (upd !! "_id"); [reflexivity |]. f_equal.
  apply map_eq. intros o'. destruct (decide (o' = o)) as [-> | Hne].
  - by rewrite lookup_alter_eq, lookup_insert_eq, Hd.
  - by rewrite lookup_alter_ne, lookup_insert_ne.
Qed.


Lemma deleteGroup_owner net user id st o group :
  lets_through net (conn st) ->
  ObjectId_isValid id = true ->
  ObjectId_new (VStr id) = Some o ->
  groupCollection st !! o = Some group ->
  status (fst (fst (deleteGroup ObjectId_isValid ObjectId_new net user id st))) = 200
  <-> isCreator group (email user) (uid user) = true.
Proof.
  intros Hdb Hvalid Hnew Hgroup. unfold deleteGroup.
  rewrite with_db_through by done. simpl.
  rewrite Hvalid, Hnew, findOne_id_nil, Hgroup. simpl.
  rewrite (deleteOne_id_nil _ _ _ Hgroup).
  destruct (isCreator group (email user) (uid user)); simpl; split; done.
Qed.


Lemma deleteArticle_owner net user id st o article :
  lets_through net (conn st) ->
  ObjectId_isValid id = true ->
  ObjectId_new (VStr id) = Some o ->
  articlesCollection st !! o = Some article ->
  status (fst (fst (deleteArticle ObjectId_isValid ObjectId_new net user id st))) = 200
  <-> isCreator article (email user) (uid user) = true.
Proof.
  intros Hdb Hvalid Hnew Harticle. unfold deleteArticle.
  rewrite with_db_through by done. simpl.
  rewrite Hvalid, Hnew, findOne_id_nil, Harticle. simpl.
  rewrite (deleteOne_id_nil _ _ _ Harticle).
  destruct (isCreator article (email user) (uid user)); simpl; split; done.
Qed.

Lemma deleteComment_owner net user id commentId st o c comment :
  lets_through net (conn st) ->
  ObjectId_isValid id = true ->
  ObjectId_isValid commentId = true ->
  ObjectId_new (VStr id) = Some o ->
  ObjectId_new (VStr commentId) = Some c ->
  commentsCollection st !! c = Some comment ->
  comment !! "articleId" = Some (VStr id) ->
  status (fst (fst (deleteComment ObjectId_isValid ObjectId_new net user id commentId st))) = 200
  <-> isCreator comment (email user) (uid user) = true
      \/ exists article, articlesCollection st !! o = Some article
                         /\ isCreator article (email user) (uid user) = true.
Proof.
  intros Hdb Hvalid Hvalidc Hnew Hnewc Hcomment Hart. unfold deleteComment.
  rewrite with_db_through by done. simpl.
  rewrite Hvalid, Hvalidc, Hnewc, Hnew. simpl.
  assert (Hfind : findOne_id (commentsCollection st) c [("articleId", VStr id)]
                  = Some comment).
  { unfold findOne_id. rewrite Hcomment. simpl.
    rewrite Hart, field_matches_str. reflexivity. }
  unfold deleteOne_id. rewrite Hfind.
  destruct (isCreator comment (email user) (uid user)); simpl.
  { split; [intros _; by left | done]. }
  rewrite findOne_id_nil.
  destruct (articlesCollection st !! o) as [article | ] eqn:Harticle; simpl.
  - destruct (isCreator article (email user) (uid user)) eqn:Hown; simpl.
    + split; [intros _; right; by exists article | done].
    + split; [done |]. intros [? | (a & [= <-] & Ha)]; [done | congruence].
  - split; [done |]. intros [? | (a & ? & _)]; done.
Qed.

(** *** Queries on fields *)


Lemma deleteMany_lookup col (query : list (string * value)) (j : oid) (r : doc) :
  deleteMany col query !! j = Some r <-> col !! j = Some r /\ matches query r = false.
Proof. unfold deleteMany. apply map_lookup_filter_Some. Qed.

Lemma deleteMany_field col (k s : string) (j : oid) (r : doc) :
  deleteMany col [(k, VStr s)] !! j = Some r -> get r k <> VStr s.
Proof.
  intros [_ Hm]%deleteMany_lookup Hget. unfold matches in Hm. simpl in Hm.
  unfold get in Hget. destruct (r !! k) as [v | ]; simpl in Hget; [ | done].
  subst v. rewrite field_matches_str in Hm. done.
Qed.

Lemma deleteGroup_cascade net user id st :
  status (fst (fst (deleteGroup ObjectId_isValid ObjectId_new net user id st))) = 200 ->
  forall j r,
    joinedCollection (snd (fst (deleteGroup ObjectId_isValid ObjectId_new net user id st)))
      !! j = Some r ->
    get r "groupId" <> VStr id.
Proof.
  unfold deleteGroup.
  guard_cases net st; simpl.
  destruct (ObjectId_isValid id); simpl; [ | done].
  destruct (ObjectId_new (VStr id)) as [o | ]; simpl; [ | done].
  rewrite findOne_id_nil.
  destruct (groupCollection st !! o) as [group | ] eqn:Hgroup; simpl; [ | done].
  destruct (isCreator group (email user) (uid user)); simpl; [ | done].
  rewrite (deleteOne_id_nil _ _ _ Hgroup). simpl.
  intros _ j r Hj. by apply deleteMany_field in Hj.
Qed.

Lemma deleteArticle_cascade net user id st :
  status (fst (fst (deleteArticle ObjectId_isValid ObjectId_new net user id st))) = 200 ->
  forall j r,
    commentsCollection (snd (fst (deleteArticle ObjectId_isValid ObjectId_new net user id st)))
      !! j = Some r ->
    get r "articleId" <> VStr id.
Proof.
  unfold deleteArticle.
  guard_cases net st; simpl.
  destruct (ObjectId_isValid id); simpl; [ | done].
  destruct (ObjectId_new (VStr id)) as [o | ]; simpl; [ | done].
  rewrite findOne_id_nil.
  destruct (articlesCollection st !! o) as [article | ] eqn:Harticle; simpl; [ | done].
  destruct (isCreator article (email user) (uid user)); simpl; [ | done].
  rewrite (deleteOne_id_nil _ _ _ Harticle). simpl.
  intros _ j r Hj. by apply deleteMany_field in Hj.
Qed.

(** *** Creation *)

Lemma insertOne_inserted col (d : doc) : inserted col (insertOne col d) (bson_doc d).
Proof.
  exists (fresh (dom col)). split; [ | reflexivity].
  apply not_elem_of_dom, is_fresh.
Qed.

(** What [POST /articles/:id/comments] stores when it answers 201. *)
Lemma createComment_created net now user id body st :
  status (fst (fst (createComment ObjectId_isValid ObjectId_new net now user id body st))) = 201 ->
  exists comment,
    inserted (commentsCollection st)
      (commentsCollection
         (snd (fst (createComment ObjectId_isValid ObjectId_new net now user id body st))))
      comment
    /\ comment !! "authorEmail" = Some (bson (email user))
    /\ comment !! "authorId" = Some (bson (uid user))
    /\ comment !! "authorName"
       = Some (bson (js_or (js_or (get body "authorName") (name user)) (VStr "Anonymous")))
    /\ comment !! "authorImage"
       = Some (bson (js_or (get body "authorImage") (VStr "https://via.placeholder.com/40")))
    /\ comment !! "text" = Some (bson (js_or (get body "text") (get body "comment"))).
Proof.
  unfold createComment.
  guard_cases net st; simpl.
  destruct (ObjectId_isValid id); simpl; [ | done].
  destruct (ObjectId_new (VStr id)) as [o | ]; simpl; [ | done].
  destruct (findOne_id (articlesCollection st) o []) as [article | ]; simpl; [ | done].
  destruct (negb (truthy (get body "text")) && negb (truthy (get body "comment")));
    simpl; [done |].
  intros _. eexists. split; [apply insertOne_inserted |].
  rewrite !get_bson_doc. by simplify_map_eq.
Qed.

Lemma lookup_cond_insert (d : doc) (k k' : string) (v : value) (b : bool) :
  k' <> k -> (if b then <[k' := v]> d else d) !! k = d !! k.
Proof. intros Hne. destruct b; [by rewrite lookup_insert_ne | reflexivity]. Qed.



(** *** Updates keep the fields they strip *)

Lemma updateOne_set_keeps col col' (o : oid) (upd d : doc) (k : string) :
  col !! o = Some d -> upd !! k = None ->
  updateOne_set col o upd = Some col' ->
  exists d', col' !! o = Some d' /\ d' !! k = d !! k.
Proof.
  intros Hd Hk. rewrite (updateOne_set_found _ _ _ _ Hd).
  destruct (upd !! "_id"); [done |]. intros [= <-].
  rewrite lookup_insert_eq. eexists. split; [reflexivity |].
  apply lookup_union_r. by rewrite get_bson_doc, Hk.
Qed.

(** A successful [PUT /groups/:id] leaves [userEmail], [userId],
    [creatorEmail] and [creatorId] as they were stored. *)
Lemma updateGroup_keeps net now user id body st o group (k : string) :
  k ∈ ["userEmail"; "userId"; "creatorEmail"; "creatorId"] ->
  ObjectId_new (VStr id) = Some o ->
  groupCollection st !! o = Some group ->
  status (fst (fst (updateGroup ObjectId_isValid ObjectId_new net now user id body st))) = 200 ->
  exists group',
    groupCollection (snd (fst (updateGroup ObjectId_isValid ObjectId_new net now user id body st)))
      !! o = Some group'
    /\ group' !! k = group !! k.
Proof.
  intros Hk Hnew Hgroup. unfold updateGroup.
  guard_cases net st; cbn [fst snd status].
  destruct (ObjectId_isValid id); cbn [negb fst snd status]; [ | done].
  rewrite Hnew, findOne_id_nil. cbn [groupCollection set_conn]. rewrite Hgroup.
  destruct (isCreator group (email user) (uid user)); cbn [negb fst snd status]; [ | done].
  destruct (updateOne_set _ _ _) as [groups' | ] eqn:Hupd; cbn [fst snd status]; [ | done].
  intros _. cbn [groupCollection set_groups].
  eapply updateOne_set_keeps; [exact Hgroup | | exact Hupd].
  rewrite !elem_of_cons, elem_of_nil in Hk.
  destruct Hk as [-> | [-> | [-> | [-> | []]]]]; by simplify_map_eq.
Qed.

(** A successful [PUT /articles/:id] leaves [authorEmail], [authorId],
    [userEmail] and [userId] as they were stored. *)
Lemma updateArticle_keeps net now user id body st o article (k : string) :
  k ∈ ["authorEmail"; "authorId"; "userEmail"; "userId"] ->
  ObjectId_new (VStr id) = Some o ->
  articlesCollection st !! o = Some article ->
  status (fst (fst (updateArticle ObjectId_isValid ObjectId_new net now user id body st))) = 200 ->
  exists article',
    articlesCollection
      (snd (fst (updateArticle ObjectId_isValid ObjectId_new net now user id body st)))
      !! o = Some article'
    /\ article' !! k = article !! k.
Proof.
  intros Hk Hnew Harticle. unfold updateArticle.
  guard_cases net st; cbn [fst snd status].
  destruct (ObjectId_isValid id); cbn [negb fst snd status]; [ | done].
  rewrite Hnew, findOne_id_nil. cbn [articlesCollection set_conn]. rewrite Harticle.
  destruct (isCreator article (email user) (uid user)); cbn [negb fst snd status]; [ | done].
  destruct (updateOne_set _ _ _) as [articles' | ] eqn:Hupd; cbn [fst snd status]; [ | done].
  intros _. cbn [articlesCollection set_articles].
  eapply updateOne_set_keeps; [exact Harticle | | exact Hupd].
  rewrite !elem_of_cons, elem_of_nil in Hk.
  destruct Hk as [-> | [-> | [-> | [-> | []]]]]; by simplify_map_eq.
Qed.

(** *** The guard in front of a handler *)

Lemma with_db_refused net st (k : state -> response * state) r :
  fst (fst (checkDbConnection net (conn st))) = Some r ->
  fst (fst (with_db net st k)) = r
  /\ status r = 503
  /\ same_data st (snd (fst (with_db net st k))).
Proof.
  unfold with_db.
  destruct (checkDbConnection net (conn st)) as [[dbCheck cn] tr] eqn:Hck. simpl.
  intros ->. simpl. split; [reflexivity |].
  split; [apply (checkDbConnection_refusal _ _ _ _ _ Hck) | by repeat split].
Qed.

(** ** The claims about the routes *)





(** C3. A request that carries a claimed email and a claimed subject id
    in the fallback headers is resolved from them, whatever token it also
    carries: the subject id and the email are the header values, the
    display name is the part of the email before the first [@], no token is
    verified, and the route runs its handler on that identity. *)
Theorem fallback_headers_take_precedence (hdrs : gmap string string) (e u : string) :
  claimed_email hdrs = VStr e -> e <> EmptyString ->
  claimed_uid hdrs = VStr u -> u <> EmptyString ->
  let user := {| uid := VStr u; email := VStr e; name := VStr (before_first "@" e) |} in
  authenticateToken firebaseAdminInitialized verifyIdToken hdrs = (Next user, [])
  /\ forall st (handler : identity -> response * state * list event),
       authenticated firebaseAdminInitialized verifyIdToken hdrs st handler = handler user.
Proof.
  intros He Hne Hu Hnu user.
  pose proof (authenticateToken_headers firebaseAdminInitialized verifyIdToken
                hdrs e u He Hne Hu Hnu) as Hauth.
  split; [exact Hauth |]. intros st handler. unfold authenticated. rewrite Hauth.
  fold user. destruct (handler user) as [[r st'] tr']. reflexivity.
Qed.

(** C4, as amended. A comment is created only for a request that the
    middleware resolved to an identity; the stored [authorEmail] and
    [authorId] are those of the identity, whatever the body says; the stored
    [authorName] is the body's when it is truthy, else the identity's name,
    else "Anonymous"; the stored [authorImage] is the body's when it is
    truthy, else the placeholder. *)
Theorem createComment_author_fields net now (req : request) st :
  status (fst (fst (route_createComment ObjectId_isValid ObjectId_new firebaseAdminInitialized
                      verifyIdToken net now req st))) = 201 ->
  exists user tr comment,
    authenticateToken firebaseAdminInitialized verifyIdToken (headers req) = (Next user, tr)
    /\ inserted (commentsCollection st)
         (commentsCollection
            (snd (fst (route_createComment ObjectId_isValid ObjectId_new
                         firebaseAdminInitialized verifyIdToken net now req st))))
         comment
    /\ comment !! "authorEmail" = Some (bson (email user))
    /\ comment !! "authorId" = Some (bson (uid user))
    /\ comment !! "authorName"
       = Some (bson (js_or (js_or (get (body req) "authorName") (name user))
                       (VStr "Anonymous")))
    /\ comment !! "authorImage"
       = Some (bson (js_or (get (body req) "authorImage")
                       (VStr "https://via.placeholder.com/40"))).
Proof.
  unfold route_createComment, authenticated.
  destruct (authenticateToken firebaseAdminInitialized verifyIdToken (headers req))
    as [[user | r] tr] eqn:Hauth.
  - destruct (createComment ObjectId_isValid ObjectId_new net now user
                (params_id req) (body req) st) as [[r st'] tr'] eqn:Hrun.
    simpl. intros Hst.
    pose proof (createComment_created net now user (params_id req) (body req) st) as Hc.
    rewrite Hrun in Hc. simpl in Hc.
    destruct (Hc Hst) as (comment & Hins & He & Hu & Hn & Hi & _).
    exists user, tr, comment. done.
  - simpl. rewrite (authenticateToken_rejected _ _ _ _ _ Hauth). done.
Qed.



(** C8, as amended. When the connection is marked connected the guard
    issues one ping: if it succeeds the request goes on, if it fails the
    connection is marked disconnected and the request is answered 503 without
    a reconnection attempt.  When the connection is marked disconnected and
    the driver reports no connection, the guard makes exactly one connection
    attempt: if it succeeds the request goes on, otherwise it is answered
    503.  A request that the guard refuses is answered 503 and changes no
    collection. *)
Theorem guard_behaviour :
  (forall net c,
     dbConnected c = true -> db c = true ->
     checkDbConnection net c =
       if ping_ok net then (None, c, [EvPing])
       else (Some (Response 503 "Database connection lost"),
             {| dbConnected := false; db := db c |}, [EvPing]))
  /\ (forall net c,
        dbConnected c = false \/ db c = false ->
        topology_connected net = false ->
        checkDbConnection net c =
          if connect_ok net 0 && verify_ok net 0
          then (None, connected, [EvConnect 0; EvPing])
          else (Some (Response 503 "Database connection not available"),
                {| dbConnected := false; db := db c |},
                EvConnect 0 :: (if connect_ok net 0 then [EvPing] else [])))
  /\ (forall net st (k : state -> response * state) r,
        fst (fst (checkDbConnection net (conn st))) = Some r ->
        fst (fst (with_db net st k)) = r
        /\ status r = 503
        /\ same_data st (snd (fst (with_db net st k)))).
Proof.
  split; [exact checkDbConnection_connected |].
  split; [exact checkDbConnection_disconnected | exact with_db_refused].
Qed.
End ServerProperties.

(** C10. An identity with neither an email nor a subject id is never the
    creator of a resource. *)
Theorem isCreator_absent_identity (resource : doc) (e u : value) :
  absent e -> absent u -> isCreator resource e u = false.
Proof.
  intros He Hu. rewrite isCreator_probes.
  rewrite !(strict_eq_absent _ e He), !(strict_eq_absent _ u Hu). reflexivity.
Qed.

(** ** Order on date strings *)

Lemma string_ltb_lt (a b : string) : String.ltb a b = true <-> String_as_OT.lt a b.
Proof.
  unfold String.ltb. rewrite <- String_as_OT.cmp_lt. unfold String_as_OT.cmp.
  destruct (String.compare a b); split; done.
Qed.

Lemma string_leb_cases (a b : string) :
  String.leb a b = true <-> a = b \/ String.ltb a b = true.
Proof.
  unfold String.leb, String.ltb.
  pose proof (String_as_OT.cmp_eq a b) as Heq. unfold String_as_OT.cmp in Heq.
  destruct (String.compare a b); split; try done.
  - intros _. left. by apply Heq.
  - intros _. by right.
  - intros [Hab | ?]; [ | done]. apply Heq in Hab. done.
Qed.

Lemma string_ltb_trans (a b c : string) :
  String.ltb a b = true -> String.ltb b c = true -> String.ltb a c = true.
Proof. rewrite !string_ltb_lt. apply String_as_OT.lt_trans. Qed.

Lemma string_leb_trans (a b c : string) :
  String.leb a b = true -> String.leb b c = true -> String.leb a c = true.
Proof.
  rewrite !string_leb_cases. intros [-> | Hab] [-> | Hbc]; try tauto.
  right. by apply string_ltb_trans with b.
Qed.

Lemma date_le_transitive : Relations_1.Transitive date_le.
Proof. intros a b c. unfold date_le. apply string_leb_trans. Qed.

(** Rows in ascending order with pairwise different dates are in strictly
    ascending order. *)
Lemma sorted_distinct_strict (l : list stat) :
  Sorted date_le l -> NoDup (dates l) -> StronglySorted date_lt l.
Proof.
  intros Hs%(Sorted_StronglySorted date_le_transitive).
  induction Hs as [ | a l Hl IH Ha]; intros Hnd; [constructor |].
  unfold dates in Hnd. rewrite fmap_cons in Hnd. apply NoDup_cons in Hnd as [Hnotin Hnd].
  constructor; [by apply IH |].
  rewrite Forall_forall in Ha |- *. intros b Hb.
  destruct (proj1 (string_leb_cases _ _) (Ha b Hb)) as [Heq | Hlt]; [ | exact Hlt].
  exfalso. apply Hnotin. rewrite Heq. by apply list_elem_of_fmap_2.
Qed.

(** ** Dashboard statistics *)

Section DashboardProperties.
Variable localeCompare : string -> string -> Z.

Lemma find_date_None (d : string) (stats : list stat) :
  List.find (fun s => (date s =? d)%string) stats = None <-> d ∉ dates stats.
Proof.
  induction stats as [ | s stats IH]; simpl.
  - split; [intros _; apply not_elem_of_nil | done].
  - rewrite not_elem_of_cons. destruct (String.eqb_spec (date s) d) as [-> | Hne].
    + split; [done | intros [? _]; done].
    + rewrite IH. split; [intros ?; split; congruence | intros [_ ?]; done].
Qed.

Lemma find_day_In (d : string) (n : Z) (series : list (string * Z)) :
  NoDup (days series) -> (d, n) ∈ series ->
  List.find (fun g => (fst g =? d)%string) series = Some (d, n).
Proof.
  induction series as [ | [d' n'] series IH]; simpl.
  - intros _ Hin. by apply elem_of_nil in Hin.
  - intros [Hnotin Hnd]%NoDup_cons [[= -> ->] | Hin]%elem_of_cons.
    + by rewrite String.eqb_refl.
    + destruct (String.eqb_spec d' d) as [-> | Hne]; [ | by apply IH].
      exfalso. apply Hnotin. unfold days.
      change d with (fst (d, n)). by apply list_elem_of_fmap_2.
Qed.

Lemma find_day_notin (d : string) (series : list (string * Z)) :
  d ∉ days series -> List.find (fun g => (fst g =? d)%string) series = None.
Proof.
  induction series as [ | [d' n'] series IH]; simpl; [done |].
  intros [Hne Hnotin]%not_elem_of_cons.
  destruct (String.eqb_spec d' d) as [-> | _]; [done | by apply IH].
Qed.

(** The first loop appends one row per row of the users series. *)
Lemma fold_push_user_day (groupsPerDay usersPerDay : list (string * Z)) (acc : list stat) :
  fold_left (push_user_day groupsPerDay) usersPerDay acc
  = acc ++ (user_row groupsPerDay <$> usersPerDay).
Proof.
  revert acc. induction usersPerDay as [ | ud us IH]; intros acc; simpl.
  - by rewrite app_nil_r.
  - rewrite IH. unfold push_user_day at 1. by rewrite <- app_assoc.
Qed.

(** What the second loop leaves: the rows it found, and one row with no
    users for each date of the groups series that was not there yet. *)
Lemma fold_push_group_day (groupsPerDay : list (string * Z)) (acc : list stat) :
  NoDup (dates acc) ->
  NoDup (dates (fold_left push_group_day groupsPerDay acc))
  /\ (forall d, d ∈ dates (fold_left push_group_day groupsPerDay acc)
                <-> d ∈ dates acc \/ d ∈ days groupsPerDay)
  /\ (forall s, s ∈ fold_left push_group_day groupsPerDay acc ->
                s ∈ acc
                \/ ((date s ∉ dates acc) /\ users s = 0
                    /\ List.find (fun g => (fst g =? date s)%string) groupsPerDay
                       = Some (date s, groups s))).
Proof.
  revert acc. induction groupsPerDay as [ | [d n] gs IH]; intros acc Hnd; simpl.
  { split; [done |]. split; [ | by left].
    intros d. split; [by left | intros [? | Hin]; [done | by apply elem_of_nil in Hin]]. }
  assert (Hstep : push_group_day acc (d, n)
                  = match List.find (fun s => (date s =? d)%string) acc with
                    | Some _ => acc
                    | None => acc ++ [ {| date := d; users := 0; groups := n |} ]
                    end) by reflexivity.
  destruct (List.find (fun s => (date s =? d)%string) acc) as [s0 | ] eqn:Hfind;
    rewrite Hstep; clear Hstep.
  - assert (Hd : d ∈ dates acc).
    { destruct (decide (d ∈ dates acc)) as [? | Hn]; [done |].
      apply find_date_None in Hn. congruence. }
    destruct (IH acc Hnd) as (IH1 & IH2 & IH3). split; [done |]. split.
    + intros d'. rewrite IH2, elem_of_cons.
      split; [tauto |]. intros [? | [-> | ?]]; tauto.
    + intros s Hs. destruct (IH3 s Hs) as [? | (Hn & Hu & Hf)]; [by left | right].
      split; [done |]. split; [done |].
      destruct (String.eqb_spec d (date s)) as [-> | _]; [done | exact Hf].
  - apply find_date_None in Hfind.
    set (row := {| date := d; users := 0; groups := n |}) in *.
    assert (Hdates : dates (acc ++ [row]) = dates acc ++ [d])
      by (unfold dates; by rewrite fmap_app).
    assert (Hnd' : NoDup (dates (acc ++ [row]))).
    { rewrite Hdates. apply NoDup_app. split; [done |]. split.
      - intros x Hx [-> | Hn]%elem_of_cons; [done | by apply elem_of_nil in Hn].
      - apply NoDup_singleton. }
    destruct (IH (acc ++ [row]) Hnd') as (IH1 & IH2 & IH3). split; [done |]. split.
    + intros d'. rewrite IH2, Hdates, elem_of_app, list_elem_of_singleton, elem_of_cons.
      tauto.
    + intros s Hs. destruct (IH3 s Hs) as [Hin | (Hn & Hu & Hf)].
      * apply elem_of_app in Hin as [? | ->%list_elem_of_singleton]; [by left | right].
        simpl. by rewrite String.eqb_refl.
      * right. rewrite Hdates, elem_of_app, list_elem_of_singleton in Hn.
        split; [tauto |]. split; [done |].
        destruct (String.eqb_spec d (date s)) as [-> | _]; [tauto | exact Hf].
Qed.

Lemma insert_stat_perm (s : stat) (l : list stat) :
  insert_stat localeCompare s l ≡ₚ s :: l.
Proof.
  induction l as [ | t l IH]; simpl; [done |].
  destruct (localeCompare (date s) (date t) <=? 0)%Z; [done |].
  rewrite IH. apply Permutation_swap.
Qed.

Lemma sort_stats_perm (l : list stat) : sort_stats localeCompare l ≡ₚ l.
Proof.
  induction l as [ | s l IH]; simpl; [done |].
  by rewrite insert_stat_perm, IH.
Qed.

(** On date strings [localeCompare] orders as the character codes do. *)
Hypothesis localeCompare_dates : forall a b : string,
  is_date a = true -> is_date b = true ->
  (localeCompare a b <=? 0)%Z = String.leb a b.

Lemma insert_stat_sorted (s : stat) (l : list stat) :
  is_date (date s) = true ->
  Forall (fun t => is_date (date t) = true) l ->
  Sorted date_le l -> Sorted date_le (insert_stat localeCompare s l).
Proof.
  intros Hs Hl Hsorted. induction Hsorted as [ | t l Hsorted IH Hhd]; simpl.
  - by repeat constructor.
  - apply Forall_cons in Hl as [Ht Hl].
    rewrite (localeCompare_dates _ _ Hs Ht).
    destruct (String.leb (date s) (date t)) eqn:Hle.
    + constructor; [by constructor | by constructor].
    + assert (Hts : date_le t s).
      { unfold date_le. destruct (String.leb_total (date s) (date t)); congruence. }
      constructor; [by apply IH |].
      destruct Hhd as [ | t' l' Htt']; simpl; [by constructor |].
      apply Forall_cons in Hl as [Ht' _].
      rewrite (localeCompare_dates _ _ Hs Ht').
      destruct (String.leb (date s) (date t')); by constructor.
Qed.

Lemma sort_stats_sorted (l : list stat) :
  Forall (fun t => is_date (date t) = true) l ->
  Sorted date_le (sort_stats localeCompare l).
Proof.
  induction l as [ | s l IH]; simpl; [constructor |].
  intros [Hs Hl]%Forall_cons. apply insert_stat_sorted; [done | | by apply IH].
  by rewrite sort_stats_perm.
Qed.

(** C9. For two per-day series with pairwise different date keys, every
    date of either series is the date of exactly one row of the merged
    output, a row reports the count of each series for its date and 0 for
    a series that lacks the date, and the rows are in strictly ascending
    order of their date strings. *)
Theorem dashboard_stats_merge (usersPerDay groupsPerDay : list (string * Z)) :
  NoDup (days usersPerDay) ->
  NoDup (days groupsPerDay) ->
  Forall (fun d => is_date d = true) (days usersPerDay ++ days groupsPerDay) ->
  let stats := dashboard_stats localeCompare usersPerDay groupsPerDay in
  (forall d, d ∈ dates stats <-> d ∈ days usersPerDay \/ d ∈ days groupsPerDay)
  /\ NoDup (dates stats)
  /\ (forall s, s ∈ stats ->
        (forall n, (date s, n) ∈ usersPerDay -> users s = n)
        /\ (date s ∉ days usersPerDay -> users s = 0)
        /\ (forall n, (date s, n) ∈ groupsPerDay -> groups s = n)
        /\ (date s ∉ days groupsPerDay -> groups s = 0))
  /\ StronglySorted date_lt stats.
Proof.
  intros Hu Hg Hdates stats.
  set (row := user_row groupsPerDay).
  assert (Hfirst : fold_left (push_user_day groupsPerDay) usersPerDay [] = row <$> usersPerDay)
    by apply fold_push_user_day.
  assert (Hfd : dates (row <$> usersPerDay) = days usersPerDay).
  { unfold dates, days. rewrite <- list_fmap_compose. reflexivity. }
  destruct (fold_push_group_day groupsPerDay (row <$> usersPerDay)) as (Hnd & Hmem & Hrows).
  { by rewrite Hfd. }
  rewrite Hfd in Hmem.
  assert (Hperm : stats ≡ₚ fold_left push_group_day groupsPerDay (row <$> usersPerDay)).
  { unfold stats, dashboard_stats, merge_days. rewrite Hfirst. apply sort_stats_perm. }
  assert (Hpd : dates stats ≡ₚ
                dates (fold_left push_group_day groupsPerDay (row <$> usersPerDay))).
  { unfold dates. by rewrite Hperm. }
  assert (Hmem' : forall d, d ∈ dates stats
                            <-> d ∈ days usersPerDay \/ d ∈ days groupsPerDay).
  { intros d. rewrite Hpd. apply Hmem. }
  assert (Hnd' : NoDup (dates stats)) by (by rewrite Hpd).
  split; [exact Hmem' |]. split; [exact Hnd' |]. split.
  - intros s Hs. rewrite Hperm in Hs.
    destruct (Hrows s Hs) as [Hin | (Hnotin & Hzero & Hfind)].
    + apply list_elem_of_fmap in Hin as ([d n] & -> & Hin). simpl.
      split; [ | split; [ | split]].
      * intros n' Hn'. pose proof (find_day_In _ _ _ Hu Hin) as H1.
        pose proof (find_day_In _ _ _ Hu Hn') as H2. congruence.
      * intros Hno. exfalso. apply Hno. unfold days.
        change d with (fst (d, n)). by apply list_elem_of_fmap_2.
      * intros n' Hn'. by rewrite (find_day_In _ _ _ Hg Hn').
      * intros Hno. by rewrite (find_day_notin _ _ Hno).
    + rewrite Hfd in Hnotin. split; [ | split; [ | split]].
      * intros n Hn. exfalso. apply Hnotin. unfold days.
        change (date s) with (fst (date s, n)). by apply list_elem_of_fmap_2.
      * done.
      * intros n Hn. rewrite (find_day_In _ _ _ Hg Hn) in Hfind. congruence.
      * intros Hno. rewrite (find_day_notin _ _ Hno) in Hfind. done.
  - apply sorted_distinct_strict; [ | exact Hnd'].
    apply sort_stats_sorted. rewrite Forall_forall in Hdates. apply Forall_forall.
    intros s Hs. apply Hdates. apply elem_of_app, Hmem.
    unfold merge_days in Hs. rewrite Hfirst in Hs.
    unfold dates. by apply list_elem_of_fmap_2.
Qed.
End DashboardProperties.

Lemma code_unit_compare_dates (a b : string) :
  is_date a = true -> is_date b = true ->
  (code_unit_compare a b <=? 0)%Z = String.leb a b.
Proof.
  intros _ _. unfold code_unit_compare, String.leb.
  destruct (String.compare a b); reflexivity.
Qed.

Lemma dashboard_stats_merge_witness :
  let usersPerDay := [("2025-01-01", 2); ("2025-01-03", 1)] in
  let groupsPerDay := [("2025-01-02", 4); ("2025-01-03", 5)] in
  dashboard_stats code_unit_compare usersPerDay groupsPerDay
  = [Stat "2025-01-01" 2 0; Stat "2025-01-02" 0 4; Stat "2025-01-03" 1 5]
  /\ StronglySorted date_lt (dashboard_stats code_unit_compare usersPerDay groupsPerDay).
Proof.
  intros usersPerDay groupsPerDay. split; [vm_compute; reflexivity |].
  apply (dashboard_stats_merge code_unit_compare code_unit_compare_dates
           usersPerDay groupsPerDay).
  - apply (bool_decide_unpack _). vm_compute. exact I.
  - apply (bool_decide_unpack _). vm_compute. exact I.
  - apply (bool_decide_unpack _). vm_compute. exact I.
Defined.

(** ** The claims on the sample data *)


Lemma fallback_headers_take_precedence_witness :
  sample_verify "token-1" <> None
  /\ authenticateToken true sample_verify alice_headers = (Next alice, []).
Proof.
  split; [vm_compute; discriminate |].
  apply (fallback_headers_take_precedence (oid := N) true sample_verify alice_headers
           "alice@example.com" "uid-alice");
    [vm_compute; reflexivity | discriminate | vm_compute; reflexivity | discriminate].
Defined.

Lemma createComment_author_fields_witness :
  exists user tr comment,
    authenticateToken true sample_verify (headers sample_comment_request) = (Next user, tr)
    /\ inserted (commentsCollection sample_state)
         (commentsCollection
            (snd (fst (route_createComment hex24_isValid hex24_new true sample_verify
                         sample_net sample_now sample_comment_request sample_state))))
         comment
    /\ comment !! "authorEmail" = Some (bson (email user))
    /\ comment !! "authorId" = Some (bson (uid user))
    /\ comment !! "authorName"
       = Some (bson (js_or (js_or (get (body sample_comment_request) "authorName") (name user))
                       (VStr "Anonymous")))
    /\ comment !! "authorImage"
       = Some (bson (js_or (get (body sample_comment_request) "authorImage")
                       (VStr "https://via.placeholder.com/40"))).
Proof.
  apply (createComment_author_fields (oid := N) hex24_isValid hex24_new true sample_verify
           sample_net sample_now sample_comment_request sample_state).
  vm_compute. reflexivity.
Defined.



Lemma guard_behaviour_witness :
  checkDbConnection sample_net connected = (None, connected, [EvPing])
  /\ checkDbConnection flaky_net (Connection false true)
     = (None, connected, [EvConnect 0; EvPing])
  /\ status (fst (fst (with_db (oid := N) flaky_net sample_state
                         (fun st => (Response 200 EmptyString, st))))) = 503.
Proof.
  destruct (guard_behaviour (oid := N)) as (Hup & Hdown & Hrefused).
  split; [apply (Hup sample_net connected); reflexivity |].
  split; [apply (Hdown flaky_net (Connection false true)); [left |]; reflexivity |].
  destruct (Hrefused flaky_net sample_state (fun st => (Response 200 EmptyString, st))
              (Response 503 "Database connection lost")) as (Hr & _ & _);
    [vm_compute; reflexivity |].
  rewrite Hr. reflexivity.
Defined.

Lemma isCreator_absent_identity_witness :
  absent VUndefined /\ absent VNull /\ isCreator run_club VUndefined VNull = false.
Proof.
  split; [left; reflexivity |]. split; [right; reflexivity |].
  apply (isCreator_absent_identity run_club VUndefined VNull);
    [left; reflexivity | right; reflexivity].
Defined.

(** ** Where the code departs from the claims *)

(** C2. [PUT /groups/:id] strips four of the six ownership names: Alice's
    update with an [authorEmail] stores it on her group, and the ownership
    check then accepts Mallory; [PUT /articles/:id] likewise stores a
    [creatorEmail]. *)
Theorem update_stores_unstripped_ownership_field :
  (exists group',
     status (fst (fst (updateGroup hex24_isValid hex24_new sample_net sample_now alice group_id
                         {[ "authorEmail" := VStr "mallory@example.com" ]} sample_state))) = 200
     /\ groupCollection
          (snd (fst (updateGroup hex24_isValid hex24_new sample_net sample_now alice group_id
                       {[ "authorEmail" := VStr "mallory@example.com" ]} sample_state)))
          !! 161%N = Some group'
     /\ get run_club "authorEmail" = VUndefined
     /\ get group' "authorEmail" = VStr "mallory@example.com"
     /\ isCreator run_club (email mallory) (uid mallory) = false
     /\ isCreator group' (email mallory) (uid mallory) = true)
  /\ (exists article',
        status (fst (fst (updateArticle hex24_isValid hex24_new sample_net sample_now alice
                            article_id {[ "creatorEmail" := VStr "mallory@example.com" ]}
                            sample_state))) = 200
        /\ articlesCollection
             (snd (fst (updateArticle hex24_isValid hex24_new sample_net sample_now alice
                          article_id {[ "creatorEmail" := VStr "mallory@example.com" ]}
                          sample_state)))
             !! 178%N = Some article'
        /\ get alice_article "creatorEmail" = VUndefined
        /\ get article' "creatorEmail" = VStr "mallory@example.com"
        /\ isCreator alice_article (email mallory) (uid mallory) = false
        /\ isCreator article' (email mallory) (uid mallory) = true).
Proof.
  split; eexists; repeat split; vm_compute; reflexivity.
Qed.

(** C4, as stated, fails: the comment created for Alice carries the
    [authorName] and the [authorImage] of the request body. *)
Lemma createComment_author_fields_counterexample :
  authenticateToken true sample_verify (headers sample_comment_request) = (Next alice, [])
  /\ status (fst (fst (route_createComment hex24_isValid hex24_new true sample_verify
                         sample_net sample_now sample_comment_request sample_state))) = 201
  /\ exists comment,
       commentsCollection sample_state !! 196%N = None
       /\ commentsCollection
            (snd (fst (route_createComment hex24_isValid hex24_new true sample_verify
                         sample_net sample_now sample_comment_request sample_state)))
            !! 196%N = Some comment
       /\ name alice = VStr "alice"
       /\ get comment "authorName" = VStr "Mallory"
       /\ get comment "authorImage" = VStr "https://img.example/m.png"
       /\ get comment "authorEmail" = VStr "alice@example.com".
Proof.
  split; [vm_compute; reflexivity |]. split; [vm_compute; reflexivity |].
  eexists. repeat split; vm_compute; reflexivity.
Qed.


(** C8, as stated, fails: when the ping fails the request is answered 503
    after the ping alone, although a connection attempt on the same network
    succeeds; and a request that finds the connection marked disconnected is
    answered after a connection attempt, without the guard's ping. *)
Lemma guard_counterexample :
  checkDbConnection flaky_net connected
  = (Some (Response 503 "Database connection lost"),
     {| dbConnected := false; db := true |}, [EvPing])
  /\ connectToMongoDB flaky_net 1 1000 {| dbConnected := false; db := true |}
     = (true, connected, [EvConnect 0; EvPing])
  /\ checkDbConnection
       {| topology_connected := false; connect_ok := fun _ => false;
          verify_ok := fun _ => true; ping_ok := true |}
       {| dbConnected := false; db := true |}
     = (Some (Response 503 "Database connection not available"),
        {| dbConnected := false; db := true |}, [EvConnect 0]).
Proof. repeat split; vm_compute; reflexivity. Qed.


(** C6. The cascade misses the records stored under another spelling of
    the identifier.  Mallory joins the sample group with its identifier in
    capitals, which [new ObjectId] accepts; Alice then deletes the group
    under the lower-case spelling and is answered 200; the group is gone
    and Mallory's join record, whose [groupId] still reads as the
    identifier of the deleted group, remains.  The same holds for a
    comment posted under the capital spelling of an article that is then
    deleted. *)
Theorem cascade_misses_other_spelling :
  let joined :=
    joinGroup hex24_new sample_net sample_now mallory
      {[ "groupId" := VStr group_id_capitals ]} sample_state in
  let deleted :=
    deleteGroup hex24_isValid hex24_new sample_net alice group_id (snd (fst joined)) in
  let commented :=
    createComment hex24_isValid hex24_new sample_net sample_now mallory
      article_id_capitals {[ "text" := VStr "hello" ]} sample_state in
  let removed :=
    deleteArticle hex24_isValid hex24_new sample_net alice article_id
      (snd (fst commented)) in
  (status (fst (fst joined)) = 201
   /\ status (fst (fst deleted)) = 200
   /\ hex24_new (VStr group_id) = Some 161%N
   /\ groupCollection (snd (fst deleted)) !! 161%N = None
   /\ (fun r => (get r "userEmail", hex24_new (get r "groupId")))
        <$> joinedCollection (snd (fst deleted)) !! 2%N
      = Some (email mallory, Some 161%N))
  /\ (status (fst (fst commented)) = 201
      /\ status (fst (fst removed)) = 200
      /\ hex24_new (VStr article_id) = Some 178%N
      /\ articlesCollection (snd (fst removed)) !! 178%N = None
      /\ (fun r => hex24_new (get r "articleId"))
           <$> commentsCollection (snd (fst removed)) !! 196%N
         = Some (Some 178%N)).
Proof.
  cbv zeta. repeat split; vm_compute; reflexivity.
Qed.

(** * Further properties *)

(** ** Strings of the middleware *)

Lemma substring_all (s : string) : String.substring 0 (String.length s) s = s.
Proof. induction s as [ | c s IH]; simpl; [reflexivity | by rewrite IH]. Qed.

Lemma substring_prefix_app (l r : string) :
  String.substring 0 (String.length l) (l ++ r) = l.
Proof. induction l as [ | c l IH]; simpl; [by destruct r | by rewrite IH]. Qed.

Lemma prefix_at_sign (c : ascii) (s : string) :
  String.prefix "@" (String c s) = if Ascii.eqb c "@" then true else false.
Proof.
  destruct (Ascii.eqb_spec c "@") as [-> | Hne].
  - apply prefix_correct. simpl. by destruct s.
  - destruct (String.prefix "@" (String c s)) eqn:Hp; [ | reflexivity].
    apply prefix_correct in Hp. simpl in Hp. congruence.
Qed.

Lemma index_cons (sep : string) (c : ascii) (s : string) :
  String.index 0 sep (String c s)
  = if String.prefix sep (String c s) then Some 0%nat
    else match String.index 0 sep s with Some n => Some (S n) | None => None end.
Proof. reflexivity. Qed.

Lemma index_at_sign (l d : string) :
  String.index 0 "@" l = None ->
  String.index 0 "@" (l ++ String "@" d) = Some (String.length l).
Proof.
  induction l as [ | c l IH]; intros Hnone.
  - change (EmptyString ++ String "@" d)%string with (String "@" d).
    rewrite index_cons, prefix_at_sign. reflexivity.
  - change (String c l ++ String "@" d)%string with (String c (l ++ String "@" d)).
    rewrite index_cons, prefix_at_sign in Hnone |- *.
    destruct (Ascii.eqb c "@"); [discriminate |].
    destruct (String.index 0 "@" l) eqn:Hl; [discriminate |].
    by rewrite IH.
Qed.

(** X1. The display name taken from an email is its local part: what stands
    before the first [@]. *)
Theorem local_part_of_email (l d : string) :
  String.index 0 "@" l = None ->
  local_part (VStr (l ++ String "@" d)) = VStr l.
Proof.
  intros Hl. unfold local_part, before_first.
  rewrite (index_at_sign l d Hl). by rewrite substring_prefix_app.
Qed.

Lemma local_part_of_email_witness :
  local_part (VStr "alice@example.com") = VStr "alice".
Proof.
  apply (local_part_of_email "alice" "example.com"). vm_compute. reflexivity.
Defined.

(** X2. The token read from [Authorization: Bearer t] is [t], as long as [t]
    does not itself hold the separator. *)
Theorem bearer_token_roundtrip (t : string) :
  String.index 0 "Bearer " t = None ->
  bearer_token (Some ("Bearer " ++ t)%string) = VStr t.
Proof.
  intros Ht. unfold bearer_token.
  replace (String.prefix "Bearer " ("Bearer " ++ t)%string) with true
    by (symmetry; apply prefix_correct; simpl; by destruct t).
  simpl. rewrite Nat.sub_0_r, substring_all.
  change (EmptyString ++ t)%string with t.
  unfold before_first. by rewrite Ht.
Qed.

Lemma bearer_token_roundtrip_witness :
  bearer_token (Some "Bearer token-1") = VStr "token-1".
Proof. apply (bearer_token_roundtrip "token-1"). vm_compute. reflexivity. Defined.

(** ** Where an identity comes from *)

(** X3. The middleware lets a request through only with both fallback headers,
    or, failing that, with Firebase Admin initialized and a bearer token
    that it verified; of the requests let through, those of the second kind
    alone have called the verifier. *)
Theorem authentication_sources fbInit verify (hdrs : gmap string string) user tr :
  authenticateToken fbInit verify hdrs = (Next user, tr) ->
  (truthy (claimed_email hdrs) = true /\ truthy (claimed_uid hdrs) = true
   /\ tr = []
   /\ user = {| uid := claimed_uid hdrs; email := claimed_email hdrs;
                name := local_part (claimed_email hdrs) |})
  \/ (truthy (claimed_email hdrs) && truthy (claimed_uid hdrs) = false
      /\ fbInit = true
      /\ exists t d,
           bearer_token (hdrs !! "authorization") = VStr t
           /\ t <> EmptyString
           /\ verify t = Some d
           /\ tr = [EvVerifyIdToken t]
           /\ user = identity_of_token d).
Proof.
  unfold authenticateToken.
  destruct (truthy (claimed_email hdrs) && truthy (claimed_uid hdrs)) eqn:Hboth.
  - intros [= <- <-]. left. apply andb_true_iff in Hboth as [-> ->]. done.
  - destruct (bearer_token (hdrs !! "authorization")) as [ | | | | t | | ];
      try (by intros [=]).
    destruct (truthy (VStr t) && fbInit) eqn:Htok; [ | by intros [=]].
    apply andb_true_iff in Htok as [Ht ->].
    destruct (verify t) as [d | ] eqn:Hd; intros [= <- <-].
    right. split; [done |]. split; [done |]. exists t, d.
    split; [done |]. split; [by apply truthy_str | done].
Qed.

Lemma authentication_sources_witness :
  exists t d,
    bearer_token (({[ "authorization" := "Bearer token-1" ]} : gmap string string)
                    !! "authorization") = VStr t
    /\ sample_verify t = Some d
    /\ identity_of_token d
       = {| uid := VStr "uid-token"; email := VStr "token@example.com";
            name := VStr "token" |}.
Proof.
  destruct (authentication_sources true sample_verify
              {[ "authorization" := "Bearer token-1" ]}
              {| uid := VStr "uid-token"; email := VStr "token@example.com";
                 name := VStr "token" |}
              [EvVerifyIdToken "token-1"])
    as [(Hfalse & _) | (_ & _ & t & d & Ht & _ & Hd & _ & Hu)].
  - vm_compute. reflexivity.
  - vm_compute in Hfalse. discriminate.
  - exists t, d. split; [exact Ht |]. split; [exact Hd | symmetry; exact Hu].
Defined.

Lemma authenticateToken_resolved_witness : resolved alice.
Proof.
  apply (authenticateToken_resolved true sample_verify alice_headers alice []).
  - intros t d. unfold sample_verify.
    destruct (String.eqb t "token-1"); [ | discriminate].
    intros [= <-]. split; discriminate.
  - vm_compute. reflexivity.
Defined.

(** ** Connecting with retries *)

Lemma connect_attempts_spec net retries remaining i delay c :
  topology_connected net = false ->
  (i + remaining = retries)%nat -> (0 < remaining)%nat ->
  exists k,
    (i < k <= retries)%nat
    /\ (forall j, (i <= j < k - 1)%nat -> attempt_ok net j = false)
    /\ attempts (snd (connect_attempts net retries remaining i delay c)) = seq i (k - i)
    /\ sleeps (snd (connect_attempts net retries remaining i delay c))
       = nth_delay delay <$> seq 0 (k - i - 1)
    /\ fst (connect_attempts net retries remaining i delay c)
       = (if attempt_ok net (k - 1) then (true, connected)
          else (false, {| dbConnected := false; db := db c |}))
    /\ (attempt_ok net (k - 1) = false -> k = retries).
Proof.
  intros Htop. revert i delay.
  induction remaining as [ | remaining IH]; intros i delay Hsum Hpos; [lia |].
  cbn [connect_attempts]. rewrite Htop.
  destruct (attempt_ok net i) eqn:Hok.
  - exists (S i). unfold attempt_ok in Hok. apply andb_true_iff in Hok as [Hc Hv].
    rewrite Hc, Hv. replace (S i - 1)%nat with i by lia.
    unfold attempt_ok. rewrite Hc, Hv. replace (S i - i)%nat with 1%nat by lia.
    repeat split; try done; try lia.
  - destruct (i <? retries - 1)%nat eqn:Hlast.
    + apply Nat.ltb_lt in Hlast.
      destruct (IH (S i) (delay * 1.5)%float) as (k & Hk & Hfail & Hatt & Hsl & Hres & Hend);
        [lia | lia |].
      exists k.
      assert (Hshape : forall evs,
                attempts evs = [i] -> sleeps evs = [] ->
                attempts (snd (let '(ok, c', tr) :=
                                 connect_attempts net retries remaining (S i)
                                   (delay * 1.5)%float c in
                               (ok, c', evs ++ EvSleep delay :: tr))) = seq i (k - i)
                /\ sleeps (snd (let '(ok, c', tr) :=
                                  connect_attempts net retries remaining (S i)
                                    (delay * 1.5)%float c in
                                (ok, c', evs ++ EvSleep delay :: tr)))
                   = nth_delay delay <$> seq 0 (k - i - 1)
                /\ fst (let '(ok, c', tr) :=
                          connect_attempts net retries remaining (S i)
                            (delay * 1.5)%float c in
                        (ok, c', evs ++ EvSleep delay :: tr))
                   = fst (connect_attempts net retries remaining (S i)
                            (delay * 1.5)%float c)).
      { intros evs Ha Hs.
        destruct (connect_attempts net retries remaining (S i) (delay * 1.5)%float c)
          as [[ok c'] tr]. cbn [fst snd] in *.
        assert (Happ_a : forall l r, attempts (l ++ r) = attempts l ++ attempts r).
        { induction l as [ | [ | | | ] l IHl]; intros r; simpl; by rewrite ?IHl. }
        assert (Happ_s : forall l r, sleeps (l ++ r) = sleeps l ++ sleeps r).
        { induction l as [ | [ | | | ] l IHl]; intros r; simpl; by rewrite ?IHl. }
        rewrite Happ_a, Happ_s, Ha, Hs. cbn [attempts sleeps app]. rewrite Hatt, Hsl.
        replace (k - i)%nat with (S (k - S i)) by lia.
        replace (S (k - S i) - 1)%nat with (S (k - S i - 1)) by lia.
        cbn [seq]. split; [reflexivity |]. split; [ | reflexivity].
        rewrite fmap_cons. cbn [nth_delay]. f_equal.
        rewrite <- fmap_S_seq, <- list_fmap_compose. reflexivity. }
      split; [lia |]. split.
      { intros j Hj. destruct (decide (j = i)) as [-> | Hne]; [done |].
        apply Hfail. lia. }
      unfold attempt_ok in Hok.
      destruct (connect_ok net i), (verify_ok net i); try discriminate;
        (destruct (Hshape [EvConnect i; EvPing]) as (-> & -> & ->); [done | done | done])
        || (destruct (Hshape [EvConnect i]) as (-> & -> & ->); [done | done | done]).
    + apply Nat.ltb_ge in Hlast. exists (S i). replace (S i - 1)%nat with i by lia.
      rewrite Hok. replace (S i - i)%nat with 1%nat by lia.
      unfold attempt_ok in Hok.
      split; [lia |]. split; [intros j Hj; lia |].
      destruct (connect_ok net i), (verify_ok net i); try discriminate;
        repeat split; try done; intros _; lia.
Qed.

(** X4. With the driver disconnected, [connectToMongoDB] succeeds exactly when
    one of its [retries] attempts connects and passes the verifying ping; it
    then leaves the connection marked connected, and otherwise, for a
    positive number of retries, marked disconnected. *)
Theorem connectToMongoDB_succeeds_iff net retries delay c :
  topology_connected net = false ->
  (fst (fst (connectToMongoDB net retries delay c)) = true
   <-> exists i, (i < retries)%nat /\ attempt_ok net i = true)
  /\ (fst (fst (connectToMongoDB net retries delay c)) = true ->
      snd (fst (connectToMongoDB net retries delay c)) = connected)
  /\ (fst (fst (connectToMongoDB net retries delay c)) = false -> (0 < retries)%nat ->
      snd (fst (connectToMongoDB net retries delay c))
      = {| dbConnected := false; db := db c |}).
Proof.
  intros Htop. unfold connectToMongoDB.
  destruct retries as [ | n].
  { simpl. split; [ | split]; [ | done | lia]. split; [done | intros (i & Hi & _); lia]. }
  destruct (connect_attempts_spec net (S n) (S n) 0 delay c Htop)
    as (k & Hk & Hfail & _ & _ & Hres & Hend); [lia | lia |].
  destruct (connect_attempts net (S n) (S n) 0 delay c) as [[ok c'] tr].
  cbn [fst snd] in *.
  destruct (attempt_ok net (k - 1)) eqn:Hok; injection Hres as -> ->.
  - split; [ | done]. split; [ | done]. intros _. exists (k - 1)%nat. split; [lia | done].
  - split; [ | done]. split; [done |]. intros (i & Hi & Hi_ok).
    rewrite (Hend eq_refl) in Hfail, Hok.
    destruct (decide (i = S n - 1)%nat) as [-> | Hne]; [congruence |].
    rewrite Hfail in Hi_ok by lia. done.
Qed.

Lemma connectToMongoDB_succeeds_iff_witness :
  fst (fst (connectToMongoDB slow_net 5 2000 {| dbConnected := false; db := false |}))
  = true
  /\ snd (fst (connectToMongoDB slow_net 5 2000 {| dbConnected := false; db := false |}))
     = connected
  /\ fst (fst (connectToMongoDB slow_net 2 2000 {| dbConnected := false; db := false |}))
     = false.
Proof.
  destruct (connectToMongoDB_succeeds_iff slow_net 5 2000
              {| dbConnected := false; db := false |} eq_refl) as (Hiff & Hmark & _).
  assert (Hok : fst (fst (connectToMongoDB slow_net 5 2000
                            {| dbConnected := false; db := false |})) = true).
  { apply Hiff. exists 2%nat. split; [lia | reflexivity]. }
  split; [exact Hok |]. split; [exact (Hmark Hok) |].
  vm_compute. reflexivity.
Defined.



(** ** The guard from one request to the next *)

(** X6. The guard lets a request through exactly when it leaves the connection
    marked connected, with its handle set. *)
Theorem guard_marks_connection net c :
  fst (fst (checkDbConnection net c)) = None
  <-> snd (fst (checkDbConnection net c)) = connected.
Proof.
  unfold checkDbConnection, connectToMongoDB. cbn [connect_attempts].
  destruct c as [[ | ] [ | ]], (topology_connected net), (ping_ok net),
    (connect_ok net 0), (verify_ok net 0); simpl; split; done.
Qed.

Lemma guard_marks_connection_witness :
  snd (fst (checkDbConnection sample_net connected)) = connected
  /\ fst (fst (checkDbConnection flaky_net connected)) <> None.
Proof.
  split.
  - apply (guard_marks_connection sample_net connected). reflexivity.
  - intros Hnone. apply (guard_marks_connection flaky_net connected) in Hnone.
    vm_compute in Hnone. discriminate.
Defined.

(** X7. Once the connection is marked disconnected, requests that find the
    driver reporting a live topology are all refused with 503, without a
    ping or a connection attempt, and the mark stays. *)
Theorem guard_stays_closed (nets : list network) (c : connection) :
  dbConnected c = false \/ db c = false ->
  Forall (fun net => topology_connected net = true) nets ->
  guard_requests nets c
  = ((fun _ => (Some (Response 503 "Database connection not available"), []))
       <$> nets, c).
Proof.
  intros Hc Hnets. induction Hnets as [ | net nets Htop _ IH]; [reflexivity |].
  cbn [guard_requests]. unfold checkDbConnection.
  replace (negb (dbConnected c) || negb (db c)) with true
    by (destruct Hc as [-> | ->]; simpl; rewrite ?orb_true_r; reflexivity).
  rewrite Htop. cbn [negb]. rewrite IH. reflexivity.
Qed.

Lemma guard_stays_closed_witness :
  let up := {| topology_connected := true; connect_ok := fun _ => true;
               verify_ok := fun _ => true; ping_ok := true |} in
  guard_requests [up; up; up] {| dbConnected := false; db := true |}
  = ([(Some (Response 503 "Database connection not available"), []);
      (Some (Response 503 "Database connection not available"), []);
      (Some (Response 503 "Database connection not available"), [])],
     {| dbConnected := false; db := true |}).
Proof.
  intros up.
  apply (guard_stays_closed [up; up; up] {| dbConnected := false; db := true |}).
  - left. reflexivity.
  - repeat constructor.
Defined.

(** X8. A failed ping costs one request: the next request that finds the driver
    disconnected reconnects at once when its single attempt succeeds, and is
    let through. *)
Theorem guard_recovers (net1 net2 : network) (c : connection) :
  dbConnected c = true -> db c = true ->
  ping_ok net1 = false ->
  topology_connected net2 = false ->
  attempt_ok net2 0 = true ->
  guard_requests [net1; net2] c
  = ([(Some (Response 503 "Database connection lost"), [EvPing]);
      (None, [EvConnect 0; EvPing])],
     connected).
Proof.
  intros Hc Hd Hping Htop Hok. unfold attempt_ok in Hok.
  apply andb_true_iff in Hok as [Hcon Hver].
  cbn [guard_requests]. rewrite (checkDbConnection_connected net1 c Hc Hd), Hping.
  rewrite (checkDbConnection_disconnected net2 {| dbConnected := false; db := db c |}
             (or_introl eq_refl) Htop).
  rewrite Hcon, Hver. reflexivity.
Qed.

Lemma guard_recovers_witness :
  guard_requests [flaky_net; flaky_net] connected
  = ([(Some (Response 503 "Database connection lost"), [EvPing]);
      (None, [EvConnect 0; EvPing])],
     connected).
Proof.
  apply (guard_recovers flaky_net flaky_net connected); reflexivity.
Defined.

(** ** What a refused request leaves behind *)

Section RouteProperties.
Context {oid : Type} `{Countable oid} `{Infinite oid}.
Variable ObjectId_isValid : string -> bool.
Variable ObjectId_new : value -> option oid.
Variable firebaseAdminInitialized : bool.
Variable verifyIdToken : string -> option decodedToken.

Implicit Types (st : state (oid := oid)) (col : gmap oid doc).

Lemma same_data_set_conn st cn : same_data st (set_conn st cn).
Proof. by repeat split. Qed.

(** A handler behind the guard: when its body changes nothing unless it
    succeeds, neither does the guarded handler. *)
Lemma with_db_refusal_keeps net st (k : state -> response * state) :
  (forall st', succeeded (fst (k st')) = false -> same_data st' (snd (k st'))) ->
  succeeded (fst (fst (with_db net st k))) = false ->
  same_data st (snd (fst (with_db net st k))).
Proof.
  intros Hk. unfold with_db.
  destruct (checkDbConnection net (conn st)) as [[[r | ] cn] tr]; cbn [fst snd].
  - intros _. apply same_data_set_conn.
  - destruct (k (set_conn st cn)) as [r st'] eqn:Hrun. cbn [fst snd]. intros Hr.
    specialize (Hk (set_conn st cn)). rewrite Hrun in Hk.
    destruct (Hk Hr) as (? & ? & ? & ? & ?). by repeat split.
Qed.

Lemma deleteOne_id_none col (o : oid) (query : list (string * value)) z col' :
  deleteOne_id col o query = (z, col') -> (z =? 1)%Z = false -> col' = col.
Proof.
  unfold deleteOne_id. destruct (findOne_id col o query); intros [= <- <-]; done.
Qed.

Lemma deleteOne_none col (query : list (string * value)) z col' :
  deleteOne col query = (z, col') -> (z =? 1)%Z = false -> col' = col.
Proof.
  unfold deleteOne.
  destruct (head (map_to_list (selected col query))) as [[o d] | ]; intros [= <- <-]; done.
Qed.

Ltac refused_body :=
  intros st';
  repeat case_match; cbn [fst snd];
  repeat match goal with
         | Hd : deleteOne_id _ _ _ = (_, _), Hz : (_ =? 1)%Z = false |- _ =>
             apply (deleteOne_id_none _ _ _ _ _ Hd) in Hz; subst
         | Hd : deleteOne _ _ = (_, _), Hz : (_ =? 1)%Z = false |- _ =>
             apply (deleteOne_none _ _ _ _ Hd) in Hz; subst
         end;
  unfold succeeded; cbn [status];
  let Hs := fresh "Hs" in
  intros Hs; first [ discriminate Hs | by repeat split ].

(** X9. A request that is not answered 200 or 201 changes no collection. *)
Theorem refused_requests_change_nothing net now user id commentId body st
    (updatedAt createdAt : value) :
  (succeeded (fst (fst (createGroup net now user body st))) = false ->
   same_data st (snd (fst (createGroup net now user body st))))
  /\ (succeeded (fst (fst (updateGroup ObjectId_isValid ObjectId_new net now user id body st)))
      = false ->
      same_data st
        (snd (fst (updateGroup ObjectId_isValid ObjectId_new net now user id body st))))
  /\ (succeeded (fst (fst (deleteGroup ObjectId_isValid ObjectId_new net user id st))) = false ->
      same_data st (snd (fst (deleteGroup ObjectId_isValid ObjectId_new net user id st))))
  /\ (succeeded (fst (fst (joinGroup ObjectId_new net now user body st))) = false ->
      same_data st (snd (fst (joinGroup ObjectId_new net now user body st))))
  /\ (succeeded (fst (fst (createArticle net now user body st))) = false ->
      same_data st (snd (fst (createArticle net now user body st))))
  /\ (succeeded (fst (fst (updateArticle ObjectId_isValid ObjectId_new net now user id body st)))
      = false ->
      same_data st
        (snd (fst (updateArticle ObjectId_isValid ObjectId_new net now user id body st))))
  /\ (succeeded (fst (fst (deleteArticle ObjectId_isValid ObjectId_new net user id st)))
      = false ->
      same_data st (snd (fst (deleteArticle ObjectId_isValid ObjectId_new net user id st))))
  /\ (succeeded (fst (fst (createComment ObjectId_isValid ObjectId_new net now user id body st)))
      = false ->
      same_data st
        (snd (fst (createComment ObjectId_isValid ObjectId_new net now user id body st))))
  /\ (succeeded (fst (fst (deleteComment ObjectId_isValid ObjectId_new net user id commentId st)))
      = false ->
      same_data st
        (snd (fst (deleteComment ObjectId_isValid ObjectId_new net user id commentId st))))
  /\ (succeeded (fst (fst (leaveGroup net user body st))) = false ->
      same_data st (snd (fst (leaveGroup net user body st))))
  /\ (succeeded (fst (fst (saveUser net updatedAt createdAt body st))) = false ->
      same_data st (snd (fst (saveUser net updatedAt createdAt body st)))).
Proof.
  repeat apply conj;
    [ unfold createGroup | unfold updateGroup | unfold deleteGroup | unfold joinGroup
    | unfold createArticle | unfold updateArticle | unfold deleteArticle
    | unfold createComment | unfold deleteComment | unfold leaveGroup | unfold saveUser ];
    apply with_db_refusal_keeps; refused_body.
Qed.

(** ** Queries on fields *)

Lemma findOne_selected col (query : list (string * value)) :
  findOne col query = snd <$> head (map_to_list (selected col query)).
Proof. reflexivity. Qed.

Lemma head_map_to_list col :
  head (map_to_list col) = None <-> col = ∅.
Proof.
  rewrite <- map_to_list_empty_iff. destruct (map_to_list col); simpl; split; done.
Qed.

Lemma head_map_to_list_Some col (o : oid) (d : doc) :
  head (map_to_list col) = Some (o, d) -> col !! o = Some d.
Proof.
  intros Hh. apply elem_of_map_to_list.
  destruct (map_to_list col) as [ | kv l]; simpl in Hh; [done |].
  injection Hh as ->. apply elem_of_cons. by left.
Qed.

Lemma findOne_None col (query : list (string * value)) :
  findOne col query = None <-> selected col query = ∅.
Proof.
  rewrite findOne_selected, <- head_map_to_list.
  destruct (head (map_to_list (selected col query))); simpl; split; done.
Qed.

Lemma selected_lookup col (query : list (string * value)) (o : oid) (d : doc) :
  selected col query !! o = Some d <-> col !! o = Some d /\ matches query d = true.
Proof. unfold selected. apply map_lookup_filter_Some. Qed.

(** The only document selected after an insertion into a collection where
    the query selected nothing is the inserted one. *)
Lemma selected_insertOne col (query : list (string * value)) (d : doc) :
  selected col query = ∅ -> matches query (bson_doc d) = true ->
  selected (insertOne col d) query = {[ fresh (dom col) := bson_doc d ]}.
Proof.
  intros Hnone Hm. unfold selected, insertOne in *.
  rewrite map_filter_insert_True by done. rewrite Hnone. reflexivity.
Qed.

Lemma delete_insertOne col (d : doc) : delete (fresh (dom col)) (insertOne col d) = col.
Proof.
  unfold insertOne. apply delete_insert_id, not_elem_of_dom, is_fresh.
Qed.

Lemma deleteOne_selected col (query : list (string * value)) :
  match head (map_to_list (selected col query)) with
  | Some (o, d) =>
      deleteOne col query = (1, delete o col)
      /\ col !! o = Some d /\ matches query d = true
  | None => deleteOne col query = (0, col)
  end.
Proof.
  unfold deleteOne.
  destruct (head (map_to_list (selected col query))) as [[o d] | ] eqn:Hh; [ | done].
  split; [done |]. by apply selected_lookup, head_map_to_list_Some.
Qed.

(** The record that [POST /joinGroup] stores. *)
Lemma joinGroup_created net now user body st :
  status (fst (fst (joinGroup ObjectId_new net now user body st))) = 201 ->
  truthy (get body "groupId") = true
  /\ selected (joinedCollection st)
       [("groupId", get body "groupId"); ("userEmail", email user)] = ∅
  /\ exists record,
       record !! "groupId" = Some (bson (get body "groupId"))
       /\ record !! "userEmail" = Some (bson (email user))
       /\ record !! "userId" = Some (bson (uid user))
       /\ snd (fst (joinGroup ObjectId_new net now user body st))
          = set_joined
              (set_conn st (snd (fst (checkDbConnection net (conn st)))))
              (<[fresh (dom (joinedCollection st)) := record]> (joinedCollection st)).
Proof.
  unfold joinGroup, with_db.
  destruct (checkDbConnection net (conn st)) as [[[r | ] cn] tr] eqn:Hck; cbn [fst snd].
  { rewrite (checkDbConnection_refusal _ _ _ _ _ Hck). done. }
  destruct (truthy (get body "groupId")) eqn:Hgid; cbn [negb fst snd status]; [ | done].
  cbn [joinedCollection set_conn].
  destruct (findOne (joinedCollection st) _) as [existing | ] eqn:Hfind;
    cbn [fst snd status]; [done |].
  destruct (ObjectId_new (get body "groupId")) as [o | ]; cbn [fst snd status]; [ | done].
  destruct (findOne_id _ o []) as [group | ]; cbn [fst snd status]; [ | done].
  intros _. split; [done |]. split; [by apply findOne_None |].
  eexists. split; [ | split; [ | split; [ | reflexivity]]];
    rewrite get_bson_doc; by simplify_map_eq.
Qed.

Lemma selected_after_join col (query : list (string * value)) (record : doc) :
  selected col query = ∅ -> matches query record = true ->
  selected (<[fresh (dom col) := record]> col) query = {[ fresh (dom col) := record ]}.
Proof.
  intros Hnone Hm. unfold selected in *.
  rewrite map_filter_insert_True by done. rewrite Hnone. reflexivity.
Qed.

(** ** Joining and leaving *)

(** X10. Leaving undoes joining: after a join answered 201, the same identity's
    leave for the same group answers 200 and puts every collection back as
    it was before the join. *)
Theorem join_then_leave net net' now user body st (e : string) :
  email user = VStr e ->
  status (fst (fst (joinGroup ObjectId_new net now user body st))) = 201 ->
  lets_through net' (conn (snd (fst (joinGroup ObjectId_new net now user body st)))) ->
  status (fst (fst (leaveGroup net' user body
                      (snd (fst (joinGroup ObjectId_new net now user body st)))))) = 200
  /\ same_data st
       (snd (fst (leaveGroup net' user body
                    (snd (fst (joinGroup ObjectId_new net now user body st)))))).
Proof.
  intros He Hjoin.
  destruct (joinGroup_created net now user body st Hjoin)
    as (Hgid & Hnone & record & Hrg & Hre & _ & ->).
  intros Hdb. unfold leaveGroup. rewrite with_db_through by done.
  cbv zeta. rewrite Hgid. cbn [negb joinedCollection set_joined set_conn].
  assert (Hsel : selected (<[fresh (dom (joinedCollection st)) := record]>
                             (joinedCollection st))
                   [("groupId", get body "groupId"); ("userEmail", email user)]
                 = {[ fresh (dom (joinedCollection st)) := record ]}).
  { apply selected_after_join; [done |]. unfold matches. cbn [forallb fst snd].
    by rewrite Hrg, Hre, !field_matches_stored. }
  rewrite findOne_selected, Hsel, map_to_list_singleton. cbn [head fmap option_fmap option_map snd].
  assert (Hget : strict_eq (get record "userEmail") (email user) = true).
  { unfold get. rewrite Hre, He. simpl. apply String.eqb_refl. }
  rewrite Hget. cbn [negb]. unfold deleteOne. rewrite Hsel, map_to_list_singleton. cbn [head].
  rewrite delete_insert_id by apply not_elem_of_dom, is_fresh.
  cbn [Z.eqb Pos.eqb fst snd status]. split; [reflexivity | by repeat split].
Qed.

(** X11. An identity without an email can join a group but not leave it: the
    join stores [null] as its email, which is not the identity's
    [undefined], so the leave that follows is answered 403 and the record
    stays. *)
Theorem leave_without_email_is_forbidden net net' now user body st :
  email user = VUndefined ->
  status (fst (fst (joinGroup ObjectId_new net now user body st))) = 201 ->
  lets_through net' (conn (snd (fst (joinGroup ObjectId_new net now user body st)))) ->
  status (fst (fst (leaveGroup net' user body
                      (snd (fst (joinGroup ObjectId_new net now user body st)))))) = 403
  /\ same_data (snd (fst (joinGroup ObjectId_new net now user body st)))
       (snd (fst (leaveGroup net' user body
                    (snd (fst (joinGroup ObjectId_new net now user body st)))))).
Proof.
  intros He Hjoin.
  destruct (joinGroup_created net now user body st Hjoin)
    as (Hgid & Hnone & record & Hrg & Hre & _ & ->).
  intros Hdb. unfold leaveGroup. rewrite with_db_through by done.
  cbv zeta. rewrite Hgid. cbn [negb joinedCollection set_joined set_conn].
  assert (Hsel : selected (<[fresh (dom (joinedCollection st)) := record]>
                             (joinedCollection st))
                   [("groupId", get body "groupId"); ("userEmail", email user)]
                 = {[ fresh (dom (joinedCollection st)) := record ]}).
  { apply selected_after_join; [done |]. unfold matches. cbn [forallb fst snd].
    by rewrite Hrg, Hre, !field_matches_stored. }
  rewrite findOne_selected, Hsel, map_to_list_singleton. cbn [head fmap option_fmap option_map snd].
  assert (Hget : strict_eq (get record "userEmail") (email user) = false).
  { unfold get. rewrite Hre, He. reflexivity. }
  rewrite Hget. cbn [negb fst snd status].
  split; [reflexivity | by repeat split].
Qed.

(** X12. [POST /joinGroup] keeps join records unique: when no two records agree
    on [groupId] and [userEmail] before the request, none do after it. *)
Theorem join_keeps_records_unique net now user body st :
  unique_on ["groupId"; "userEmail"] (joinedCollection st) ->
  unique_on ["groupId"; "userEmail"]
    (joinedCollection (snd (fst (joinGroup ObjectId_new net now user body st)))).
Proof.
  intros Huniq.
  destruct (decide (status (fst (fst (joinGroup ObjectId_new net now user body st))) = 201))
    as [Hjoin | Hrefused].
  - destruct (joinGroup_created net now user body st Hjoin)
      as (_ & Hnone & record & Hrg & Hre & _ & ->).
    cbn [joinedCollection set_joined].
    assert (Hclash : forall j r, joinedCollection st !! j = Some r ->
                       r !! "groupId" = record !! "groupId" ->
                       r !! "userEmail" = record !! "userEmail" -> False).
    { intros j r Hj Hg He.
      assert (Hin : selected (joinedCollection st)
                      [("groupId", get body "groupId"); ("userEmail", email user)] !! j
                    = Some r).
      { apply selected_lookup. split; [done |]. unfold matches. cbn [forallb fst snd].
        by rewrite Hg, He, Hrg, Hre, !field_matches_stored. }
      rewrite Hnone, lookup_empty in Hin. done. }
    intros j1 j2 r1 r2 H1 H2 Hagree.
    apply Forall_cons in Hagree as [Hg Hagree]. apply Forall_cons in Hagree as [He _].
    destruct (decide (j1 = fresh (dom (joinedCollection st)))) as [-> | Hn1];
      destruct (decide (j2 = fresh (dom (joinedCollection st)))) as [-> | Hn2];
      [done | | | ].
    + rewrite lookup_insert_eq in H1. rewrite lookup_insert_ne in H2 by done.
      injection H1 as <-. exfalso. by apply (Hclash j2 r2).
    + rewrite lookup_insert_eq in H2. rewrite lookup_insert_ne in H1 by done.
      injection H2 as <-. exfalso. by apply (Hclash j1 r1).
    + rewrite lookup_insert_ne in H1, H2 by done.
      apply (Huniq j1 j2 r1 r2 H1 H2). by repeat constructor.
  - replace (joinedCollection (snd (fst (joinGroup ObjectId_new net now user body st))))
      with (joinedCollection st); [exact Huniq |].
    unfold joinGroup, with_db in *.
    destruct (checkDbConnection net (conn st)) as [[[r | ] cn] tr]; cbn [fst snd] in *;
      [reflexivity |].
    repeat case_match; simplify_eq;
      cbn [fst snd status joinedCollection set_conn set_joined] in *; done.
Qed.

(** X13. For a request whose [groupId] is a string: a leave answered 200
    removes one join record, whose [groupId] is the request's and whose
    [userEmail] is the identity's email, and nothing else; behind the
    guard, a leave for which no record is stored is answered 404. *)
Theorem leave_removes_one_own_record net user body st (g : string) :
  get body "groupId" = VStr g ->
  (status (fst (fst (leaveGroup net user body st))) = 200 ->
   exists j r,
     joinedCollection st !! j = Some r
     /\ field_matches (get body "groupId") (r !! "groupId") = true
     /\ strict_eq (get r "userEmail") (email user) = true
     /\ joinedCollection (snd (fst (leaveGroup net user body st)))
        = delete j (joinedCollection st)
     /\ groupCollection (snd (fst (leaveGroup net user body st))) = groupCollection st
     /\ usersCollection (snd (fst (leaveGroup net user body st))) = usersCollection st
     /\ articlesCollection (snd (fst (leaveGroup net user body st)))
        = articlesCollection st
     /\ commentsCollection (snd (fst (leaveGroup net user body st)))
        = commentsCollection st)
  /\ (lets_through net (conn st) ->
      truthy (get body "groupId") = true ->
      (forall j r, joinedCollection st !! j = Some r ->
                   matches [("groupId", get body "groupId"); ("userEmail", email user)] r
                   = false) ->
      status (fst (fst (leaveGroup net user body st))) = 404).
Proof.
  intros _.
  split.
  - unfold leaveGroup, with_db.
    destruct (checkDbConnection net (conn st)) as [[[r | ] cn] tr] eqn:Hck; cbn [fst snd].
    { rewrite (checkDbConnection_refusal _ _ _ _ _ Hck). done. }
    destruct (truthy (get body "groupId")); cbn [negb fst snd status]; [ | done].
    cbn [joinedCollection set_conn]. rewrite findOne_selected.
    pose proof (deleteOne_selected (joinedCollection st)
                  [("groupId", get body "groupId"); ("userEmail", email user)]) as Hdel.
    destruct (head (map_to_list (selected (joinedCollection st) _))) as [[j r] | ];
      cbn [fmap option_fmap option_map snd fst status]; [ | done].
    destruct Hdel as (-> & Hj & Hm).
    destruct (strict_eq (get r "userEmail") (email user)) eqn:Hown;
      cbn [negb fst snd status]; [ | done].
    intros _. exists j, r. split; [done |].
    unfold matches in Hm. cbn [forallb fst snd] in Hm.
    apply andb_true_iff in Hm as [Hg _]. by repeat split.
  - intros Hdb Hgid Hnone. unfold leaveGroup. rewrite with_db_through by done.
    cbv zeta. rewrite Hgid. cbn [negb joinedCollection set_conn].
    assert (Hsel : selected (joinedCollection st)
                     [("groupId", get body "groupId"); ("userEmail", email user)] = ∅).
    { apply map_eq. intros j. rewrite lookup_empty.
      destruct (selected _ _ !! j) as [r | ] eqn:Hj; [ | done].
      apply selected_lookup in Hj as [Hj Hm]. rewrite (Hnone j r Hj) in Hm. done. }
    apply findOne_None in Hsel. rewrite Hsel. reflexivity.
Qed.

(** ** Requests without an identity *)

Lemma authenticated_rejected (hdrs : gmap string string) st handler r tr :
  authenticateToken firebaseAdminInitialized verifyIdToken hdrs = (Rejected r, tr) ->
  authenticated firebaseAdminInitialized verifyIdToken hdrs st handler = (r, st, tr).
Proof. intros Hauth. unfold authenticated. by rewrite Hauth. Qed.

(** X14. A request that the middleware rejects is answered 401 by every
    protected route, and the route does nothing else: the state is the same
    and the guard is not even consulted. *)
Theorem protected_routes_reject net now (req : request) st r tr :
  authenticateToken firebaseAdminInitialized verifyIdToken (headers req) = (Rejected r, tr) ->
  status r = 401
  /\ route_createGroup firebaseAdminInitialized verifyIdToken net now req st = (r, st, tr)
  /\ route_updateGroup ObjectId_isValid ObjectId_new firebaseAdminInitialized verifyIdToken
       net now req st = (r, st, tr)
  /\ route_deleteGroup ObjectId_isValid ObjectId_new firebaseAdminInitialized verifyIdToken
       net req st = (r, st, tr)
  /\ route_joinGroup ObjectId_new firebaseAdminInitialized verifyIdToken net now req st
     = (r, st, tr)
  /\ route_leaveGroup firebaseAdminInitialized verifyIdToken net req st = (r, st, tr)
  /\ route_createArticle firebaseAdminInitialized verifyIdToken net now req st = (r, st, tr)
  /\ route_updateArticle ObjectId_isValid ObjectId_new firebaseAdminInitialized verifyIdToken
       net now req st = (r, st, tr)
  /\ route_deleteArticle ObjectId_isValid ObjectId_new firebaseAdminInitialized verifyIdToken
       net req st = (r, st, tr)
  /\ route_createComment ObjectId_isValid ObjectId_new firebaseAdminInitialized verifyIdToken
       net now req st = (r, st, tr)
  /\ route_deleteComment ObjectId_isValid ObjectId_new firebaseAdminInitialized verifyIdToken
       net req st = (r, st, tr)
  /\ EvPing ∉ tr.
Proof.
  intros Hauth. split; [by apply authenticateToken_rejected in Hauth |].
  repeat (split; [by apply authenticated_rejected |]).
  revert Hauth. unfold authenticateToken.
  repeat case_match; intros Heq; injection Heq as _ <-;
    rewrite ?elem_of_cons, elem_of_nil; intros Hin; by repeat destruct Hin as [Hin | Hin].
Qed.
End RouteProperties.

(** ** Creating, and owning what was created *)

Section LifecycleProperties.
Context {oid : Type} `{Countable oid} `{Infinite oid}.
Variable ObjectId_isValid : string -> bool.
Variable ObjectId_new : value -> option oid.

Implicit Types (st : state (oid := oid)) (col : gmap oid doc).

Ltac decide_names := apply (bool_decide_unpack _); vm_compute; exact I.

Lemma isCreator_by_field (d : doc) (k : string) (e u : value) (s : string) :
  k ∈ ["userEmail"; "creatorEmail"; "authorEmail"] ->
  d !! k = Some (VStr s) -> s <> EmptyString -> e = VStr s ->
  isCreator d e u = true.
Proof.
  intros Hk Hd Hs ->.
  assert (Hprobe : truthy (get d k) && strict_eq (get d k) (VStr s) = true).
  { unfold get. rewrite Hd. simpl. rewrite String.eqb_refl.
    apply String.eqb_neq in Hs. by rewrite Hs. }
  rewrite isCreator_probes.
  rewrite !elem_of_cons, elem_of_nil in Hk.
  destruct Hk as [-> | [-> | [-> | []]]]; rewrite Hprobe;
    rewrite ?orb_true_r; reflexivity.
Qed.

(** The stored form of the document that [POST /createGroup] inserts. *)
Lemma createGroup_created net now user body st :
  status (fst (fst (createGroup net now user body st))) = 201 ->
  exists group,
    inserted (groupCollection st)
      (groupCollection (snd (fst (createGroup net now user body st)))) group
    /\ group !! "userEmail" = Some (bson (email user))
    /\ group !! "userId" = Some (bson (uid user))
    /\ group !! "createdAt" = Some (VStr now)
    /\ (forall k, k ∉ ["userEmail"; "userId"; "creatorName"; "creatorImage"; "createdAt"] ->
                  group !! k = bson <$> body !! k).
Proof.
  unfold createGroup, with_db.
  destruct (checkDbConnection net (conn st)) as [[[r | ] cn] tr] eqn:Hck; cbn [fst snd].
  { rewrite (checkDbConnection_refusal _ _ _ _ _ Hck). done. }
  intros _. eexists. split; [cbn [groupCollection set_groups set_conn];
                             apply insertOne_inserted |].
  rewrite !get_bson_doc.
  split; [ | split; [ | split]].
  - rewrite lookup_insert_ne by done. rewrite !lookup_cond_insert by done.
    rewrite lookup_insert_ne by done. by rewrite lookup_insert_eq.
  - rewrite lookup_insert_ne by done. rewrite !lookup_cond_insert by done.
    by rewrite lookup_insert_eq.
  - by rewrite lookup_insert_eq.
  - intros k Hk. rewrite !not_elem_of_cons in Hk.
    destruct Hk as (? & ? & ? & ? & ? & _). rewrite get_bson_doc.
    rewrite lookup_insert_ne by done. rewrite !lookup_cond_insert by done.
    by rewrite !lookup_insert_ne by done.
Qed.

(** The stored form of the document that [POST /articles] inserts. *)
Lemma createArticle_created net now user body st :
  status (fst (fst (createArticle net now user body st))) = 201 ->
  exists article,
    inserted (articlesCollection st)
      (articlesCollection (snd (fst (createArticle net now user body st)))) article
    /\ article !! "authorEmail" = Some (bson (email user))
    /\ article !! "authorId" = Some (bson (uid user))
    /\ article !! "userEmail" = Some (bson (email user))
    /\ article !! "userId" = Some (bson (uid user))
    /\ (forall k, k ∉ ["authorEmail"; "authorId"; "userEmail"; "userId"; "authorName";
                       "coverImage"; "publishDate"; "createdAt"] ->
                  article !! k = bson <$> body !! k).
Proof.
  unfold createArticle, with_db.
  destruct (checkDbConnection net (conn st)) as [[[r | ] cn] tr] eqn:Hck; cbn [fst snd].
  { rewrite (checkDbConnection_refusal _ _ _ _ _ Hck). done. }
  cbv zeta. destruct (truthy (get body "title")); cbn [negb fst snd status]; [ | done].
  intros _. eexists. split; [cbn [articlesCollection set_articles set_conn];
                             apply insertOne_inserted |].
  rewrite !get_bson_doc. rewrite !lookup_cond_insert by done.
  split; [ | split; [ | split; [ | split]]].
  - rewrite !lookup_insert_ne by done. by rewrite lookup_insert_eq.
  - rewrite !lookup_insert_ne by done. by rewrite lookup_insert_eq.
  - rewrite !lookup_insert_ne by done. by rewrite lookup_insert_eq.
  - by rewrite lookup_insert_eq.
  - intros k Hk. rewrite !not_elem_of_cons in Hk.
    destruct Hk as (? & ? & ? & ? & ? & ? & ? & ? & _). rewrite get_bson_doc.
    rewrite !lookup_cond_insert by done.
    by rewrite !lookup_insert_ne by done.
Qed.

(** X15. Whoever creates a group, an article or a comment with an email in
    their identity passes the ownership check on what was stored. *)
Theorem creator_owns_created net now user id body st (e : string) :
  email user = VStr e -> e <> EmptyString ->
  (status (fst (fst (createGroup net now user body st))) = 201 ->
   exists group,
     inserted (groupCollection st)
       (groupCollection (snd (fst (createGroup net now user body st)))) group
     /\ isCreator group (email user) (uid user) = true)
  /\ (status (fst (fst (createArticle net now user body st))) = 201 ->
      exists article,
        inserted (articlesCollection st)
          (articlesCollection (snd (fst (createArticle net now user body st)))) article
        /\ isCreator article (email user) (uid user) = true)
  /\ (status (fst (fst (createComment ObjectId_isValid ObjectId_new net now user id body st)))
      = 201 ->
      exists comment,
        inserted (commentsCollection st)
          (commentsCollection
             (snd (fst (createComment ObjectId_isValid ObjectId_new net now user id body st))))
          comment
        /\ isCreator comment (email user) (uid user) = true).
Proof.
  intros He Hne. split; [ | split].
  - intros Hst. destruct (createGroup_created net now user body st Hst)
      as (group & Hins & Hue & _).
    exists group. split; [done |]. rewrite He in Hue.
    apply (isCreator_by_field group "userEmail" _ _ e); [decide_names | done | done | done].
  - intros Hst. destruct (createArticle_created net now user body st Hst)
      as (article & Hins & _ & _ & Hue & _).
    exists article. split; [done |]. rewrite He in Hue.
    apply (isCreator_by_field article "userEmail" _ _ e); [decide_names | done | done | done].
  - intros Hst.
    destruct (createComment_created ObjectId_isValid ObjectId_new net now user id body st Hst)
      as (comment & Hins & Hae & _).
    exists comment. split; [done |]. rewrite He in Hae.
    apply (isCreator_by_field comment "authorEmail" _ _ e); [decide_names | done | done | done].
Qed.

(** X16. Creation keeps the ownership names it does not stamp: an email sent as
    [creatorEmail] or [authorEmail] of a new group, or as [creatorEmail] of a
    new article, is stored, and its holder passes the ownership check on the
    new document. *)
Theorem creation_keeps_client_owner_fields net now user body st (k m : string) (u : value) :
  body !! k = Some (VStr m) -> m <> EmptyString ->
  (k ∈ ["creatorEmail"; "authorEmail"] ->
   status (fst (fst (createGroup net now user body st))) = 201 ->
   exists group,
     inserted (groupCollection st)
       (groupCollection (snd (fst (createGroup net now user body st)))) group
     /\ isCreator group (VStr m) u = true)
  /\ (k = "creatorEmail" ->
      status (fst (fst (createArticle net now user body st))) = 201 ->
      exists article,
        inserted (articlesCollection st)
          (articlesCollection (snd (fst (createArticle net now user body st)))) article
        /\ isCreator article (VStr m) u = true).
Proof.
  intros Hk Hm. split.
  - intros Hin Hst. destruct (createGroup_created net now user body st Hst)
      as (group & Hins & _ & _ & _ & Hrest).
    exists group. split; [done |].
    rewrite !elem_of_cons, elem_of_nil in Hin.
    assert (Hstored : group !! k = Some (VStr m)).
    { rewrite Hrest, Hk; [done |]. destruct Hin as [-> | [-> | []]]; decide_names. }
    apply (isCreator_by_field group k _ _ m); [ | done | done | done].
    destruct Hin as [-> | [-> | []]]; decide_names.
  - intros -> Hst. destruct (createArticle_created net now user body st Hst)
      as (article & Hins & _ & _ & _ & _ & Hrest).
    exists article. split; [done |].
    apply (isCreator_by_field article "creatorEmail" _ _ m);
      [decide_names | | done | done].
    rewrite Hrest, Hk; [done |]. decide_names.
Qed.

(** ** Updating *)

(** X17. A successful update with a plain body is a partial merge:
    [updatedAt] becomes the time of the request, a field that is not a
    stripped ownership name takes the value of the body when the body has
    one and keeps the stored value otherwise, and every other document
    stays. *)
Theorem update_merges_fields net now user id body st (o : oid) (d : doc) :
  plain_body body = true ->
  ObjectId_new (VStr id) = Some o ->
  (groupCollection st !! o = Some d ->
   status (fst (fst (updateGroup ObjectId_isValid ObjectId_new net now user id body st))) = 200 ->
   exists d',
     groupCollection
       (snd (fst (updateGroup ObjectId_isValid ObjectId_new net now user id body st))) !! o
     = Some d'
     /\ d' !! "updatedAt" = Some (VStr now)
     /\ (forall k, k ∉ ["userEmail"; "userId"; "creatorEmail"; "creatorId"; "updatedAt"] ->
                   d' !! k = match body !! k with
                             | Some v => Some (bson v)
                             | None => d !! k
                             end)
     /\ (forall o', o' <> o ->
           groupCollection
             (snd (fst (updateGroup ObjectId_isValid ObjectId_new net now user id body st)))
             !! o' = groupCollection st !! o'))
  /\ (articlesCollection st !! o = Some d ->
      status (fst (fst (updateArticle ObjectId_isValid ObjectId_new net now user id body st)))
      = 200 ->
      exists d',
        articlesCollection
          (snd (fst (updateArticle ObjectId_isValid ObjectId_new net now user id body st)))
          !! o = Some d'
        /\ d' !! "updatedAt" = Some (VStr now)
        /\ (forall k, k ∉ ["authorEmail"; "authorId"; "userEmail"; "userId"; "updatedAt"] ->
                      d' !! k = match body !! k with
                                | Some v => Some (bson v)
                                | None => d !! k
                                end)
        /\ (forall o', o' <> o ->
              articlesCollection
                (snd (fst (updateArticle ObjectId_isValid ObjectId_new net now user id body
                             st)))
                !! o' = articlesCollection st !! o')).
Proof.
  intros Hplain Hnew. apply plain_body_no_id in Hplain. split.
  - intros Hd. unfold updateGroup, with_db.
    destruct (checkDbConnection net (conn st)) as [[[r | ] cn] tr] eqn:Hck; cbn [fst snd].
    { rewrite (checkDbConnection_refusal _ _ _ _ _ Hck). done. }
    destruct (ObjectId_isValid id); cbn [negb fst snd status]; [ | done].
    rewrite Hnew, findOne_id_nil. cbn [groupCollection set_conn]. rewrite Hd.
    destruct (isCreator d (email user) (uid user)); cbn [negb fst snd status]; [ | done].
    rewrite (updateOne_set_found _ _ _ _ Hd).
    rewrite lookup_insert_ne by done. rewrite !lookup_delete_ne by done. rewrite Hplain.
    intros _. cbn [fst snd groupCollection set_groups].
    destruct (set_merge_fields body d now "creatorId" "creatorEmail" "userId" "userEmail")
      as [Hat Hfields].
    eexists. split; [apply lookup_insert_eq |]. split; [exact Hat |].
    split; [exact Hfields |]. intros o' Hne. by rewrite lookup_insert_ne.
  - intros Hd. unfold updateArticle, with_db.
    destruct (checkDbConnection net (conn st)) as [[[r | ] cn] tr] eqn:Hck; cbn [fst snd].
    { rewrite (checkDbConnection_refusal _ _ _ _ _ Hck). done. }
    destruct (ObjectId_isValid id); cbn [negb fst snd status]; [ | done].
    rewrite Hnew, findOne_id_nil. cbn [articlesCollection set_conn]. rewrite Hd.
    destruct (isCreator d (email user) (uid user)); cbn [negb fst snd status]; [ | done].
    rewrite (updateOne_set_found _ _ _ _ Hd).
    rewrite lookup_insert_ne by done. rewrite !lookup_delete_ne by done. rewrite Hplain.
    intros _. cbn [fst snd articlesCollection set_articles].
    destruct (set_merge_fields body d now "userId" "userEmail" "authorId" "authorEmail")
      as [Hat Hfields].
    eexists. split; [apply lookup_insert_eq |]. split; [exact Hat |].
    split; [exact Hfields |]. intros o' Hne. by rewrite lookup_insert_ne.
Qed.

(** ** Deleting *)

(** X18. A successful delete removes the addressed document and no other of
    its collection; of the join records of a group, or the comments of an
    article, those that the query of the cascade does not select stay, and
    the remaining collections are as they were. *)
Theorem delete_removes_only_its_target net user id commentId st (o c : oid) :
  ObjectId_new (VStr id) = Some o ->
  ObjectId_new (VStr commentId) = Some c ->
  (status (fst (fst (deleteGroup ObjectId_isValid ObjectId_new net user id st))) = 200 ->
   let st' := snd (fst (deleteGroup ObjectId_isValid ObjectId_new net user id st)) in
   groupCollection st' = delete o (groupCollection st)
   /\ (forall j r, joinedCollection st !! j = Some r ->
                   matches [("groupId", VStr id)] r = false ->
                   joinedCollection st' !! j = Some r)
   /\ usersCollection st' = usersCollection st
   /\ articlesCollection st' = articlesCollection st
   /\ commentsCollection st' = commentsCollection st)
  /\ (status (fst (fst (deleteArticle ObjectId_isValid ObjectId_new net user id st))) = 200 ->
      let st' := snd (fst (deleteArticle ObjectId_isValid ObjectId_new net user id st)) in
      articlesCollection st' = delete o (articlesCollection st)
      /\ (forall j r, commentsCollection st !! j = Some r ->
                      matches [("articleId", VStr id)] r = false ->
                      commentsCollection st' !! j = Some r)
      /\ groupCollection st' = groupCollection st
      /\ joinedCollection st' = joinedCollection st
      /\ usersCollection st' = usersCollection st)
  /\ (status (fst (fst (deleteComment ObjectId_isValid ObjectId_new net user id commentId st)))
      = 200 ->
      let st' :=
        snd (fst (deleteComment ObjectId_isValid ObjectId_new net user id commentId st)) in
      commentsCollection st' = delete c (commentsCollection st)
      /\ groupCollection st' = groupCollection st
      /\ joinedCollection st' = joinedCollection st
      /\ usersCollection st' = usersCollection st
      /\ articlesCollection st' = articlesCollection st).
Proof.
  intros Hnew Hnewc. split; [ | split].
  - unfold deleteGroup, with_db.
    destruct (checkDbConnection net (conn st)) as [[[r | ] cn] tr] eqn:Hck; cbn [fst snd].
    { rewrite (checkDbConnection_refusal _ _ _ _ _ Hck). done. }
    destruct (ObjectId_isValid id); cbn [negb fst snd status]; [ | done].
    rewrite Hnew, findOne_id_nil. cbn [groupCollection set_conn].
    destruct (groupCollection st !! o) as [group | ] eqn:Hgroup; cbn [fst snd status];
      [ | done].
    destruct (isCreator group (email user) (uid user)); cbn [negb fst snd status]; [ | done].
    rewrite (deleteOne_id_nil _ _ _ Hgroup). cbn [Z.eqb Pos.eqb fst snd status].
    intros _. cbn zeta. cbn [groupCollection joinedCollection usersCollection
                               articlesCollection commentsCollection set_joined set_groups
                               set_conn].
    split; [done |]. split; [ | done]. intros j r Hj Hm. by apply deleteMany_lookup.
  - unfold deleteArticle, with_db.
    destruct (checkDbConnection net (conn st)) as [[[r | ] cn] tr] eqn:Hck; cbn [fst snd].
    { rewrite (checkDbConnection_refusal _ _ _ _ _ Hck). done. }
    destruct (ObjectId_isValid id); cbn [negb fst snd status]; [ | done].
    rewrite Hnew, findOne_id_nil. cbn [articlesCollection set_conn].
    destruct (articlesCollection st !! o) as [article | ] eqn:Harticle; cbn [fst snd status];
      [ | done].
    destruct (isCreator article (email user) (uid user)); cbn [negb fst snd status];
      [ | done].
    rewrite (deleteOne_id_nil _ _ _ Harticle). cbn [Z.eqb Pos.eqb fst snd status].
    intros _. cbn zeta. cbn [groupCollection joinedCollection usersCollection
                               articlesCollection commentsCollection set_comments
                               set_articles set_conn].
    split; [done |]. split; [ | done]. intros j r Hj Hm. by apply deleteMany_lookup.
  - unfold deleteComment, with_db.
    destruct (checkDbConnection net (conn st)) as [[[r | ] cn] tr] eqn:Hck; cbn [fst snd].
    { rewrite (checkDbConnection_refusal _ _ _ _ _ Hck). done. }
    destruct (ObjectId_isValid id); cbn [negb fst snd status]; [ | done].
    destruct (ObjectId_isValid commentId); cbn [negb fst snd status]; [ | done].
    rewrite Hnewc, Hnew. cbn [commentsCollection articlesCollection set_conn].
    unfold deleteOne_id.
    destruct (findOne_id (commentsCollection st) c [("articleId", VStr id)])
      as [comment | ]; cbn [fst snd status]; [ | done].
    destruct (isCreator comment (email user) (uid user)); cbn [negb andb fst snd status].
    + intros _. by repeat split.
    + rewrite findOne_id_nil.
      destruct (articlesCollection st !! o) as [article | ]; cbn [fst snd status]; [ | done].
      destruct (isCreator article (email user) (uid user)); cbn [negb andb fst snd status];
        [ | done].
      intros _. by repeat split.
Qed.
End LifecycleProperties.

(** ** Saving users *)

Section UserProperties.
Context {oid : Type} `{Countable oid} `{Infinite oid}.

Implicit Types (st : state (oid := oid)) (col : gmap oid doc).

Lemma updateOne_set_insert col (o : oid) (upd d : doc) :
  col !! o = Some d ->
  alter (fun d => bson_doc upd ∪ d) o col = <[o := bson_doc upd ∪ d]> col.
Proof.
  intros Hd. apply map_eq. intros o'.
  destruct (decide (o' = o)) as [-> | Hne].
  - by rewrite lookup_alter_eq, lookup_insert_eq, Hd.
  - by rewrite lookup_alter_ne, lookup_insert_ne.
Qed.

(** An update that does not name [_id] is accepted. *)
Lemma updateOne_upsert_accepted col (query : list (string * value)) (upd : doc) :
  upd !! "_id" = None ->
  updateOne_upsert col query upd = Some (upserted col query upd).
Proof.
  intros Hid. unfold updateOne_upsert, upserted, updateOne_set.
  destruct (head (map_to_list (selected col query))) as [[o d] | ]; [ | reflexivity].
  rewrite Hid. by destruct (col !! o).
Qed.

Lemma selected_empty_iff col (query : list (string * value)) :
  selected col query = ∅
  <-> forall j r, col !! j = Some r -> matches query r = false.
Proof.
  split.
  - intros Hsel j r Hj. destruct (matches query r) eqn:Hm; [ | done].
    assert (Hin : selected col query !! j = Some r) by (by apply selected_lookup).
    rewrite Hsel, lookup_empty in Hin. done.
  - intros Hnone. apply map_eq. intros j. rewrite lookup_empty.
    destruct (selected col query !! j) as [r | ] eqn:Hj; [ | done].
    apply selected_lookup in Hj as [Hj Hm]. rewrite (Hnone j r Hj) in Hm. done.
Qed.

Lemma saveUser_run net updatedAt createdAt body st :
  lets_through net (conn st) ->
  truthy (get body "email") = true ->
  fst (fst (saveUser net updatedAt createdAt body st)) = Response 200 EmptyString
  /\ snd (fst (saveUser net updatedAt createdAt body st))
     = set_users (set_conn st (snd (fst (checkDbConnection net (conn st)))))
         (upserted (usersCollection st) [("email", get body "email")]
            (match findOne (usersCollection st) [("email", get body "email")] with
             | None => <["createdAt" := createdAt]> (user_fields updatedAt body)
             | Some _ => user_fields updatedAt body
             end)).
Proof.
  intros Hdb Hemail. unfold saveUser. rewrite with_db_through by done.
  cbv zeta. rewrite Hemail. cbn [negb fst snd usersCollection set_conn].
  fold (user_fields updatedAt body).
  rewrite updateOne_upsert_accepted; [done |].
  destruct (findOne _ _); unfold user_fields;
    rewrite !lookup_insert_ne by done; apply lookup_empty.
Qed.

(** X19. [POST /save-user] is an upsert keyed by the email.  Without a truthy
    email it answers 400 and stores nothing.  For an email that is a
    string: when no stored user has it, the route inserts one document,
    with [createdAt]; when a stored user has it, the route rewrites [name]
    and [updatedAt] of one such user and leaves its [createdAt] and the
    number of users as they were. *)
Theorem saveUser_upsert net updatedAt createdAt body st (e : string) :
  lets_through net (conn st) ->
  (truthy (get body "email") = false ->
   status (fst (fst (saveUser net updatedAt createdAt body st))) = 400
   /\ same_data st (snd (fst (saveUser net updatedAt createdAt body st))))
  /\ (get body "email" = VStr e -> truthy (get body "email") = true ->
      (forall j r, usersCollection st !! j = Some r ->
                   field_matches (get body "email") (r !! "email") = false) ->
      status (fst (fst (saveUser net updatedAt createdAt body st))) = 200
      /\ exists d,
           inserted (usersCollection st)
             (usersCollection (snd (fst (saveUser net updatedAt createdAt body st)))) d
           /\ d !! "email" = Some (bson (get body "email"))
           /\ d !! "name" = Some (bson (js_or (get body "name") (VStr "No Name")))
           /\ d !! "createdAt" = Some (bson createdAt)
           /\ d !! "updatedAt" = Some (bson updatedAt)
           /\ size (usersCollection (snd (fst (saveUser net updatedAt createdAt body st))))
              = S (size (usersCollection st)))
  /\ (get body "email" = VStr e -> truthy (get body "email") = true ->
      (exists j r, usersCollection st !! j = Some r
                   /\ field_matches (get body "email") (r !! "email") = true) ->
      status (fst (fst (saveUser net updatedAt createdAt body st))) = 200
      /\ exists j d d',
           usersCollection st !! j = Some d
           /\ field_matches (get body "email") (d !! "email") = true
           /\ usersCollection (snd (fst (saveUser net updatedAt createdAt body st)))
              = <[j := d']> (usersCollection st)
           /\ d' !! "createdAt" = d !! "createdAt"
           /\ d' !! "name" = Some (bson (js_or (get body "name") (VStr "No Name")))
           /\ d' !! "updatedAt" = Some (bson updatedAt)
           /\ size (usersCollection (snd (fst (saveUser net updatedAt createdAt body st))))
              = size (usersCollection st)).
Proof.
  intros Hdb. split; [ | split].
  - intros Hemail. unfold saveUser. rewrite with_db_through by done.
    cbv zeta. rewrite Hemail. cbn [negb fst snd status]. split; [done | by repeat split].
  - intros _ Hemail Hnone.
    destruct (saveUser_run net updatedAt createdAt body st Hdb Hemail) as [-> ->].
    split; [reflexivity |]. cbn [usersCollection set_users].
    assert (Hsel : selected (usersCollection st) [("email", get body "email")] = ∅).
    { apply selected_empty_iff. intros j r Hj. unfold matches. cbn [forallb fst snd].
      by rewrite (Hnone j r Hj). }
    pose proof Hsel as Hfind. apply findOne_None in Hfind. rewrite Hfind.
    unfold upserted. rewrite Hsel, map_to_list_empty. cbn [head].
    eexists. split; [apply insertOne_inserted |].
    rewrite !get_bson_doc. unfold user_fields.
    repeat (split; [erewrite lookup_union_Some_l; [reflexivity | by simplify_map_eq] |]).
    unfold insertOne. apply map_size_insert_None, not_elem_of_dom, is_fresh.
  - intros _ Hemail (j0 & r0 & Hj0 & Hm0).
    destruct (saveUser_run net updatedAt createdAt body st Hdb Hemail) as [-> ->].
    split; [reflexivity |]. cbn [usersCollection set_users].
    pose proof (deleteOne_selected (usersCollection st) [("email", get body "email")])
      as Hhead.
    rewrite findOne_selected. unfold upserted.
    destruct (head (map_to_list (selected (usersCollection st) _))) as [[j d] | ] eqn:Hh.
    + destruct Hhead as (_ & Hj & Hm). cbn [fmap option_fmap option_map].
      exists j, d, (bson_doc (user_fields updatedAt body) ∪ d).
      unfold matches in Hm. cbn [forallb fst snd] in Hm. rewrite andb_true_r in Hm.
      split; [done |]. split; [done |].
      split; [by apply updateOne_set_insert |].
      unfold user_fields.
      split; [apply lookup_union_r; rewrite get_bson_doc; by simplify_map_eq |].
      split; [apply lookup_union_Some_l; rewrite get_bson_doc; by simplify_map_eq |].
      split; [apply lookup_union_Some_l; rewrite get_bson_doc; by simplify_map_eq |].
      rewrite (updateOne_set_insert _ _ _ _ Hj). by apply map_size_insert_Some.
    + exfalso. apply head_map_to_list in Hh.
      assert (Hin : selected (usersCollection st) [("email", get body "email")] !! j0
                    = Some r0).
      { apply selected_lookup. split; [done |]. unfold matches. cbn [forallb fst snd].
        by rewrite Hm0. }
      rewrite Hh, lookup_empty in Hin. done.
Qed.

(** X20. Saving the same email, a string, twice makes one user: the second
    request finds the document that the first inserted, keeps its
    [createdAt] and replaces its [updatedAt], and the number of users
    grows by one in all. *)
Theorem saveUser_twice net1 net2 updatedAt1 createdAt1 updatedAt2 createdAt2 body1 body2 st
    (e : string) :
  get body1 "email" = VStr e ->
  lets_through net1 (conn st) ->
  lets_through net2 (conn (snd (fst (saveUser net1 updatedAt1 createdAt1 body1 st)))) ->
  truthy (get body1 "email") = true ->
  get body2 "email" = get body1 "email" ->
  (forall j r, usersCollection st !! j = Some r ->
               field_matches (get body1 "email") (r !! "email") = false) ->
  let st1 := snd (fst (saveUser net1 updatedAt1 createdAt1 body1 st)) in
  let st2 := snd (fst (saveUser net2 updatedAt2 createdAt2 body2 st1)) in
  exists j d,
    usersCollection st !! j = None
    /\ usersCollection st2 = <[j := d]> (usersCollection st)
    /\ d !! "createdAt" = Some (bson createdAt1)
    /\ d !! "updatedAt" = Some (bson updatedAt2)
    /\ d !! "name" = Some (bson (js_or (get body2 "name") (VStr "No Name")))
    /\ size (usersCollection st2) = S (size (usersCollection st)).
Proof.
  intros _.
  intros Hdb1 Hdb2 Hemail Hsame Hnone st1 st2.
  assert (Hemail2 : truthy (get body2 "email") = true) by (by rewrite Hsame).
  assert (Hsel : selected (usersCollection st) [("email", get body1 "email")] = ∅).
  { apply selected_empty_iff. intros j r Hj. unfold matches. cbn [forallb fst snd].
    by rewrite (Hnone j r Hj). }
  set (d1 := <["createdAt" := createdAt1]> (user_fields updatedAt1 body1)
             ∪ list_to_map [("email", get body1 "email")]).
  assert (HU1 : usersCollection st1 = insertOne (usersCollection st) d1).
  { unfold st1.
    destruct (saveUser_run net1 updatedAt1 createdAt1 body1 st Hdb1 Hemail) as [_ ->].
    cbn [usersCollection set_users]. pose proof Hsel as Hfind.
    apply findOne_None in Hfind. rewrite Hfind.
    unfold upserted. by rewrite Hsel, map_to_list_empty. }
  assert (Hsel1 : selected (usersCollection st1) [("email", get body2 "email")]
                  = {[ fresh (dom (usersCollection st)) := bson_doc d1 ]}).
  { rewrite HU1, Hsame. apply selected_insertOne; [done |].
    unfold matches. cbn [forallb fst snd].
    rewrite get_bson_doc. unfold d1, user_fields.
    erewrite lookup_union_Some_l; [ | by simplify_map_eq].
    cbn [fmap option_fmap option_map]. by rewrite field_matches_stored. }
  assert (HU2 : usersCollection st2
                = <[fresh (dom (usersCollection st))
                    := bson_doc (user_fields updatedAt2 body2) ∪ bson_doc d1]>
                    (usersCollection st)).
  { unfold st2.
    destruct (saveUser_run net2 updatedAt2 createdAt2 body2 st1 Hdb2 Hemail2) as [_ ->].
    cbn [usersCollection set_users].
    rewrite findOne_selected. unfold upserted.
    rewrite Hsel1, map_to_list_singleton. cbn [head fmap option_fmap option_map].
    rewrite HU1. unfold insertOne.
    rewrite (updateOne_set_insert _ _ _ (bson_doc d1)) by apply lookup_insert_eq.
    apply insert_insert_eq. }
  assert (Hfresh : usersCollection st !! fresh (dom (usersCollection st)) = None)
    by apply not_elem_of_dom, is_fresh.
  exists (fresh (dom (usersCollection st))),
    (bson_doc (user_fields updatedAt2 body2) ∪ bson_doc d1).
  split; [done |]. split; [exact HU2 |]. split.
  { rewrite lookup_union_r
      by (rewrite get_bson_doc; unfold user_fields; by simplify_map_eq).
    rewrite get_bson_doc. unfold d1, user_fields.
    erewrite lookup_union_Some_l; [reflexivity | by simplify_map_eq]. }
  split; [apply lookup_union_Some_l; rewrite get_bson_doc; unfold user_fields;
          by simplify_map_eq |].
  split; [apply lookup_union_Some_l; rewrite get_bson_doc; unfold user_fields;
          by simplify_map_eq |].
  rewrite HU2. by apply map_size_insert_None.
Qed.

(** ** Reading *)

(** X21. [GET /user-joined-groups] never changes a collection; when it answers
    200 it returns the stored join records that the identity's email
    selects, and no other document. *)
Theorem userJoinedGroups_own_records net user st :
  same_data st (snd (fst (userJoinedGroups net user st)))
  /\ (status (fst (fst (fst (userJoinedGroups net user st)))) = 200 ->
      truthy (email user) = true
      /\ forall d, d ∈ snd (fst (fst (userJoinedGroups net user st)))
                   <-> exists j, joinedCollection st !! j = Some d
                                 /\ field_matches (email user) (d !! "userEmail") = true).
Proof.
  unfold userJoinedGroups, with_db_query.
  destruct (checkDbConnection net (conn st)) as [[[r | ] cn] tr] eqn:Hck; cbn [fst snd].
  { split; [by repeat split |]. rewrite (checkDbConnection_refusal _ _ _ _ _ Hck). done. }
  destruct (truthy (email user)); cbn [negb fst snd status];
    (split; [by repeat split |]); [ | done].
  intros _. split; [done |]. intros d. unfold find_toArray.
  cbn [joinedCollection set_conn]. rewrite list_elem_of_fmap. split.
  - intros ([j d'] & -> & Hin). apply elem_of_map_to_list, selected_lookup in Hin.
    destruct Hin as [Hj Hm]. exists j. split; [done |].
    unfold matches in Hm. cbn [forallb fst snd] in Hm. by rewrite andb_true_r in Hm.
  - intros (j & Hj & Hm). exists (j, d). split; [done |].
    apply elem_of_map_to_list, selected_lookup. split; [done |].
    unfold matches. cbn [forallb fst snd]. by rewrite Hm.
Qed.

(** X22. [GET /groups] returns every stored group when the query string has no
    truthy [userEmail], and otherwise the groups that this email selects;
    it changes no collection. *)
Theorem getGroups_filter net (userEmail : value) st :
  same_data st (snd (fst (getGroups net userEmail st)))
  /\ (lets_through net (conn st) ->
      status (fst (fst (fst (getGroups net userEmail st)))) = 200
      /\ forall d, d ∈ snd (fst (fst (getGroups net userEmail st)))
                   <-> exists j, groupCollection st !! j = Some d
                                 /\ (truthy userEmail = true ->
                                     field_matches userEmail (d !! "userEmail") = true)).
Proof.
  unfold getGroups, with_db_query, lets_through.
  destruct (checkDbConnection net (conn st)) as [[[r | ] cn] tr] eqn:Hck; cbn [fst snd].
  { split; [by repeat split | done]. }
  split; [by repeat split |]. intros _. split; [done |]. intros d. unfold find_toArray.
  cbn [groupCollection set_conn]. rewrite list_elem_of_fmap. split.
  - intros ([j d'] & -> & Hin). apply elem_of_map_to_list, selected_lookup in Hin.
    destruct Hin as [Hj Hm]. exists j. split; [done |]. intros Ht. rewrite Ht in Hm.
    unfold matches in Hm. cbn [forallb fst snd] in Hm. by rewrite andb_true_r in Hm.
  - intros (j & Hj & Hm). exists (j, d). split; [done |].
    apply elem_of_map_to_list, selected_lookup. split; [done |].
    destruct (truthy userEmail); [ | reflexivity].
    unfold matches. cbn [forallb fst snd]. by rewrite Hm.
Qed.
End UserProperties.

(** ** Counts of the dashboard *)

Section DashboardTotals.
Variable localeCompare : string -> string -> Z.

Lemma sum_counts_app (l r : list Z) : sum_counts (l ++ r) = sum_counts l + sum_counts r.
Proof. induction l as [ | x l IH]; simpl; [reflexivity |]. rewrite IH. lia. Qed.

Lemma sum_counts_perm (l r : list Z) : l ≡ₚ r -> sum_counts l = sum_counts r.
Proof. induction 1; simpl; lia. Qed.

(** The second loop adds rows without users. *)
Lemma users_after_groups (groupsPerDay : list (string * Z)) (acc : list stat) :
  sum_counts (users <$> fold_left push_group_day groupsPerDay acc) = sum_counts (users <$> acc).
Proof.
  revert acc. induction groupsPerDay as [ | gd gs IH]; intros acc; [reflexivity |].
  cbn [fold_left]. rewrite IH. unfold push_group_day.
  destruct (List.find _ acc); [reflexivity |].
  rewrite fmap_app, sum_counts_app. simpl. lia.
Qed.

(** The count that a series gives for a date. *)
Lemma count_weight (d : string) (D : list string) (series : list (string * Z)) :
  NoDup (days series) -> d ∉ D ->
  sum_counts ((fun gd => if bool_decide (fst gd ∈ d :: D) then snd gd else 0) <$> series)
  = match List.find (fun g => (fst g =? d)%string) series with
    | Some g => snd g
    | None => 0
    end
    + sum_counts ((fun gd => if bool_decide (fst gd ∈ D) then snd gd else 0) <$> series).
Proof.
  intros Hnd HD. induction series as [ | [d0 n0] series IH]; [reflexivity |].
  unfold days in Hnd. rewrite fmap_cons in Hnd. apply NoDup_cons in Hnd as [Hnotin Hnd].
  rewrite !fmap_cons. cbn [sum_counts foldr List.find fst snd].   change (foldr Z.add 0) with sum_counts. rewrite (IH Hnd).
  destruct (String.eqb_spec d0 d) as [-> | Hne].
  - rewrite (find_day_notin d series Hnotin).
    rewrite bool_decide_eq_true_2 by (apply elem_of_cons; by left).
    rewrite bool_decide_eq_false_2 by done. cbn [fst snd]. lia.
  - cbn [fst snd]. destruct (decide (d0 ∈ D)) as [Hin | Hout].
    + rewrite !bool_decide_eq_true_2; [lia | done | apply elem_of_cons; by right].
    + rewrite !bool_decide_eq_false_2; [lia | done |].
      rewrite elem_of_cons. intros [? | ?]; done.
Qed.

Lemma groups_of_user_rows (usersPerDay groupsPerDay : list (string * Z)) :
  NoDup (days usersPerDay) -> NoDup (days groupsPerDay) ->
  sum_counts (groups <$> (user_row groupsPerDay <$> usersPerDay))
  = sum_counts ((fun gd => if bool_decide (fst gd ∈ days usersPerDay) then snd gd else 0)
             <$> groupsPerDay).
Proof.
  intros Hu Hg. induction usersPerDay as [ | [d n] us IH].
  - change (sum_counts (groups <$> (user_row groupsPerDay <$> []))) with 0.
    change (days []) with (@nil string). clear.
    induction groupsPerDay as [ | gd gs IHg]; [reflexivity |].
    rewrite fmap_cons. cbn [sum_counts foldr]. change (foldr Z.add 0) with sum_counts.
    rewrite <- IHg. rewrite bool_decide_eq_false_2 by apply not_elem_of_nil.
    reflexivity.
  - unfold days in Hu. rewrite fmap_cons in Hu. apply NoDup_cons in Hu as [Hnotin Hu].
    rewrite !fmap_cons. cbn [sum_counts foldr]. change (foldr Z.add 0) with sum_counts.
    rewrite (IH Hu). change (days ((d, n) :: us)) with (d :: days us).
    cbn [user_row groups fst snd].
    rewrite (count_weight d (days us) groupsPerDay Hg Hnotin). reflexivity.
Qed.

Lemma groups_after_groups (groupsPerDay : list (string * Z)) (acc : list stat) :
  NoDup (days groupsPerDay) ->
  sum_counts (groups <$> fold_left push_group_day groupsPerDay acc)
  = sum_counts (groups <$> acc)
    + sum_counts ((fun gd => if bool_decide (fst gd ∈ dates acc) then 0 else snd gd)
               <$> groupsPerDay).
Proof.
  revert acc. induction groupsPerDay as [ | [d n] gs IH]; intros acc Hnd.
  { simpl. lia. }
  unfold days in Hnd. rewrite fmap_cons in Hnd. apply NoDup_cons in Hnd as [Hnotin Hnd].
  cbn [fold_left]. rewrite (IH _ Hnd). rewrite fmap_cons. cbn [sum_counts foldr fst snd].
  change (foldr Z.add 0) with sum_counts.
  unfold push_group_day. cbn [fst snd].
  destruct (List.find (fun s => (date s =? d)%string) acc) as [s0 | ] eqn:Hfind.
  - assert (Hd : d ∈ dates acc).
    { destruct (decide (d ∈ dates acc)) as [? | Hn]; [done |].
      apply find_date_None in Hn. congruence. }
    rewrite bool_decide_eq_true_2 by done. lia.
  - apply find_date_None in Hfind. rewrite bool_decide_eq_false_2 by done.
    rewrite fmap_app, sum_counts_app. cbn [fmap list_fmap sum_counts foldr groups].
    assert (Hsame : (fun gd : string * Z =>
                       if bool_decide (fst gd ∈ dates (acc ++ [Stat d 0 n])) then 0
                       else snd gd) <$> gs
                    = (fun gd => if bool_decide (fst gd ∈ dates acc) then 0 else snd gd)
                        <$> gs).
    { apply list_fmap_ext. intros i [d' n'] Hi. cbn [fst snd].
      assert (Hne : d' <> d).
      { intros ->. apply Hnotin. unfold days.
        apply (list_elem_of_fmap_2 fst gs (d, n')).
        by apply list_elem_of_lookup_2 in Hi. }
      unfold dates. rewrite fmap_app.
      destruct (decide (d' ∈ date <$> acc)) as [Hin | Hout].
      - rewrite !bool_decide_eq_true_2; [reflexivity | done |].
        apply elem_of_app. by left.
      - rewrite !bool_decide_eq_false_2; [reflexivity | done |].
        change (date <$> [Stat d 0 n]) with [d].
        rewrite elem_of_app, list_elem_of_singleton. intros [? | ?]; done. }
    rewrite Hsame. lia.
Qed.

(** X23. The merged timeline loses no count and counts nothing twice: the
    [users] column adds up to the users series, and, for series with
    pairwise different dates, the [groups] column to the groups series. *)
Theorem dashboard_preserves_totals (usersPerDay groupsPerDay : list (string * Z)) :
  sum_counts (users <$> dashboard_stats localeCompare usersPerDay groupsPerDay)
  = sum_counts (snd <$> usersPerDay)
  /\ (NoDup (days usersPerDay) -> NoDup (days groupsPerDay) ->
      sum_counts (groups <$> dashboard_stats localeCompare usersPerDay groupsPerDay)
      = sum_counts (snd <$> groupsPerDay)).
Proof.
  unfold dashboard_stats, merge_days.
  rewrite (fold_push_user_day groupsPerDay usersPerDay []). cbn [app]. split.
  - rewrite (sum_counts_perm _ _ (fmap_Permutation users _ _ (sort_stats_perm _ _))).
    rewrite users_after_groups, <- list_fmap_compose. reflexivity.
  - intros Hu Hg.
    rewrite (sum_counts_perm _ _ (fmap_Permutation groups _ _ (sort_stats_perm _ _))).
    rewrite (groups_after_groups _ _ Hg), (groups_of_user_rows _ _ Hu Hg).
    assert (Hdates : dates (user_row groupsPerDay <$> usersPerDay) = days usersPerDay).
    { unfold dates, days. rewrite <- list_fmap_compose. reflexivity. }
    rewrite Hdates. clear.
    induction groupsPerDay as [ | [d n] gs IH]; [reflexivity |].
    rewrite !fmap_cons. cbn [sum_counts foldr fst snd]. change (foldr Z.add 0) with sum_counts.
    destruct (bool_decide (d ∈ days usersPerDay)); lia.
Qed.
End DashboardTotals.

Lemma dashboard_preserves_totals_witness :
  let usersPerDay := [("2025-01-01", 2); ("2025-01-03", 1)] in
  let groupsPerDay := [("2025-01-02", 4); ("2025-01-03", 5)] in
  sum_counts (groups <$> dashboard_stats code_unit_compare usersPerDay groupsPerDay) = 9
  /\ sum_counts (users <$> dashboard_stats code_unit_compare usersPerDay groupsPerDay) = 3.
Proof.
  intros usersPerDay groupsPerDay.
  destruct (dashboard_preserves_totals code_unit_compare usersPerDay groupsPerDay)
    as [Husers Hgroups].
  split; [ | rewrite Husers; reflexivity].
  rewrite Hgroups; [reflexivity | | ]; apply (bool_decide_unpack _); vm_compute; exact I.
Defined.

(** ** The earlier server *)

Section LegacyProperties.
Context {oid : Type} `{Countable oid} `{Infinite oid}.
Variable ObjectId_isValid : string -> bool.
Variable ObjectId_new : value -> option oid.
Variable verifyIdToken : string -> option decodedToken.

Implicit Types st : state (oid := oid).

Lemma prefix_nonempty (p h : string) :
  p <> EmptyString -> String.prefix p h = true -> truthy (VStr h) = true.
Proof.
  intros Hp Hpre. destruct h as [ | a h]; [ | reflexivity].
  apply prefix_correct in Hpre. destruct p; [done | discriminate].
Qed.

(** X24. The earlier [authenticateToken] tries the bearer token first. A
    token that verifies decides the identity whatever the [x-user-*]
    headers say, a request without a bearer token is answered 401 without
    any verification, and no request is let through without a call of
    [verifyIdToken]. *)
Theorem legacy_token_before_headers (headers : gmap string string) :
  (forall t d,
     bearer_token (headers !! "authorization") = VStr t ->
     verifyIdToken t = Some d ->
     Legacy.authenticateToken verifyIdToken headers
     = (Next (identity_of_token d), [EvVerifyIdToken t]))
  /\ (bearer_token (headers !! "authorization") = VNull ->
      Legacy.authenticateToken verifyIdToken headers
      = (Rejected (Response 401 "Unauthorized: No token provided"), []))
  /\ (forall user tr,
        Legacy.authenticateToken verifyIdToken headers = (Next user, tr) ->
        exists t, bearer_token (headers !! "authorization") = VStr t
                  /\ tr = [EvVerifyIdToken t]).
Proof.
  unfold Legacy.authenticateToken, bearer_token.
  destruct (headers !! "authorization") as [h | ].
  2: { repeat apply conj; [by intros t d [=] | reflexivity | by intros user tr [=]]. }
  destruct (String.prefix "Bearer " h) eqn:Hpre.
  - rewrite (prefix_nonempty "Bearer " h) by done. cbn [negb orb].
    repeat apply conj.
    + intros t d [= <-] ->. reflexivity.
    + intros [=].
    + intros user tr Hnext. eexists. split; [reflexivity |].
      destruct (verifyIdToken _); [by injection Hnext |].
      destruct (truthy _ && truthy _); [by injection Hnext | discriminate].
  - rewrite orb_true_r. repeat apply conj; [by intros t d [=] | reflexivity |].
    by intros user tr [=].
Qed.

(** What the public [POST /articles/:id/comments] of the earlier server
    stores when it answers 201. *)
Lemma legacy_createComment_created now id body st :
  status (fst (Legacy.createComment ObjectId_isValid ObjectId_new now id body st)) = 201 ->
  exists comment,
    inserted (commentsCollection st)
      (commentsCollection
         (snd (Legacy.createComment ObjectId_isValid ObjectId_new now id body st)))
      comment
    /\ comment !! "authorEmail"
       = Some (bson (js_or (get body "authorEmail") (VStr EmptyString)))
    /\ (forall k, k ∈ ["userEmail"; "creatorEmail"; "userId"; "creatorId"; "authorId"] ->
                  comment !! k = None).
Proof.
  unfold Legacy.createComment.
  destruct (negb (ObjectId_isValid id)); [by intros [=] |].
  destruct (ObjectId_new (VStr id)) as [o | ]; [ | by intros [=]].
  destruct (findOne_id _ o []) as [article | ]; [ | by intros [=]].
  cbv zeta.
  destruct (negb (truthy (get body "text")) && negb (truthy (get body "comment")));
    [by intros [=] |].
  intros _. cbn [fst snd set_comments commentsCollection].
  eexists. split; [apply insertOne_inserted |]. split.
  - rewrite get_bson_doc. rewrite !lookup_insert_ne by done.
    by rewrite lookup_insert_eq.
  - intros k Hk. rewrite get_bson_doc.
    rewrite !elem_of_cons, elem_of_nil in Hk.
    destruct Hk as [-> | [-> | [-> | [-> | [-> | []]]]]];
      rewrite !lookup_insert_ne by done; by rewrite lookup_empty.
Qed.

(** X25. A comment created through the earlier, unauthenticated route is
    owned by whoever its body names: the only ownership field it carries
    is the [authorEmail] of the body, so [isCreator] accepts exactly the
    callers whose email is that value. *)
Theorem legacy_comment_owner_is_claimed now id body st :
  status (fst (Legacy.createComment ObjectId_isValid ObjectId_new now id body st)) = 201 ->
  exists comment,
    inserted (commentsCollection st)
      (commentsCollection
         (snd (Legacy.createComment ObjectId_isValid ObjectId_new now id body st)))
      comment
    /\ get comment "authorEmail" = bson (js_or (get body "authorEmail") (VStr EmptyString))
    /\ (forall userEmail userUid,
          isCreator comment userEmail userUid
          = truthy (get comment "authorEmail")
            && strict_eq (get comment "authorEmail") userEmail).
Proof.
  intros Hstatus.
  destruct (legacy_createComment_created now id body st Hstatus)
    as (comment & Hins & Hauthor & Hothers).
  exists comment. split; [exact Hins |]. split.
  - unfold get. by rewrite Hauthor.
  - intros userEmail userUid. rewrite isCreator_probes.
    assert (Hundef : forall k,
               k ∈ ["userEmail"; "creatorEmail"; "userId"; "creatorId"; "authorId"] ->
               truthy (get comment k) = false).
    { intros k Hk. unfold get. by rewrite (Hothers k Hk). }
    rewrite (Hundef "userEmail"), (Hundef "creatorEmail"), (Hundef "userId"),
      (Hundef "creatorId"), (Hundef "authorId")
      by (apply (bool_decide_unpack _); vm_compute; exact I).
    cbn [andb orb]. by rewrite ?orb_false_r.
Qed.

(** X26. The purge at the start of the earlier server removes the groups
    whose [formattedDate] is a string before [now] and no others of the
    dated ones, keeps every group without that field, and deletes nothing
    from the other collections, so the join records of a removed group
    stay. *)
Theorem legacy_purge_does_not_cascade now st :
  (forall o g s,
     groupCollection st !! o = Some g -> g !! "formattedDate" = Some (VStr s) ->
     (groupCollection (Legacy.deletePastEvents now st) !! o = None
      <-> String.ltb s now = true))
  /\ (forall o g,
        groupCollection st !! o = Some g -> g !! "formattedDate" = None ->
        groupCollection (Legacy.deletePastEvents now st) !! o = Some g)
  /\ joinedCollection (Legacy.deletePastEvents now st) = joinedCollection st
  /\ usersCollection (Legacy.deletePastEvents now st) = usersCollection st
  /\ articlesCollection (Legacy.deletePastEvents now st) = articlesCollection st
  /\ commentsCollection (Legacy.deletePastEvents now st) = commentsCollection st.
Proof.
  unfold Legacy.deletePastEvents. cbn [set_groups groupCollection joinedCollection
    usersCollection articlesCollection commentsCollection].
  repeat apply conj; try reflexivity.
  - intros o g s Hg Hdate. rewrite map_lookup_filter_None. split.
    + intros [Hnone | Hall]; [congruence |].
      specialize (Hall g Hg). cbn [snd] in Hall. rewrite Hdate in Hall.
      cbn [Legacy.before_now] in Hall. by destruct (String.ltb s now).
    + intros Hlt. right. intros g' Hg'. cbn [snd].
      assert (g' = g) as -> by congruence.
      rewrite Hdate. cbn [Legacy.before_now]. by rewrite Hlt.
  - intros o g Hg Hdate. apply map_lookup_filter_Some. split; [exact Hg |].
    cbn [snd]. by rewrite Hdate.
Qed.
End LegacyProperties.

Lemma legacy_token_before_headers_witness :
  Legacy.authenticateToken sample_verify alice_headers
  = (Next {| uid := VStr "uid-token"; email := VStr "token@example.com";
             name := VStr "token" |},
     [EvVerifyIdToken "token-1"]).
Proof.
  destruct (legacy_token_before_headers sample_verify alice_headers) as [Htoken _].
  apply (Htoken "token-1"
           {| d_uid := "uid-token"; d_email := Some "token@example.com"; d_name := None |});
    vm_compute; reflexivity.
Defined.

Lemma legacy_comment_owner_is_claimed_witness :
  exists comment,
    inserted (commentsCollection sample_state)
      (commentsCollection
         (snd (Legacy.createComment hex24_isValid hex24_new sample_now article_id
                 claimed_comment sample_state)))
      comment
    /\ get comment "authorEmail" = VStr "alice@example.com"
    /\ (forall userEmail userUid,
          isCreator comment userEmail userUid
          = truthy (get comment "authorEmail")
            && strict_eq (get comment "authorEmail") userEmail).
Proof.
  apply (legacy_comment_owner_is_claimed (oid := N) hex24_isValid hex24_new
           sample_now article_id claimed_comment sample_state).
  vm_compute. reflexivity.
Defined.

Lemma legacy_purge_does_not_cascade_witness :
  groupCollection (Legacy.deletePastEvents sample_now meetup_state) !! 162%N = None
  /\ groupCollection (Legacy.deletePastEvents sample_now meetup_state) !! 161%N
     = Some run_club
  /\ joinedCollection (Legacy.deletePastEvents sample_now meetup_state)
     = joinedCollection meetup_state.
Proof.
  destruct (legacy_purge_does_not_cascade (oid := N) sample_now meetup_state)
    as (Hdated & Hundated & Hjoined & _).
  split; [ | split; [ | exact Hjoined]].
  - apply (Hdated 162%N past_meetup "2024-12-24T09:00:00.000Z"); vm_compute; reflexivity.
  - apply (Hundated 161%N run_club); vm_compute; reflexivity.
Defined.

(** ** The properties of the routes on the sample data *)

Lemma refused_requests_change_nothing_witness :
  same_data sample_state
    (snd (fst (deleteGroup hex24_isValid hex24_new sample_net mallory group_id sample_state))).
Proof.
  destruct (refused_requests_change_nothing (oid := N) hex24_isValid hex24_new sample_net
              sample_now mallory group_id comment_id ∅ sample_state VNull VNull)
    as (_ & _ & Hdelete & _).
  apply Hdelete. vm_compute. reflexivity.
Defined.

Lemma join_then_leave_witness :
  status (fst (fst (leaveGroup sample_net mallory join_body
                      (snd (fst (joinGroup hex24_new sample_net sample_now mallory join_body
                                   sample_state)))))) = 200
  /\ same_data sample_state
       (snd (fst (leaveGroup sample_net mallory join_body
                    (snd (fst (joinGroup hex24_new sample_net sample_now mallory join_body
                                 sample_state)))))).
Proof.
  apply (join_then_leave (oid := N) hex24_new sample_net sample_net sample_now mallory
           join_body sample_state "mallory@example.com"); vm_compute; reflexivity.
Defined.

Lemma leave_without_email_is_forbidden_witness :
  status (fst (fst (leaveGroup sample_net anonymous join_body
                      (snd (fst (joinGroup hex24_new sample_net sample_now anonymous
                                   join_body sample_state)))))) = 403
  /\ same_data
       (snd (fst (joinGroup hex24_new sample_net sample_now anonymous join_body
                    sample_state)))
       (snd (fst (leaveGroup sample_net anonymous join_body
                    (snd (fst (joinGroup hex24_new sample_net sample_now anonymous
                                 join_body sample_state)))))).
Proof.
  apply (leave_without_email_is_forbidden (oid := N) hex24_new sample_net sample_net
           sample_now anonymous join_body sample_state); vm_compute; reflexivity.
Defined.

Lemma join_keeps_records_unique_witness :
  unique_on ["groupId"; "userEmail"]
    (joinedCollection
       (snd (fst (joinGroup hex24_new sample_net sample_now mallory join_body
                    sample_state)))).
Proof.
  apply (join_keeps_records_unique (oid := N) hex24_new sample_net sample_now mallory
           join_body sample_state).
  intros j1 j2 r1 r2 H1 H2 _.
  unfold sample_state in H1, H2. cbn [joinedCollection] in H1, H2.
  apply lookup_singleton_Some in H1 as [<- _].
  apply lookup_singleton_Some in H2 as [<- _]. reflexivity.
Defined.

Lemma leave_removes_one_own_record_witness :
  (exists j r,
     joinedCollection sample_state !! j = Some r
     /\ strict_eq (get r "userEmail") (email alice) = true
     /\ joinedCollection (snd (fst (leaveGroup sample_net alice join_body sample_state)))
        = delete j (joinedCollection sample_state))
  /\ status (fst (fst (leaveGroup sample_net mallory join_body sample_state))) = 404.
Proof.
  split.
  - destruct (leave_removes_one_own_record (oid := N) sample_net alice join_body
                sample_state group_id) as [Hleft _]; [vm_compute; reflexivity |].
    destruct Hleft as (j & r & Hr & _ & Hown & Hdel & _); [vm_compute; reflexivity |].
    exists j, r. split; [exact Hr | split; [exact Hown | exact Hdel]].
  - destruct (leave_removes_one_own_record (oid := N) sample_net mallory join_body
                sample_state group_id) as [_ Hmissing]; [vm_compute; reflexivity |].
    apply Hmissing; [vm_compute; reflexivity | vm_compute; reflexivity |].
    intros j r Hr. unfold sample_state in Hr. cbn [joinedCollection] in Hr.
    apply lookup_singleton_Some in Hr as [_ <-].
    vm_compute. reflexivity.
Defined.

Lemma protected_routes_reject_witness :
  exists r,
    status r = 401
    /\ route_deleteGroup hex24_isValid hex24_new false sample_verify sample_net
         bare_request sample_state = (r, sample_state, [])
    /\ route_createComment hex24_isValid hex24_new false sample_verify sample_net
         sample_now bare_request sample_state = (r, sample_state, []).
Proof.
  eexists.
  destruct (protected_routes_reject (oid := N) hex24_isValid hex24_new false sample_verify
              sample_net sample_now bare_request sample_state
              (Response 401
                 "Unauthorized: Please log in again. No authentication token or user info provided.")
              [])
    as (Hstatus & _ & _ & Hdelete & _ & _ & _ & _ & _ & Hcomment & _).
  { vm_compute. reflexivity. }
  split; [exact Hstatus | split; [exact Hdelete | exact Hcomment]].
Defined.

Lemma creator_owns_created_witness :
  exists group,
    inserted (groupCollection sample_state)
      (groupCollection
         (snd (fst (createGroup sample_net sample_now alice run_club sample_state))))
      group
    /\ isCreator group (email alice) (uid alice) = true.
Proof.
  destruct (creator_owns_created (oid := N) hex24_isValid hex24_new sample_net sample_now
              alice article_id run_club sample_state "alice@example.com")
    as (Hgroup & _); [reflexivity | discriminate |].
  apply Hgroup. vm_compute. reflexivity.
Defined.

Lemma creation_keeps_client_owner_fields_witness :
  exists group,
    inserted (groupCollection sample_state)
      (groupCollection
         (snd (fst (createGroup sample_net sample_now alice cohosted_club sample_state))))
      group
    /\ isCreator group (email mallory) (uid mallory) = true.
Proof.
  destruct (creation_keeps_client_owner_fields (oid := N) sample_net sample_now alice
              cohosted_club sample_state "creatorEmail" "mallory@example.com"
              (uid mallory))
    as (Hgroup & _); [vm_compute; reflexivity | discriminate |].
  apply Hgroup; [ | vm_compute; reflexivity].
  apply (bool_decide_unpack _). vm_compute. exact I.
Defined.

Lemma update_merges_fields_witness :
  exists d',
    groupCollection
      (snd (fst (updateGroup hex24_isValid hex24_new sample_net sample_now alice group_id
                   {[ "groupName" := VStr "Trail Club" ]} sample_state))) !! 161%N
    = Some d'
    /\ d' !! "updatedAt" = Some (VStr sample_now)
    /\ d' !! "groupName" = Some (VStr "Trail Club")
    /\ d' !! "maxMembers" = Some (VNum 10).
Proof.
  destruct (update_merges_fields (oid := N) hex24_isValid hex24_new sample_net sample_now
              alice group_id {[ "groupName" := VStr "Trail Club" ]} sample_state 161%N
              run_club)
    as (Hgroup & _); [vm_compute; reflexivity | vm_compute; reflexivity |].
  destruct Hgroup as (d' & Hd' & Hupdated & Hfields & _);
    [vm_compute; reflexivity | vm_compute; reflexivity |].
  exists d'. split; [exact Hd' | split; [exact Hupdated | split]].
  - rewrite (Hfields "groupName"); [vm_compute; reflexivity |].
    apply (bool_decide_unpack _). vm_compute. exact I.
  - rewrite (Hfields "maxMembers"); [vm_compute; reflexivity |].
    apply (bool_decide_unpack _). vm_compute. exact I.
Defined.

Lemma delete_removes_only_its_target_witness :
  groupCollection
    (snd (fst (deleteGroup hex24_isValid hex24_new sample_net alice group_id sample_state)))
  = delete 161%N (groupCollection sample_state)
  /\ articlesCollection
       (snd (fst (deleteGroup hex24_isValid hex24_new sample_net alice group_id
                    sample_state)))
     = articlesCollection sample_state.
Proof.
  destruct (delete_removes_only_its_target (oid := N) hex24_isValid hex24_new sample_net
              alice group_id comment_id sample_state 161%N 195%N)
    as (Hgroup & _); [vm_compute; reflexivity | vm_compute; reflexivity |].
  destruct Hgroup as (Hdeleted & _ & _ & Harticles & _); [vm_compute; reflexivity |].
  split; [exact Hdeleted | exact Harticles].
Defined.

Lemma saveUser_upsert_witness :
  status (fst (fst (saveUser sample_net (VStr sample_now) (VStr sample_now) bob_body
                      sample_state))) = 200
  /\ size (usersCollection
             (snd (fst (saveUser sample_net (VStr sample_now) (VStr sample_now) bob_body
                          sample_state)))) = 1%nat.
Proof.
  destruct (saveUser_upsert (oid := N) sample_net (VStr sample_now) (VStr sample_now)
              bob_body sample_state "bob@example.com")
    as (_ & Hnew & _); [vm_compute; reflexivity |].
  destruct Hnew as (Hstatus & d & _ & _ & _ & _ & _ & Hsize);
    [vm_compute; reflexivity | vm_compute; reflexivity | |].
  { intros j r Hr. vm_compute in Hr. discriminate. }
  split; [exact Hstatus | exact Hsize].
Defined.

Lemma saveUser_twice_witness :
  exists j d,
    usersCollection
      (snd (fst (saveUser sample_net (VStr "2025-03-01T08:00:00.000Z")
                   (VStr "2025-03-01T08:00:00.000Z") robert_body
                   (snd (fst (saveUser sample_net (VStr sample_now) (VStr sample_now)
                                bob_body sample_state))))))
    = <[j := d]> (usersCollection sample_state)
    /\ d !! "createdAt" = Some (VStr sample_now)
    /\ d !! "name" = Some (VStr "Robert").
Proof.
  destruct (saveUser_twice (oid := N) sample_net sample_net (VStr sample_now)
              (VStr sample_now) (VStr "2025-03-01T08:00:00.000Z")
              (VStr "2025-03-01T08:00:00.000Z") bob_body robert_body sample_state
              "bob@example.com")
    as (j & d & _ & Hstate & Hcreated & _ & Hname & _);
    [vm_compute; reflexivity | vm_compute; reflexivity | vm_compute; reflexivity
    | vm_compute; reflexivity | vm_compute; reflexivity | | ].
  { intros j r Hr. vm_compute in Hr. discriminate. }
  exists j, d. split; [exact Hstate | split; [exact Hcreated | exact Hname]].
Defined.

Lemma userJoinedGroups_own_records_witness :
  alice_joined ∈ snd (fst (fst (userJoinedGroups sample_net alice sample_state))).
Proof.
  destruct (userJoinedGroups_own_records (oid := N) sample_net alice sample_state)
    as [_ Hok].
  destruct Hok as [_ Hiff]; [vm_compute; reflexivity |].
  apply Hiff. exists 1%N. split; vm_compute; reflexivity.
Defined.

Lemma getGroups_filter_witness :
  run_club ∈ snd (fst (fst (getGroups sample_net (email alice) sample_state))).
Proof.
  destruct (getGroups_filter (oid := N) sample_net (email alice) sample_state)
    as [_ Hok].
  destruct Hok as [_ Hiff]; [vm_compute; reflexivity |].
  apply Hiff. exists 161%N. split; [vm_compute; reflexivity |].
  intros _. vm_compute. reflexivity.
Defined.
